(** * Emergency dispatch simulator: the greedy allocator and its cache

    A shallow embedding of the allocation core of the five Python programs
    of the repository and the properties of that core: the candidate
    ranker, the greedy allocation loop, the per-call aggregation and the
    background cache refresher.

    - [main.py]: ambulances only, one [available] mapping refreshed by the
      caller ([Main]).
    - [fast_simulation.py]: three services, availability fetched anew for
      every call ([FastSimulation]).
    - [vector_simulation.py]: the same allocation with the candidate list
      written as a comprehension ([candidates_comprehension]).
    - [aioHttp.py]: three services, coroutines over a shared cache
      ([AioHttp]).
    - [aioHttp3.py]: five services, coroutines over a shared cache, counts
      re-read under the lock ([AioHttp3]).

    Python [dict]s are insertion ordered, and the ranker breaks distance
    ties by that order, so a dictionary is an association list that is
    updated in place.  Counts are Python integers, hence [Z].  Coordinates
    and distances are Python floats; the development is parametric in the
    float operations the programs use ([-], [math.hypot], [<]).

    Part I embeds the programs, Part II defines the words the statements
    use, Part III proves the facts. *)

From Stdlib Require Import ZArith List Ascii String Bool Lia Permutation Sorted.
Import ListNotations.
Local Open Scope string_scope.
Local Open Scope list_scope.
Local Open Scope Z_scope.

Set Implicit Arguments.

(** * Part I: the programs *)

(** ** Python dictionaries with string keys *)

Module Dict.

Definition dict (V : Type) := list (string * V).

Section Ops.
Context {V : Type}.

(** [d.get(k)] *)
Fixpoint get (d : dict V) (k : string) : option V :=
  match d with
  | [] => None
  | (k', v) :: rest => if String.eqb k k' then Some v else get rest k
  end.

(** [d[k] = v]: an existing key keeps its position, a new key goes last. *)
Fixpoint set (d : dict V) (k : string) (v : V) : dict V :=
  match d with
  | [] => [(k, v)]
  | (k', v') :: rest =>
      if String.eqb k k' then (k', v) :: rest else (k', v') :: set rest k v
  end.

(** [k in d] *)
Definition mem (d : dict V) (k : string) : bool :=
  match get d k with Some _ => true | None => false end.

(** [d.get(k, dflt)] *)
Definition get_default (d : dict V) (k : string) (dflt : V) : V :=
  match get d k with Some v => v | None => dflt end.

Definition keys (d : dict V) : list string := map fst d.

(** The shape every dictionary built by the programs has. *)
Definition wf (d : dict V) : Prop := NoDup (keys d).

End Ops.

End Dict.

Import Dict.

(** ** Python floats

    [euclidean_distance] subtracts coordinates and calls [math.hypot];
    [list.sort] compares the resulting keys with [<]. *)

Class PyFloat (F : Type) : Type := {
  fsub : F -> F -> F;
  hypot : F -> F -> F;
  flt : F -> F -> bool
}.

(** [a <= b] as [list.sort] sees it: [not (b < a)]. *)
Definition fle {F} {ops : PyFloat F} (a b : F) : bool := negb (flt b a).

(** The keys are ordered: [<] is a strict weak order (no NaN among them). *)
Class PyFloatOrder (F : Type) {ops : PyFloat F} : Prop := {
  flt_asym : forall a b : F, flt a b = true -> flt b a = false;
  fle_trans : forall a b c : F, fle a b = true -> fle b c = true -> fle a c = true
}.

Arguments PyFloatOrder F {ops}.

(** Integer grid: exact arithmetic on points with integer coordinates,
    used to run the programs on concrete inputs. *)
#[export] Instance grid : PyFloat Z := {
  fsub := Z.sub;
  hypot := fun x y => Z.sqrt (x * x + y * y);
  flt := Z.ltb
}.

(** ** [list.sort(key=...)]: a stable sort that only asks [<] of the keys *)

Section Sort.
Context {A F : Type} {ops : PyFloat F}.
Variable key : A -> F.

(** [x] stood before every element of [l] in the unsorted list: it moves
    right only past the elements whose key is strictly smaller. *)
Fixpoint insert_by (x : A) (l : list A) : list A :=
  match l with
  | [] => [x]
  | y :: l' => if flt (key y) (key x) then y :: insert_by x l' else x :: y :: l'
  end.

Definition sort_by (l : list A) : list A := fold_right insert_by [] l.

Definition key_le (x y : A) : Prop := fle (key x) (key y) = true.

(** [x] and [y] tie: neither key is below the other. *)
Definition same_key (x y : A) : bool :=
  negb (flt (key x) (key y)) && negb (flt (key y) (key x)).

End Sort.

(** ** Data shared by the five programs *)

(** A value of [location_details]. *)
Record location (F : Type) : Type := {
  county : string;
  loc_city : string;
  latitude : F;
  longitude : F
}.

Definition location_details (F : Type) := dict (location F).

(** One element of a call's ["requests"]: [req.get("Type")] and
    [req.get("Quantity", 0)].  A missing ["Type"] behaves like any other
    key that no dictionary holds. *)
Record request : Type := {
  Type_ : string;
  Quantity : Z
}.

(** The JSON body every [dispatch] posts. *)
Record payload : Type := {
  sourceCounty : string;
  sourceCity : string;
  targetCounty : string;
  targetCity : string;
  quantity : Z
}.

(** One element of an availability answer. *)
Record item : Type := {
  item_city : option string;
  item_name : option string;
  item_available : option Z;
  item_quantity : option Z
}.

(** What [call_api] returns: [None] on a failed request, the text of a
    body that is not JSON (the empty string for an empty body), or the
    decoded list. *)
Inductive api_data : Type :=
| ApiNone
| ApiText (s : string)
| ApiItems (l : list item).

(** [not data] *)
Definition falsy (d : api_data) : bool :=
  match d with
  | ApiNone => true
  | ApiText s => String.eqb s ""
  | ApiItems l => match l with [] => true | _ => false end
  end.

Inductive exn : Type :=
| RuntimeError
| KeyError
| AttributeError.

(** [s or t] on optional strings: the first truthy operand. *)
Definition str_or (a : option string) (b : option string) : option string :=
  match a with
  | Some s => if String.eqb s "" then b else a
  | None => b
  end.

(** The body of every [get_available*] loop:
    [available[city] = count] for each item in turn. *)
Definition item_key (it : item) : string :=
  match str_or (str_or (item_city it) (item_name it)) (Some "unknown") with
  | Some s => s
  | None => "unknown"
  end.

Definition item_count (it : item) : Z :=
  match item_available it with
  | Some n => n
  | None => match item_quantity it with Some n => n | None => 0 end
  end.

Definition collect_available (l : list item) : dict Z :=
  fold_left (fun available it => set available (item_key it) (item_count it)) l [].

(** ** The candidate ranker *)

Section Ranker.
Context {F : Type} {ops : PyFloat F}.

Definition euclidean_distance (coord1 coord2 : F * F) : F :=
  hypot (fsub (fst coord1) (fst coord2)) (fsub (snd coord1) (snd coord2)).

Definition coord_of (l : location F) : F * F := (latitude l, longitude l).

(** [(city, distance, count)] *)
Definition candidate : Type := string * F * Z.

Definition cand_city (c : candidate) : string := fst (fst c).
Definition cand_dist (c : candidate) : F := snd (fst c).
Definition cand_count (c : candidate) : Z := snd c.

(** What one entry of the snapshot contributes:
    [if count > 0 and city in location_details]. *)
Definition candidate_of (ld : location_details F) (target_coord : F * F)
    (entry : string * Z) : list candidate :=
  let (city, count) := entry in
  if (count >? 0) && mem ld city then
    match get ld city with
    | Some src => [(city, euclidean_distance (coord_of src) target_coord, count)]
    | None => []
    end
  else [].

(** [vector_simulation.py], [process_call]: the list comprehension. *)
Definition candidates_comprehension (ld : location_details F)
    (target_coord : F * F) (available : dict Z) : list candidate :=
  flat_map (candidate_of ld target_coord) available.

(** [fast_simulation.py], [process_multi_service_emergency] (and [main.py],
    [aioHttp.py]): the loop that appends. *)
Definition candidates_append (ld : location_details F)
    (target_coord : F * F) (available : dict Z) : list candidate :=
  fold_left (fun candidates entry => candidates ++ candidate_of ld target_coord entry)
            available [].

(** [candidates.sort(key=lambda candidate: candidate[1])] *)
Definition sort_candidates (l : list candidate) : list candidate :=
  sort_by cand_dist l.

Definition rank_candidates (ld : location_details F) (target_coord : F * F)
    (available : dict Z) : list candidate :=
  sort_candidates (candidates_append ld target_coord available).

Definition rank_candidates_vector (ld : location_details F) (target_coord : F * F)
    (available : dict Z) : list candidate :=
  sort_candidates (candidates_comprehension ld target_coord available).

End Ranker.

Arguments candidate : clear implicits.

(** ** Coroutines over the shared availability cache

    [aioHttp.py] and [aioHttp3.py] run their calls as [asyncio] coroutines
    over one global [availability_cache].  A coroutine is a tree of the two
    things it can do to the outside: a block run under [cache_lock], which
    reads and writes the cache without suspending, and an [await] of the
    network (or of [asyncio.sleep]), where the event loop may run other
    coroutines before the answer comes back. *)

Definition cache : Type := dict (dict Z).

Inductive awaitable : Type :=
| HttpGet (endpoint : string)
| HttpPost (endpoint : string) (body : payload)
| Sleep (seconds : Z).

Inductive prog (A : Type) : Type :=
| Ret (a : A)
| Throw (e : exn)
| Locked (X : Type) (body : cache -> X * cache) (k : X -> prog A)
| Await (r : awaitable) (k : api_data -> prog A).

Arguments Ret {A} a.
Arguments Throw {A} e.
Arguments Locked {A X} body k.
Arguments Await {A} r k.

Fixpoint bind {A B : Type} (p : prog A) (f : A -> prog B) : prog B :=
  match p with
  | Ret a => f a
  | Throw e => Throw e
  | Locked body k => Locked body (fun x => bind (k x) f)
  | Await r k => Await r (fun d => bind (k d) f)
  end.

(** [try: p except Exception: h] *)
Fixpoint try_catch {A : Type} (p : prog A) (h : exn -> prog A) : prog A :=
  match p with
  | Ret a => Ret a
  | Throw e => h e
  | Locked body k => Locked body (fun x => try_catch (k x) h)
  | Await r k => Await r (fun d => try_catch (k d) h)
  end.

Notation "x <- p ;; q" := (bind p (fun x => q))
  (at level 61, p at next level, right associativity).
Notation "p ;; q" := (bind p (fun _ => q))
  (at level 61, right associativity).

(** What an observer of one coroutine sees. *)
Inductive event : Type :=
| EvLocked (before after : cache)
| EvAwait (r : awaitable) (answer : api_data).

(** The rest of the system as one coroutine meets it: the answer to its
    [n]-th await, and what the other coroutines did to the cache while it
    was suspended there. *)
Record world : Type := {
  respond : nat -> awaitable -> api_data;
  interfere : nat -> cache -> cache
}.

Definition result (A : Type) : Type := (exn + A) * cache * list event.

Fixpoint run {A : Type} (w : world) (n : nat) (p : prog A) (c : cache) : result A :=
  match p with
  | Ret a => (inr a, c, [])
  | Throw e => (inl e, c, [])
  | Locked body k =>
      let (x, c') := body c in
      let '(r, c'', t) := run w n (k x) c' in
      (r, c'', EvLocked c c' :: t)
  | Await r k =>
      let d := respond w n r in
      let '(res, c', t) := run w (S n) (k d) (interfere w n c) in
      (res, c', EvAwait r d :: t)
  end.

Definition returned {A : Type} (r : result A) : exn + A := fst (fst r).
Definition final_cache {A : Type} (r : result A) : cache := snd (fst r).
Definition trace {A : Type} (r : result A) : list event := snd r.

(** A world in which nothing else touches the cache. *)
Definition alone (answers : awaitable -> api_data) : world :=
  {| respond := fun _ r => answers r; interfere := fun _ c => c |}.

(** *** Several coroutines on one event loop

    A coroutine runs until it suspends at an [await]; resuming it delivers
    the answer and runs it to its next [await].  A schedule names the
    coroutine the event loop resumes at each turn. *)

Fixpoint advance {A : Type} (p : prog A) (c : cache) : prog A * cache * list event :=
  match p with
  | Locked body k =>
      let (x, c') := body c in
      let '(p', c'', t) := advance (k x) c' in
      (p', c'', EvLocked c c' :: t)
  | _ => (p, c, [])
  end.

Definition resume {A : Type} (answers : awaitable -> api_data)
    (p : prog A) (c : cache) : prog A * cache * list event :=
  match p with
  | Await r k =>
      let '(p', c', t) := advance (k (answers r)) c in
      (p', c', EvAwait r (answers r) :: t)
  | _ => advance p c
  end.

Fixpoint resume_nth {A : Type} (answers : awaitable -> api_data) (i : nat)
    (tasks : list (prog A)) (c : cache) : list (prog A) * cache * list event :=
  match tasks, i with
  | [], _ => ([], c, [])
  | p :: rest, O =>
      let '(p', c', t) := resume answers p c in (p' :: rest, c', t)
  | p :: rest, S j =>
      let '(rest', c', t) := resume_nth answers j rest c in (p :: rest', c', t)
  end.

Fixpoint event_loop {A : Type} (answers : awaitable -> api_data)
    (schedule : list nat) (tasks : list (prog A)) (c : cache)
  : list (prog A) * cache * list (nat * event) :=
  match schedule with
  | [] => (tasks, c, [])
  | i :: later =>
      let '(tasks', c', t) := resume_nth answers i tasks c in
      let '(tasks'', c'', t') := event_loop answers later tasks' c' in
      (tasks'', c'', map (pair i) t ++ t')
  end.

(** The orders a trace sent to the gateway, oldest first. *)
Fixpoint posted (t : list event) : list (string * payload) :=
  match t with
  | [] => []
  | EvAwait (HttpPost endpoint body) _ :: rest => (endpoint, body) :: posted rest
  | _ :: rest => posted rest
  end.

(** [availability_cache[service_type][city]], if both keys are there. *)
Definition count_at (c : cache) (service_type city : string) : option Z :=
  match get c service_type with
  | Some available => get available city
  | None => None
  end.

(** ** What a call looks like *)

(** [call.get("city")] and [call.get("requests", [])]. *)
Record call : Type := {
  call_city : option string;
  call_requests : list request
}.

(** [not target_city or target_city not in location_details], and the
    coordinates read from the index when the test passes. *)
Definition known_target {F : Type} (ld : location_details F) (c : call)
  : option (string * location F) :=
  match call_city c with
  | None => None
  | Some target_city =>
      if String.eqb target_city "" then None
      else match get ld target_city with
           | Some tgt => Some (target_city, tgt)
           | None => None
           end
  end.

(** How the loop over a call's requests left one of them: it never reached
    the allocation ([continue]), or it allocated and ended with
    [remaining]. *)
Inductive outcome : Type :=
| Skipped
| Allocated (remaining : Z).

(** The units of a request that were asked for and not obtained. *)
Definition unfulfilled (req : request) (o : outcome) : Z :=
  match o with
  | Allocated remaining => remaining
  | Skipped => Z.max 0 (Quantity req)
  end.

(** [if remaining > 0: all_success = False] *)
Definition note_outcome (all_success : bool) (o : outcome) : bool :=
  match o with
  | Allocated remaining => if remaining >? 0 then false else all_success
  | Skipped => all_success
  end.

Definition make_payload {F : Type} (src tgt : location F) (count : Z) : payload :=
  {| sourceCounty := county src;
     sourceCity := loc_city src;
     targetCounty := county tgt;
     targetCity := loc_city tgt;
     quantity := count |}.

(** [get_available]: the part after [call_api] has answered. *)
Definition parse_available (data : api_data) : exn + dict Z :=
  if falsy data then inl RuntimeError
  else match data with
       | ApiItems l => inr (collect_available l)
       | _ => inl AttributeError
       end.

Definition of_result {A : Type} (r : exn + A) : prog A :=
  match r with inl e => Throw e | inr a => Ret a end.

(** ** [aioHttp3.py]: five services, take under the lock, then dispatch *)

Module AioHttp3.

Definition availability_cache : cache :=
  [("Medical", []); ("Fire", []); ("Police", []); ("Rescue", []); ("Utility", [])].

Definition dispatch_endpoints : dict string :=
  [("Medical", "/medical/dispatch"); ("Fire", "/fire/dispatch");
   ("Police", "/police/dispatch"); ("Rescue", "/rescue/dispatch");
   ("Utility", "/utility/dispatch")].

Definition get_available (endpoint : string) : prog (dict Z) :=
  Await (HttpGet endpoint) (fun data => of_result (parse_available data)).

(** [asyncio.gather] of the five fetches: every request is sent, then the
    answers are turned into mappings; the first failure is the one raised. *)
Definition gather_available : prog (dict Z * dict Z * dict Z * dict Z * dict Z) :=
  Await (HttpGet "/medical/search") (fun d1 =>
  Await (HttpGet "/fire/search") (fun d2 =>
  Await (HttpGet "/police/search") (fun d3 =>
  Await (HttpGet "/rescue/search") (fun d4 =>
  Await (HttpGet "/utility/search") (fun d5 =>
    med <- of_result (parse_available d1) ;;
    fire <- of_result (parse_available d2) ;;
    police <- of_result (parse_available d3) ;;
    rescue <- of_result (parse_available d4) ;;
    utility <- of_result (parse_available d5) ;;
    Ret (med, fire, police, rescue, utility)))))).

(** The five assignments made under one [async with cache_lock]. *)
Definition replace_all (med fire police rescue utility : dict Z) (c : cache) : cache :=
  set (set (set (set (set c "Medical" med) "Fire" fire) "Police" police)
           "Rescue" rescue) "Utility" utility.

(** One turn of the [while True] of [update_availability_cache]. *)
Definition refresh_cycle (interval : Z) : prog unit :=
  try_catch
    (fetched <- gather_available ;;
     let '(med, fire, police, rescue, utility) := fetched in
     Locked (fun c => (tt, replace_all med fire police rescue utility c)) Ret)
    (fun _ => Ret tt) ;;
  Await (Sleep interval) (fun _ => Ret tt).

Fixpoint update_availability_cache (turns : nat) (interval : Z) : prog unit :=
  match turns with
  | O => Ret tt
  | S more => refresh_cycle interval ;; update_availability_cache more interval
  end.

(** The read-compare-subtract made under one [async with cache_lock].
    The inner mapping is there when the store happens: the positive count
    was just read from it. *)
Definition store (c : cache) (service_type city : string) (v : Z) : cache :=
  match get c service_type with
  | Some available => set c service_type (set available city v)
  | None => c
  end.

Definition try_take (service_type city : string) (remaining : Z) (c : cache)
  : Z * cache :=
  let current_avail := get_default (get_default c service_type []) city 0 in
  if current_avail >? 0 then
    let dispatch_count := Z.min current_avail remaining in
    (dispatch_count, store c service_type city (current_avail - dispatch_count))
  else (0, c).

Section Program.
Context {F : Type} {ops : PyFloat F}.
Variable ld : location_details F.

Definition dispatch (endpoint source_city target_city : string) (count : Z)
  : prog api_data :=
  match get ld source_city, get ld target_city with
  | Some src, Some tgt =>
      Await (HttpPost endpoint (make_payload src tgt count)) Ret
  | _, _ => Ret ApiNone
  end.

Definition pair_of (target_coord : F * F) (entry : string * Z) : list (string * F) :=
  let (city, count) := entry in
  if (count >? 0) && mem ld city then
    match get ld city with
    | Some src => [(city, euclidean_distance (coord_of src) target_coord)]
    | None => []
    end
  else [].

(** The candidate list built under the lock; [None] when the service type
    is not a key of the cache. *)
Definition snapshot_candidates (target_coord : F * F) (service_type : string)
    (c : cache) : option (list (string * F)) * cache :=
  match get c service_type with
  | None => (None, c)
  | Some available => (Some (flat_map (pair_of target_coord) available), c)
  end.

(** One candidate of the inner loop, past the [break] test. *)
Definition take_and_dispatch (service_type target_city city : string)
    (remaining : Z) : prog Z :=
  Locked (try_take service_type city remaining) (fun dispatch_count =>
    if dispatch_count >? 0 then
      match get dispatch_endpoints service_type with
      | Some endpoint =>
          dispatch endpoint city target_city dispatch_count ;;
          Ret (remaining - dispatch_count)
      | None => Ret remaining
      end
    else Ret remaining).

Fixpoint take_loop (service_type target_city : string)
    (candidates : list (string * F)) (remaining : Z) : prog Z :=
  match candidates with
  | [] => Ret remaining
  | (city, _) :: rest =>
      if remaining <=? 0 then Ret remaining
      else
        remaining' <- take_and_dispatch service_type target_city city remaining ;;
        take_loop service_type target_city rest remaining'
  end.

(** The body of the loop over [requests_list]. *)
Definition allocate_request (target_city : string) (target_coord : F * F)
    (req : request) : prog outcome :=
  let service_type := Type_ req in
  let quantity_needed := Quantity req in
  if quantity_needed <=? 0 then Ret Skipped
  else
    Locked (snapshot_candidates target_coord service_type) (fun snapshot =>
      match snapshot with
      | None => Ret Skipped
      | Some candidates =>
          remaining <- take_loop service_type target_city
                         (sort_by snd candidates) quantity_needed ;;
          Ret (Allocated remaining)
      end).

Fixpoint requests_loop (target_city : string) (target_coord : F * F)
    (requests_list : list request) (all_success : bool) : prog bool :=
  match requests_list with
  | [] => Ret all_success
  | req :: rest =>
      o <- allocate_request target_city target_coord req ;;
      requests_loop target_city target_coord rest (note_outcome all_success o)
  end.

Definition process_multi_service_emergency_shared (c : call) : prog bool :=
  match known_target ld c with
  | None => Ret false
  | Some (target_city, tgt) =>
      match call_requests c with
      | [] => Ret false
      | requests_list =>
          requests_loop target_city (coord_of tgt) requests_list true
      end
  end.

End Program.

End AioHttp3.

(** ** [aioHttp.py]: three services, dispatch, then subtract under the lock *)

Module AioHttp.

Definition availability_cache : cache :=
  [("Medical", []); ("Fire", []); ("Police", [])].

Definition get_available (endpoint : string) : prog (dict Z) :=
  Await (HttpGet endpoint) (fun data => of_result (parse_available data)).

Definition gather_available : prog (dict Z * dict Z * dict Z) :=
  Await (HttpGet "/medical/search") (fun d1 =>
  Await (HttpGet "/fire/search") (fun d2 =>
  Await (HttpGet "/police/search") (fun d3 =>
    med <- of_result (parse_available d1) ;;
    fire <- of_result (parse_available d2) ;;
    police <- of_result (parse_available d3) ;;
    Ret (med, fire, police)))).

Definition replace_all (med fire police : dict Z) (c : cache) : cache :=
  set (set (set c "Medical" med) "Fire" fire) "Police" police.

Definition refresh_cycle (interval : Z) : prog unit :=
  try_catch
    (fetched <- gather_available ;;
     let '(med, fire, police) := fetched in
     Locked (fun c => (tt, replace_all med fire police c)) Ret)
    (fun _ => Ret tt) ;;
  Await (Sleep interval) (fun _ => Ret tt).

(** The [if]/[elif] chain of the inner loop. *)
Definition dispatch_endpoint (service_type : string) : option string :=
  if String.eqb service_type "Medical" then Some "/medical/dispatch"
  else if String.eqb service_type "Fire" then Some "/fire/dispatch"
  else if String.eqb service_type "Police" then Some "/police/dispatch"
  else None.

(** [availability_cache[service_type][city] -= dispatch_count] *)
Definition decrement (service_type city : string) (dispatch_count : Z) (c : cache)
  : (exn + unit) * cache :=
  match get c service_type with
  | None => (inl KeyError, c)
  | Some available =>
      match get available city with
      | None => (inl KeyError, c)
      | Some v => (inr tt, set c service_type (set available city (v - dispatch_count)))
      end
  end.

Section Program.
Context {F : Type} {ops : PyFloat F}.
Variable ld : location_details F.

Definition dispatch (endpoint source_city target_city : string) (count : Z)
  : prog api_data :=
  match get ld source_city, get ld target_city with
  | Some src, Some tgt =>
      Await (HttpPost endpoint (make_payload src tgt count)) Ret
  | _, _ => Ret ApiNone
  end.

(** The candidate list, built and sorted under the lock, counts included. *)
Definition snapshot_candidates (target_coord : F * F) (service_type : string)
    (c : cache) : option (list (candidate F)) * cache :=
  match get c service_type with
  | None => (None, c)
  | Some available => (Some (rank_candidates ld target_coord available), c)
  end.

(** One candidate of the inner loop, past the [break] test and with an
    endpoint: the amount comes from the snapshot, the order is posted, and
    only then is the amount subtracted from the live count. *)
Definition dispatch_and_subtract (service_type target_city endpoint city : string)
    (avail_count remaining : Z) : prog Z :=
  let dispatch_count := Z.min avail_count remaining in
  dispatch endpoint city target_city dispatch_count ;;
  Locked (decrement service_type city dispatch_count) (fun r =>
    match r with
    | inl e => Throw e
    | inr _ => Ret (remaining - dispatch_count)
    end).

Fixpoint dispatch_loop (service_type target_city : string)
    (candidates : list (candidate F)) (remaining : Z) : prog Z :=
  match candidates with
  | [] => Ret remaining
  | (city, _, avail_count) :: rest =>
      if remaining <=? 0 then Ret remaining
      else
        match dispatch_endpoint service_type with
        | None => dispatch_loop service_type target_city rest remaining
        | Some endpoint =>
            remaining' <- dispatch_and_subtract service_type target_city endpoint
                            city avail_count remaining ;;
            dispatch_loop service_type target_city rest remaining'
        end
  end.

Definition allocate_request (target_city : string) (target_coord : F * F)
    (req : request) : prog outcome :=
  let service_type := Type_ req in
  let quantity_needed := Quantity req in
  if quantity_needed <=? 0 then Ret Skipped
  else
    Locked (snapshot_candidates target_coord service_type) (fun snapshot =>
      match snapshot with
      | None => Ret Skipped
      | Some candidates =>
          remaining <- dispatch_loop service_type target_city candidates
                         quantity_needed ;;
          Ret (Allocated remaining)
      end).

Fixpoint requests_loop (target_city : string) (target_coord : F * F)
    (requests_list : list request) (all_success : bool) : prog bool :=
  match requests_list with
  | [] => Ret all_success
  | req :: rest =>
      o <- allocate_request target_city target_coord req ;;
      requests_loop target_city target_coord rest (note_outcome all_success o)
  end.

Definition process_multi_service_emergency_shared (c : call) : prog bool :=
  match known_target ld c with
  | None => Ret false
  | Some (target_city, tgt) =>
      match call_requests c with
      | [] => Ret false
      | requests_list =>
          requests_loop target_city (coord_of tgt) requests_list true
      end
  end.

End Program.

End AioHttp.

(** ** [fast_simulation.py]: one call, its own copy of the availability *)

Module FastSimulation.

(** An order as the gateway receives it: the endpoint and the body. *)
Definition order : Type := string * payload.

(** [get_available_ambulances] and its two siblings. *)
Definition get_available (answers : awaitable -> api_data) (endpoint : string)
  : exn + dict Z :=
  parse_available (answers (HttpGet endpoint)).

(** The [if]/[elif] chain that picks [dispatch_ambulances],
    [dispatch_firefighters] or [dispatch_police]. *)
Definition dispatcher (service_type : string) : option string :=
  if String.eqb service_type "Medical" then Some "/medical/dispatch"
  else if String.eqb service_type "Fire" then Some "/fire/dispatch"
  else if String.eqb service_type "Police" then Some "/police/dispatch"
  else None.

Section Program.
Context {F : Type} {ops : PyFloat F}.
Variable ld : location_details F.

(** What [dispatch_*] posts: nothing when a city is missing from the
    index. *)
Definition dispatch_order (endpoint source_city target_city : string) (count : Z)
  : list order :=
  match get ld source_city, get ld target_city with
  | Some src, Some tgt => [(endpoint, make_payload src tgt count)]
  | _, _ => []
  end.

(** The loop over the ranked candidates; [available[city] -= dispatch_count]
    raises [KeyError] on a city the mapping does not hold. *)
Fixpoint dispatch_loop (service_type target_city : string)
    (candidates : list (candidate F)) (remaining : Z) (available : dict Z)
    (log : list order) : exn + (Z * dict Z * list order) :=
  match candidates with
  | [] => inr (remaining, available, log)
  | (city, _, avail_count) :: rest =>
      if remaining <=? 0 then inr (remaining, available, log)
      else
        let dispatch_count := Z.min avail_count remaining in
        match dispatcher service_type with
        | None => dispatch_loop service_type target_city rest remaining available log
        | Some endpoint =>
            match get available city with
            | None => inl KeyError
            | Some v =>
                dispatch_loop service_type target_city rest
                  (remaining - dispatch_count)
                  (set available city (v - dispatch_count))
                  (log ++ dispatch_order endpoint city target_city dispatch_count)
            end
        end
  end.

(** Ranking and allocating for one request. *)
Definition allocate (tgt : location F) (service_type target_city : string)
    (quantity_needed : Z) (available : dict Z) (log : list order)
  : exn + (Z * dict Z * list order) :=
  dispatch_loop service_type target_city
    (rank_candidates ld (coord_of tgt) available) quantity_needed available log.

(** [all_success], [available_resources] and the orders posted so far. *)
Definition state : Type := bool * dict (dict Z) * list order.

(** The body of the loop over [requests_list]. *)
Definition process_request (target_city : string) (req : request) (st : state)
  : exn + state :=
  let '(all_success, available_resources, log) := st in
  let service_type := Type_ req in
  let quantity_needed := Quantity req in
  if quantity_needed <=? 0 then inr st
  else
    match get ld target_city with
    | None => inr st
    | Some tgt =>
        match get available_resources service_type with
        | None => inr st
        | Some available =>
            match allocate tgt service_type target_city quantity_needed
                    available log with
            | inl e => inl e
            | inr (remaining, available', log') =>
                inr (if remaining >? 0 then false else all_success,
                     set available_resources service_type available',
                     log')
            end
        end
    end.

Fixpoint requests_loop (target_city : string) (requests_list : list request)
    (st : state) : exn + state :=
  match requests_list with
  | [] => inr st
  | req :: rest =>
      match process_request target_city req st with
      | inl e => inl e
      | inr st' => requests_loop target_city rest st'
      end
  end.

(** The three fetches, in the order their results are read. *)
Definition fetch_available_resources (answers : awaitable -> api_data)
  : exn + dict (dict Z) :=
  match get_available answers "/medical/search" with
  | inl e => inl e
  | inr med =>
      match get_available answers "/fire/search" with
      | inl e => inl e
      | inr fire =>
          match get_available answers "/police/search" with
          | inl e => inl e
          | inr police =>
              inr [("Medical", med); ("Fire", fire); ("Police", police)]
          end
      end
  end.

(** The value returned, the availability the call ends with and the orders
    it posted; a call turned away before the fetches has no availability. *)
Definition process_multi_service_emergency (answers : awaitable -> api_data)
    (cl : call) : exn + state :=
  match call_city cl with
  | None => inr (false, [], [])
  | Some target_city =>
      if String.eqb target_city "" then inr (false, [], [])
      else
        match call_requests cl with
        | [] => inr (false, [], [])
        | requests_list =>
            match fetch_available_resources answers with
            | inl e => inl e
            | inr available_resources =>
                requests_loop target_city requests_list
                  (true, available_resources, [])
            end
        end
  end.

End Program.

End FastSimulation.

(** ** [main.py]: ambulances only, one count per call *)

Module Main.

(** The keys [process_emergency] reads from a call, once the call is a
    dictionary (a call given as text is decoded first). *)
Record call : Type := {
  city : option string;
  needed : option Z;
  required : option Z;
  count : option Z;
  requests : option (list request)
}.

(** [a or b] on optional integers: [a] when it is a non-zero number. *)
Definition int_or (a b : option Z) : option Z :=
  match a with
  | Some n => if n =? 0 then b else a
  | None => b
  end.

(** [sum(req.get("Quantity", 0) for req in call["requests"])] *)
Definition sum_quantities (l : list request) : Z :=
  fold_left (fun acc req => acc + Quantity req) l 0.

Section Program.
Context {F : Type} {ops : PyFloat F}.
Variable ld : location_details F.

(** [dispatch_ambulances] *)
Definition dispatch_order (source_city target_city : string) (n : Z)
  : list (string * payload) :=
  match get ld source_city, get ld target_city with
  | Some src, Some tgt => [("/medical/dispatch", make_payload src tgt n)]
  | _, _ => []
  end.

Fixpoint dispatch_loop (target_city : string) (candidates : list (candidate F))
    (remaining : Z) (available : dict Z) (log : list (string * payload))
  : exn + (Z * dict Z * list (string * payload)) :=
  match candidates with
  | [] => inr (remaining, available, log)
  | (source, _, avail_count) :: rest =>
      if remaining <=? 0 then inr (remaining, available, log)
      else
        let dispatch_count := Z.min avail_count remaining in
        match get available source with
        | None => inl KeyError
        | Some v =>
            dispatch_loop target_city rest (remaining - dispatch_count)
              (set available source (v - dispatch_count))
              (log ++ dispatch_order source target_city dispatch_count)
        end
  end.

(** The value returned, the caller's [available] as the call leaves it,
    and the orders posted. *)
Definition process_emergency (cl : call) (available : dict Z)
  : exn + (bool * dict Z * list (string * payload)) :=
  let rejected := inr (false, available, []) in
  match city cl with
  | None => rejected
  | Some target_city =>
      if String.eqb target_city "" then rejected
      else
        let stated := int_or (int_or (needed cl) (required cl)) (count cl) in
        let ambulances_needed :=
          match stated with
          | Some n => Some n
          | None => option_map sum_quantities (requests cl)
          end in
        match ambulances_needed with
        | None => rejected
        | Some n =>
            if (n =? 0) || (n <=? 0) then rejected
            else
              match get ld target_city with
              | None => rejected
              | Some tgt =>
                  match dispatch_loop target_city
                          (rank_candidates ld (coord_of tgt) available)
                          n available [] with
                  | inl e => inl e
                  | inr (remaining, available', log) =>
                      inr (negb (remaining >? 0), available', log)
                  end
              end
        end
  end.

End Program.

End Main.

(** ** Concrete towns to run the programs on *)

(** A city of the grid. *)
Definition place (name : string) (x y : Z) : location Z :=
  {| county := "Shire"; loc_city := name; latitude := x; longitude := y |}.

(** [T] at the origin, [A] at distance 1, [B] at distance 2. *)
Definition towns : location_details Z :=
  [("T", place "T" 0 0); ("A", place "A" 1 0); ("B", place "B" 2 0)].

(** A gateway that accepts every order. *)
Definition accepting (r : awaitable) : api_data := ApiText "ok".

(** A network that is down: every request comes back absent. *)
Definition failing (r : awaitable) : api_data := ApiNone.

(** The cache of [aioHttp3.py] after a refresh that found ambulances at
    [A] and [B]. *)
Definition stocked : cache :=
  [("Medical", [("A", 5); ("B", 3)]); ("Fire", []); ("Police", []);
   ("Rescue", []); ("Utility", [])].

(** A call to [T] for [n] ambulances. *)
Definition medical (n : Z) : call :=
  {| call_city := Some "T";
     call_requests := [{| Type_ := "Medical"; Quantity := n |}] |}.

(** The cache of [aioHttp.py] with five ambulances, all at [A]. *)
Definition five_at_A : cache :=
  [("Medical", [("A", 5)]); ("Fire", []); ("Police", [])].

(** What two calls for four units each do to one city that holds five:
    the event loop starts the first, which ranks under the lock and
    suspends in its POST; starts the second, which ranks the same five and
    suspends too; then each is resumed and subtracts its four. *)
Definition two_calls_for_four :=
  event_loop accepting [0; 1; 0; 1]%nat
    [AioHttp.process_multi_service_emergency_shared towns (medical 4);
     AioHttp.process_multi_service_emergency_shared towns (medical 4)]
    five_at_A.

(** An availability source with five units at [A] and three at [B] for
    every service. *)
Definition supplied (r : awaitable) : api_data :=
  ApiItems [{| item_city := Some "A"; item_name := None;
               item_available := Some 5; item_quantity := None |};
            {| item_city := Some "B"; item_name := None;
               item_available := Some 3; item_quantity := None |}].

(** A call to a city the index does not hold. *)
Definition to_atlantis : call :=
  {| call_city := Some "Atlantis";
     call_requests := [{| Type_ := "Medical"; Quantity := 1 |}] |}.

(** A call of [main.py] to [T] that gives its count through ["requests"]. *)
Definition ambulances (quantities : list Z) : Main.call :=
  {| Main.city := Some "T";
     Main.needed := None; Main.required := None; Main.count := None;
     Main.requests :=
       Some (map (fun q => {| Type_ := "Medical"; Quantity := q |}) quantities) |}.

(** The five addresses [update_availability_cache] asks, in the order of
    its [gather]. *)
Definition search_endpoints : list string :=
  ["/medical/search"; "/fire/search"; "/police/search"; "/rescue/search";
   "/utility/search"].

(** ** The location directory: [get_location_details]

    The same function in [main.py], [fast_simulation.py], [aioHttp.py] and
    [aioHttp3.py]. *)

(** [not x] on a float: only [0.0] is falsy. *)
Class PyFloatTruth (F : Type) : Type := {
  fis_zero : F -> bool
}.

#[export] Instance grid_truth : PyFloatTruth Z := {
  fis_zero := fun x => x =? 0
}.

(** One element of the answer of [/locations], key by key. *)
Record location_record (F : Type) : Type := {
  rec_city : option string;
  rec_name : option string;
  rec_county : option string;
  rec_latitude : option F;
  rec_lat : option F;
  rec_longitude : option F;
  rec_long : option F
}.

(** How loading the directory fails: [RuntimeError], or [ValueError] with
    one of its two messages. *)
Inductive load_error : Type :=
| LoadFailed
| MissingCityName
| MissingCoordinates.

(** [a or b] on optional floats. *)
Definition float_or {F : Type} {truth : PyFloatTruth F} (a b : option F) : option F :=
  match a with
  | Some x => if fis_zero x then b else a
  | None => b
  end.

(** The body of the loop: the key and the value stored for one record. *)
Definition location_of {F : Type} {truth : PyFloatTruth F} (r : location_record F)
  : load_error + (string * location F) :=
  match str_or (rec_city r) (rec_name r) with
  | None => inl MissingCityName
  | Some city =>
      if String.eqb city "" then inl MissingCityName
      else
        let county := match str_or (rec_county r) (Some "unknown") with
                      | Some s => s
                      | None => "unknown"
                      end in
        match float_or (rec_latitude r) (rec_lat r),
              float_or (rec_longitude r) (rec_long r) with
        | Some la, Some lo =>
            inr (city, {| county := county; loc_city := city;
                          latitude := la; longitude := lo |})
        | _, _ => inl MissingCoordinates
        end
  end.

Fixpoint load_locations {F : Type} {truth : PyFloatTruth F}
    (data : list (location_record F)) (locations : location_details F)
  : load_error + location_details F :=
  match data with
  | [] => inr locations
  | r :: rest =>
      match location_of r with
      | inl e => inl e
      | inr (city, l) => load_locations rest (set locations city l)
      end
  end.

(** [data] is [None] when [call_api] failed. *)
Definition get_location_details {F : Type} {truth : PyFloatTruth F}
    (data : option (list (location_record F))) : load_error + location_details F :=
  match data with
  | None => inl LoadFailed
  | Some [] => inl LoadFailed
  | Some l => load_locations l []
  end.

(** ** [str.lower] and [str.capitalize], on ASCII letters *)

Definition lower_ascii (a : ascii) : ascii :=
  let n := nat_of_ascii a in
  if ((65 <=? n) && (n <=? 90))%nat then ascii_of_nat (n + 32) else a.

Definition upper_ascii (a : ascii) : ascii :=
  let n := nat_of_ascii a in
  if ((97 <=? n) && (n <=? 122))%nat then ascii_of_nat (n - 32) else a.

Fixpoint lower (s : string) : string :=
  match s with
  | EmptyString => EmptyString
  | String a rest => String (lower_ascii a) (lower rest)
  end.

Definition capitalize (s : string) : string :=
  match s with
  | EmptyString => EmptyString
  | String a rest => String (upper_ascii a) (lower rest)
  end.

(** ** [vector_simulation.py]: the compact variant *)

Module VectorSimulation.

(** [get_available]: [for item in data or []] makes an absent or empty
    answer an empty mapping. *)
Definition get_available (answers : awaitable -> api_data) (service : string)
  : exn + dict Z :=
  match answers (HttpGet ("/" ++ service ++ "/search")%string) with
  | ApiNone => inr []
  | ApiText s => if String.eqb s "" then inr [] else inl AttributeError
  | ApiItems l => inr (collect_available l)
  end.

(** The three fetches of [process_call], stored under the capitalized
    names. *)
Definition fetch_available_resources (answers : awaitable -> api_data)
  : exn + dict (dict Z) :=
  match get_available answers (lower "medical") with
  | inl e => inl e
  | inr med =>
      match get_available answers (lower "fire") with
      | inl e => inl e
      | inr fire =>
          match get_available answers (lower "police") with
          | inl e => inl e
          | inr police =>
              inr [(capitalize "medical", med); (capitalize "fire", fire);
                   (capitalize "police", police)]
          end
      end
  end.

Section Program.
Context {F : Type} {ops : PyFloat F}.
Variable ld : location_details F.

(** [dispatch]: the order posted, if both cities are in the index. *)
Definition dispatch (service source_city target_city : string) (count : Z)
  : list (string * payload) :=
  match get ld source_city, get ld target_city with
  | Some src, Some tgt =>
      [(("/" ++ service ++ "/dispatch")%string, make_payload src tgt count)]
  | _, _ => []
  end.

Fixpoint dispatch_loop (service target_city : string)
    (candidates : list (candidate F)) (remaining : Z) (available : dict Z)
    (log : list (string * payload))
  : exn + (Z * dict Z * list (string * payload)) :=
  match candidates with
  | [] => inr (remaining, available, log)
  | (city, _, avail) :: rest =>
      if remaining <=? 0 then inr (remaining, available, log)
      else
        let dispatch_count := Z.min avail remaining in
        match get available city with
        | None => inl KeyError
        | Some v =>
            dispatch_loop service target_city rest (remaining - dispatch_count)
              (set available city (v - dispatch_count))
              (log ++ dispatch (lower service) city target_city dispatch_count)
        end
  end.

(** The body of the loop over [requests_list]. *)
Definition process_request (target_city : string) (target_coord : F * F)
    (req : request) (st : FastSimulation.state) : exn + FastSimulation.state :=
  let '(all_success, available_resources, log) := st in
  let service := Type_ req in
  let qty := Quantity req in
  if (qty <=? 0) || negb (mem available_resources service) then inr st
  else
    match get available_resources service with
    | None => inr st
    | Some available =>
        match dispatch_loop service target_city
                (rank_candidates_vector ld target_coord available)
                qty available log with
        | inl e => inl e
        | inr (remaining, available', log') =>
            inr (if remaining >? 0 then false else all_success,
                 set available_resources service available',
                 log')
        end
    end.

Fixpoint requests_loop (target_city : string) (target_coord : F * F)
    (requests_list : list request) (st : FastSimulation.state)
  : exn + FastSimulation.state :=
  match requests_list with
  | [] => inr st
  | req :: rest =>
      match process_request target_city target_coord req st with
      | inl e => inl e
      | inr st' => requests_loop target_city target_coord rest st'
      end
  end.

(** The value returned, the availability the call ends with and the orders
    it posted; a call turned away before the fetches has no availability. *)
Definition process_call (answers : awaitable -> api_data) (cl : call)
  : exn + FastSimulation.state :=
  match known_target ld cl with
  | None => inr (false, [], [])
  | Some (target_city, tgt) =>
      match call_requests cl with
      | [] => inr (false, [], [])
      | requests_list =>
          match fetch_available_resources answers with
          | inl e => inl e
          | inr available_resources =>
              requests_loop target_city (coord_of tgt) requests_list
                (true, available_resources, [])
          end
      end
  end.

(** The loop of [main] over one batch of calls: the count of calls
    processed and the orders posted. *)
Fixpoint process_batch (answers : awaitable -> api_data) (calls : list call)
    (total_calls target : Z) (log : list (string * payload))
  : exn + (Z * list (string * payload)) :=
  match calls with
  | [] => inr (total_calls, log)
  | cl :: rest =>
      match process_call answers cl with
      | inl e => inl e
      | inr (success, _, orders) =>
          let total_calls' := if success then total_calls + 1 else total_calls in
          if total_calls' >=? target then inr (total_calls', log ++ orders)
          else process_batch answers rest total_calls' target (log ++ orders)
      end
  end.

End Program.

End VectorSimulation.

(** *** The loader of [vector_simulation.py]

    It raises nothing: a record without coordinates is left out, and a
    record is filed under whatever [loc.get("city") or loc.get("name")]
    gives, [None] and the empty string included. *)

Module VectorDirectory.

(** The value stored for one record. *)
Record entry (F : Type) : Type := {
  entry_county : string;
  entry_city : option string;
  entry_latitude : F;
  entry_longitude : F
}.

(** Equality of keys that may be [None]. *)
Definition key_eqb (a b : option string) : bool :=
  match a, b with
  | Some x, Some y => String.eqb x y
  | None, None => true
  | _, _ => false
  end.

(** [d[k] = v] on a dictionary whose keys may be [None]. *)
Fixpoint set {V : Type} (d : list (option string * V)) (k : option string) (v : V)
  : list (option string * V) :=
  match d with
  | [] => [(k, v)]
  | (k', v') :: rest =>
      if key_eqb k k' then (k', v) :: rest else (k', v') :: set rest k v
  end.

(** One record of the comprehension: its filter, its key and its value. *)
Definition entry_of {F : Type} {truth : PyFloatTruth F} (r : location_record F)
  : option (option string * entry F) :=
  match float_or (rec_latitude r) (rec_lat r),
        float_or (rec_longitude r) (rec_long r) with
  | Some la, Some lo =>
      Some (str_or (rec_city r) (rec_name r),
            {| entry_county := match str_or (rec_county r) (Some "unknown") with
                               | Some s => s
                               | None => "unknown"
                               end;
               entry_city := str_or (rec_city r) (rec_name r);
               entry_latitude := la;
               entry_longitude := lo |})
  | _, _ => None
  end.

(** [get_location_details]: the comprehension over [data or []]. *)
Definition get_location_details {F : Type} {truth : PyFloatTruth F}
    (data : option (list (location_record F))) : list (option string * entry F) :=
  fold_left (fun locations r =>
               match entry_of r with
               | Some (k, v) => set locations k v
               | None => locations
               end)
            (match data with Some l => l | None => [] end) [].

(** An entry of the index of the other four programs, as this loader
    stores it. *)
Definition of_location {F : Type} (e : string * location F)
  : option string * entry F :=
  (Some (fst e),
   {| entry_county := county (snd e);
      entry_city := Some (loc_city (snd e));
      entry_latitude := latitude (snd e);
      entry_longitude := longitude (snd e) |}).

End VectorDirectory.

(** ** Counting the calls of a batch: the loops of the two [asyncio] mains *)

(** [aioHttp3.py]: the test against the target is made only after a call
    was counted. *)
Fixpoint tally3 (results : list (exn + bool)) (total_calls_processed target : Z) : Z :=
  match results with
  | [] => total_calls_processed
  | inr true :: rest =>
      let total := total_calls_processed + 1 in
      if total >=? target then total else tally3 rest total target
  | _ :: rest => tally3 rest total_calls_processed target
  end.

(** [aioHttp.py]: the test is made after every result. *)
Fixpoint tally (results : list (exn + bool)) (total_calls_processed target : Z) : Z :=
  match results with
  | [] => total_calls_processed
  | result :: rest =>
      let total := match result with
                   | inr true => total_calls_processed + 1
                   | _ => total_calls_processed
                   end in
      if total >=? target then total else tally rest total target
  end.

(** * Part II: the vocabulary of the statements *)

(** ** Traces and results *)

(** How many awaits a trace went through. *)
Fixpoint awaits (t : list event) : nat :=
  match t with
  | [] => O
  | EvAwait _ _ :: rest => S (awaits rest)
  | EvLocked _ _ :: rest => awaits rest
  end.

(** Running [p] and then [f] on its value. *)
Definition and_then {A B : Type} (w : world) (n : nat) (r : result A)
    (f : A -> prog B) : result B :=
  match r with
  | (inl e, c, t) => (inl e, c, t)
  | (inr a, c, t) =>
      let '(r2, c2, t2) := run w (n + awaits t) (f a) c in (r2, c2, t ++ t2)
  end.




(** [p] raises nothing, wherever and in whatever world it runs, and what
    it returns satisfies [P]. *)
Definition always {A : Type} (p : prog A) (P : A -> Prop) : Prop :=
  forall w n c, exists a, returned (run w n p c) = inr a /\ P a.

(** A result with [f] applied to the value returned, if one was. *)
Definition on_value {A B : Type} (f : A -> B) (r : result A) : result B :=
  match r with
  | (inl e, c, t) => (inl e, c, t)
  | (inr a, c, t) => (inr (f a), c, t)
  end.


(** The cache writes of a trace: the locked blocks that changed nothing
    are reads. *)
Fixpoint locked_blocks (t : list event) : list (cache * cache) :=
  match t with
  | [] => []
  | EvLocked b a :: rest => (b, a) :: locked_blocks rest
  | EvAwait _ _ :: rest => locked_blocks rest
  end.

(** The cache as the [k] first awaits of a coroutine started at its
    [n]-th leave it. *)
Fixpoint after_awaits (w : world) (n k : nat) (c : cache) : cache :=
  match k with
  | O => c
  | S k' => after_awaits w (S n) k' (interfere w n c)
  end.

(** ** Takes, outcomes and orders *)

(** Any number of takes at one pair, one after the other: what each
    returned, and the cache they leave. *)
Fixpoint takes (service_type city : string) (requests : list Z) (c : cache)
  : list Z * cache :=
  match requests with
  | [] => ([], c)
  | requested :: more =>
      let (taken, c') := AioHttp3.try_take service_type city requested c in
      let (rest, c'') := takes service_type city more c' in
      (taken :: rest, c'')
  end.

(** An outcome whose remainder, if it has one, is not negative. *)
Definition settled (o : outcome) : Prop :=
  match o with
  | Skipped => True
  | Allocated remaining => 0 <= remaining
  end.

(** The loop of [aioHttp3.py] over the requests of a call, keeping what
    became of each request instead of folding it into the flag. *)
Fixpoint requests_outcomes {F : Type} {ops : PyFloat F} (ld : location_details F)
    (target_city : string) (target_coord : F * F)
    (requests_list : list request) : prog (list outcome) :=
  match requests_list with
  | [] => Ret []
  | req :: rest =>
      o <- AioHttp3.allocate_request ld target_city target_coord req ;;
      os <- requests_outcomes ld target_city target_coord rest ;;
      Ret (o :: os)
  end.

(** What became of the requests of a call: none is reached when the target
    is not a city of the index. *)
Definition call_outcomes {F : Type} {ops : PyFloat F} (ld : location_details F)
    (cl : call) : prog (list outcome) :=
  match known_target ld cl with
  | None => Ret (map (fun _ => Skipped) (call_requests cl))
  | Some (target_city, tgt) =>
      requests_outcomes ld target_city (coord_of tgt) (call_requests cl)
  end.

(** The rule as the specification words it: a call is reported successful
    exactly when no request of it is left with units unfulfilled. *)
Definition success_iff_all_fulfilled {F : Type} {ops : PyFloat F}
    (ld : location_details F) (cl : call) (w : world) (c : cache) : Prop :=
  returned (run w 0 (AioHttp3.process_multi_service_emergency_shared ld cl) c) = inr true
  <-> exists os, returned (run w 0 (call_outcomes ld cl) c) = inr os /\
                 Forall2 (fun req o => unfulfilled req o = 0) (call_requests cl) os.









(** ** Counts that only shrink *)

(** From [b] to [a] no count that was non-negative has grown or gone
    below zero. *)
Definition shrinks (b a : cache) : Prop :=
  forall service_type city v0,
    count_at b service_type city = Some v0 -> 0 <= v0 ->
    exists v, count_at a service_type city = Some v /\ 0 <= v <= v0.

(** Every locked block of the coroutine only shrinks counts. *)
Inductive gentle {A : Type} : prog A -> Prop :=
| gentle_Ret a : gentle (Ret a)
| gentle_Throw e : gentle (Throw e)
| gentle_Locked X (body : cache -> X * cache) k :
    (forall c, shrinks c (snd (body c))) -> (forall x, gentle (k x)) ->
    gentle (Locked body k)
| gentle_Await r k : (forall d, gentle (k d)) -> gentle (Await r k).

(** The counts every locked block of a labelled trace met and left are
    within the counts the event loop started from. *)
Definition within (c0 : cache) (t : list event) : Prop :=
  forall b a, In (EvLocked b a) t -> shrinks c0 b /\ shrinks c0 a.

(** ** Counting units *)

Definition sumZ (l : list Z) : Z := fold_right Z.add 0 l.

(** The units a mapping holds. *)
Definition total (d : dict Z) : Z := sumZ (map snd d).

(** The units the allocator can draw on: the positive counts of the
    cities the index knows. *)
Definition supply {F : Type} (ld : location_details F) (available : dict Z) : Z :=
  sumZ (map snd (filter (fun e => (snd e >? 0) && mem ld (fst e)) available)).

(** The units a list of orders moves. *)
Definition ordered (log : list (string * payload)) : Z :=
  sumZ (map (fun o => quantity (snd o)) log).

(** The services whose availability [fast_simulation.py] and
    [vector_simulation.py] fetch for a call. *)
Definition fetched_services : list string := ["Medical"; "Fire"; "Police"].

Definition fetched (service : string) : bool :=
  existsb (String.eqb service) fetched_services.

(** A request that asks for nothing the call could give: no positive
    quantity, or a service that is not fetched. *)
Definition idle (req : request) : bool :=
  (Quantity req <=? 0) || negb (fetched (Type_ req)).

(** What [vector_simulation.py] takes the availability to be when the
    source gives nothing. *)
Definition unstocked : dict (dict Z) :=
  [("Medical", []); ("Fire", []); ("Police", [])].

(** An index whose entries carry the name they are stored under, none of
    them empty. *)
Definition named {F : Type} (locations : location_details F) : Prop :=
  forall city l, get locations city = Some l -> loc_city l = city /\ city <> "".

(** An answer of [/locations] on the grid: [A] twice, the second time
    under the short keys, and [B] by its ["name"]. *)
Definition answered : list (location_record Z) :=
  [{| rec_city := Some "A"; rec_name := None; rec_county := Some "Shire";
      rec_latitude := Some 1; rec_lat := None;
      rec_longitude := Some 2; rec_long := None |};
   {| rec_city := Some ""; rec_name := Some "B"; rec_county := None;
      rec_latitude := None; rec_lat := Some 2;
      rec_longitude := Some 0; rec_long := Some 5 |};
   {| rec_city := Some "A"; rec_name := Some "Z"; rec_county := Some "";
      rec_latitude := None; rec_lat := Some 3;
      rec_longitude := None; rec_long := Some 4 |}].

(** The index built from it. *)
Definition loaded : location_details Z :=
  [("A", {| county := "unknown"; loc_city := "A"; latitude := 3; longitude := 4 |});
   ("B", {| county := "unknown"; loc_city := "B"; latitude := 2; longitude := 5 |})].

(** A place on the equator, given under the long keys only. *)
Definition equatorial : location_record Z :=
  {| rec_city := Some "Quito"; rec_name := None; rec_county := None;
     rec_latitude := Some 0; rec_lat := None;
     rec_longitude := Some (-78); rec_long := None |}.

(** [p] raises nothing, wherever and in whatever world it runs, and the
    value it returns and the orders it posted satisfy [Q]. *)
Definition yields {A : Type} (p : prog A)
    (Q : A -> list (string * payload) -> Prop) : Prop :=
  forall w n c, exists a,
    returned (run w n p c) = inr a /\ Q a (posted (trace (run w n p c))).

(** The units a call asks for. *)
Definition asked (requests_list : list request) : Z :=
  sumZ (map (fun req => Z.max 0 (Quantity req)) requests_list).

(** The cache one refresh cycle of [aioHttp3.py] leaves when the five
    searches are answered by [answers] and nothing else runs. *)
Definition refreshed (answers : awaitable -> api_data) (c : cache) : cache :=
  match parse_available (answers (HttpGet "/medical/search")),
        parse_available (answers (HttpGet "/fire/search")),
        parse_available (answers (HttpGet "/police/search")),
        parse_available (answers (HttpGet "/rescue/search")),
        parse_available (answers (HttpGet "/utility/search")) with
  | inr med, inr fire, inr police, inr rescue, inr utility =>
      AioHttp3.replace_all med fire police rescue utility c
  | _, _, _, _, _ => c
  end.

(** The calls of a batch that came back [True]. *)
Definition successes (results : list (exn + bool)) : Z :=
  sumZ (map (fun r => match r with inr true => 1 | _ => 0 end) results).

(** Availability as the three fetches leave it: one mapping for each
    fetched service, no city twice in a mapping. *)
Definition well_stocked (available_resources : dict (dict Z)) : Prop :=
  keys available_resources = fetched_services /\
  forall service available,
    get available_resources service = Some available -> wf available.

(** Whether [p] returns or raises, in whatever world it runs: [Q] holds of
    the value returned and the orders posted, [R] of the orders posted
    before the error. *)
Definition covers {A : Type} (p : prog A)
    (Q : A -> list (string * payload) -> Prop)
    (R : list (string * payload) -> Prop) : Prop :=
  forall w n c,
    match returned (run w n p c) with
    | inr a => Q a (posted (trace (run w n p c)))
    | inl _ => R (posted (trace (run w n p c)))
    end.

(** ** What the ranker is asked for *)

(** The straight-line distance from [city], as the index places it, to the
    point [target_coord]: [hypot] of the two coordinate differences. *)
Definition distance_to {F : Type} {ops : PyFloat F} (ld : location_details F)
    (target_coord : F * F) (city : string) : option F :=
  match get ld city with
  | Some src =>
      Some (hypot (fsub (latitude src) (fst target_coord))
                  (fsub (longitude src) (snd target_coord)))
  | None => None
  end.

(** The entries of the snapshot a ranking keeps, in the order the snapshot
    has them: a strictly positive count, a city of the index. *)
Definition kept_entries {F : Type} (ld : location_details F) (available : dict Z)
  : list (string * Z) :=
  filter (fun entry => (snd entry >? 0) && mem ld (fst entry)) available.

(** A candidate read back as the snapshot entry it stands for. *)
Definition as_entry {F : Type} (c : candidate F) : string * Z :=
  (cand_city c, cand_count c).

(** Neither distance is below the other. *)
Definition ties {F : Type} {ops : PyFloat F} (d x : F) : bool :=
  negb (flt d x) && negb (flt x d).

(** Whether the entry lies at a distance that ties with [d]. *)
Definition entry_ties {F : Type} {ops : PyFloat F} (ld : location_details F)
    (target_coord : F * F) (d : F) (entry : string * Z) : bool :=
  match distance_to ld target_coord (fst entry) with
  | Some x => ties d x
  | None => false
  end.

(** An index with the target away from the origin: [A] and [C] are at
    distance 1 from [T], [B] at distance 9. *)
Definition coast : location_details Z :=
  [("T", {| county := "c"; loc_city := "T"; latitude := 10; longitude := 0 |});
   ("A", {| county := "c"; loc_city := "A"; latitude := 9; longitude := 0 |});
   ("B", {| county := "c"; loc_city := "B"; latitude := 1; longitude := 0 |});
   ("C", {| county := "c"; loc_city := "C"; latitude := 10; longitude := 1 |})].

(** The three availability answers [vector_simulation.py] asks for can be
    read: none of them is a text other than the empty body. *)
Definition readable (answers : awaitable -> api_data) : Prop :=
  forall service s,
    In service ["medical"; "fire"; "police"] ->
    answers (HttpGet ("/" ++ service ++ "/search")%string) = ApiText s -> s = "".

(** A source that knows the ambulances, fails on the firefighters and
    sends an empty body for the police. *)
Definition patchy (r : awaitable) : api_data :=
  match r with
  | HttpGet endpoint =>
      if String.eqb endpoint "/medical/search" then supplied r
      else if String.eqb endpoint "/fire/search" then ApiNone
      else ApiText ""
  | _ => ApiText "ok"
  end.

(** A call to [T] for three services, one of them not fetched. *)
Definition mixed : call :=
  {| call_city := Some "T";
     call_requests := [{| Type_ := "Medical"; Quantity := 7 |};
                       {| Type_ := "Fire"; Quantity := 9 |};
                       {| Type_ := "Rescue"; Quantity := 1 |}] |}.

(** * Part III: facts and theorems *)

(** ** Dictionaries *)

Section DictFacts.
Context {V : Type}.
Implicit Types (d : dict V) (k : string) (v : V).

Lemma get_set_same d k v : get (set d k v) k = Some v.
Proof.
  induction d as [|[k' v'] d IH]; simpl.
  - now rewrite String.eqb_refl.
  - destruct (String.eqb k k') eqn:E; simpl; rewrite E; auto.
Qed.

Lemma get_set_other d k k' v : k' <> k -> get (set d k v) k' = get d k'.
Proof.
  intros Hne. induction d as [|[k0 v0] d IH]; simpl.
  - destruct (String.eqb k' k) eqn:E; auto.
    apply String.eqb_eq in E. contradiction.
  - destruct (String.eqb k k0) eqn:E; simpl.
    + apply String.eqb_eq in E. subst k0.
      destruct (String.eqb k' k) eqn:E'; auto.
      apply String.eqb_eq in E'. contradiction.
    + now rewrite IH.
Qed.

Lemma get_Some_In d k v : get d k = Some v -> In (k, v) d.
Proof.
  induction d as [|[k0 v0] d IH]; simpl; [discriminate|].
  destruct (String.eqb k k0) eqn:E.
  - apply String.eqb_eq in E. subst. intros [= ->]. now left.
  - intros H. right. auto.
Qed.

Lemma In_get_wf d k v : wf d -> In (k, v) d -> get d k = Some v.
Proof.
  unfold wf, keys. induction d as [|[k0 v0] d IH]; simpl; [tauto|].
  intros Hnd [Heq|Hin].
  - inversion Heq; subst. now rewrite String.eqb_refl.
  - inversion Hnd as [|? ? Hnotin Hnd']; subst.
    destruct (String.eqb k k0) eqn:E.
    + apply String.eqb_eq in E. subst k0. exfalso. apply Hnotin.
      change k with (fst (k, v)). now apply in_map.
    + auto.
Qed.

End DictFacts.

(** ** The order of the keys *)

#[export] Instance grid_order : PyFloatOrder Z.
Proof.
  split; unfold fle; simpl; intros.
  - apply Z.ltb_lt in H. apply Z.ltb_ge. lia.
  - apply negb_true_iff, Z.ltb_ge in H, H0.
    apply negb_true_iff, Z.ltb_ge. lia.
Qed.

Lemma fle_total {F} {ops : PyFloat F} {ord : PyFloatOrder F} (a b : F) :
  fle a b = true \/ fle b a = true.
Proof.
  unfold fle. destruct (flt b a) eqn:E; auto.
  right. now rewrite (flt_asym _ _ E).
Qed.

(** ** The sort is a stable sort *)

Section SortFacts.
Context {A F : Type} {ops : PyFloat F}.
Variable key : A -> F.

Lemma insert_by_perm x l : Permutation (x :: l) (insert_by key x l).
Proof.
  induction l as [|y l IH]; simpl; auto.
  destruct (flt (key y) (key x)); auto.
  rewrite perm_swap. now constructor.
Qed.

Lemma sort_by_perm l : Permutation l (sort_by key l).
Proof.
  induction l as [|x l IH]; simpl; auto.
  rewrite <- insert_by_perm. now constructor.
Qed.

Lemma sort_by_In x l : In x (sort_by key l) <-> In x l.
Proof.
  split; apply Permutation_in;
    [apply Permutation_sym|]; apply sort_by_perm.
Qed.

Context {ord : PyFloatOrder F}.

Lemma insert_by_sorted x l :
  StronglySorted (key_le key) l -> StronglySorted (key_le key) (insert_by key x l).
Proof.
  induction 1 as [|y l Hs IH Hall]; simpl.
  - repeat constructor.
  - destruct (flt (key y) (key x)) eqn:E.
    + constructor; auto.
      apply Forall_forall. intros z Hz.
      apply (Permutation_in _ (Permutation_sym (insert_by_perm x l))) in Hz.
      destruct Hz as [<-|Hz].
      * unfold key_le, fle. now rewrite (flt_asym _ _ E).
      * rewrite Forall_forall in Hall. auto.
    + assert (Hxy : key_le key x y) by (unfold key_le, fle; now rewrite E).
      constructor; [now constructor|].
      constructor; auto.
      eapply Forall_impl; [|exact Hall].
      intros z Hz. unfold key_le in *. eapply fle_trans; eauto.
Qed.

Lemma sort_by_sorted l : StronglySorted (key_le key) (sort_by key l).
Proof.
  induction l; simpl; [constructor|now apply insert_by_sorted].
Qed.

Lemma same_key_skip k x y :
  same_key key k x = true -> flt (key y) (key x) = true -> same_key key k y = false.
Proof.
  unfold same_key. intros Hk Hyx.
  apply andb_true_iff in Hk. destruct Hk as [Hkx Hxk].
  destruct (flt (key k) (key y)) eqn:E1; simpl; auto.
  destruct (flt (key y) (key k)) eqn:E2; simpl; auto.
  assert (H1 : fle (key x) (key k) = true) by (unfold fle; exact Hkx).
  assert (H2 : fle (key k) (key y) = true) by (unfold fle; now rewrite E2).
  pose proof (fle_trans _ _ _ H1 H2) as H3.
  unfold fle in H3. rewrite Hyx in H3. discriminate.
Qed.

(** Insertion never lets [x] overtake an element it ties with. *)
Lemma insert_by_stable k x l :
  filter (same_key key k) (insert_by key x l) = filter (same_key key k) (x :: l).
Proof.
  induction l as [|y l IH]; simpl; auto.
  destruct (flt (key y) (key x)) eqn:E; simpl; auto.
  rewrite IH. simpl.
  destruct (same_key key k x) eqn:Ex; auto.
  now rewrite (same_key_skip _ _ _ Ex E).
Qed.

Lemma sort_by_stable k l :
  filter (same_key key k) (sort_by key l) = filter (same_key key k) l.
Proof.
  induction l as [|x l IH]; simpl; auto.
  rewrite insert_by_stable. simpl. now rewrite IH.
Qed.

(** In a sorted list an element with a strictly smaller key comes first. *)
Lemma sorted_lt_before l x y :
  StronglySorted (key_le key) l -> In x l -> In y l ->
  flt (key x) (key y) = true ->
  exists l1 l2 l3, l = l1 ++ x :: l2 ++ y :: l3.
Proof.
  intros Hs Hx Hy Hlt.
  destruct (in_split _ _ Hy) as (m1 & m2 & ->).
  apply in_app_or in Hx. destruct Hx as [Hx|[Hx|Hx]].
  - destruct (in_split _ _ Hx) as (n1 & n2 & ->).
    exists n1, n2, m2. now rewrite <- app_assoc.
  - subst y. rewrite (flt_asym _ _ Hlt) in Hlt. discriminate.
  - exfalso.
    assert (Hs' : StronglySorted (key_le key) (y :: m2)).
    { clear -Hs. induction m1; simpl in *; auto. inversion Hs; auto. }
    inversion Hs' as [|? ? _ Hall]; subst.
    rewrite Forall_forall in Hall. specialize (Hall _ Hx).
    unfold key_le, fle in Hall. rewrite Hlt in Hall. discriminate.
Qed.

End SortFacts.

(** ** The candidates of a snapshot *)

Section RankerFacts.
Context {F : Type} {ops : PyFloat F}.

Lemma candidates_append_acc ld tc available acc :
  fold_left (fun candidates entry => candidates ++ candidate_of ld tc entry)
            available acc
  = acc ++ candidates_comprehension ld tc available.
Proof.
  revert acc. induction available as [|e l IH]; intros acc; simpl.
  - now rewrite app_nil_r.
  - rewrite IH. now rewrite <- app_assoc.
Qed.

Lemma candidates_append_comprehension ld tc available :
  candidates_append ld tc available = candidates_comprehension ld tc available.
Proof. unfold candidates_append. now rewrite candidates_append_acc. Qed.

Lemma candidate_of_In ld tc entry c :
  In c (candidate_of ld tc entry) <->
  cand_count c > 0 /\ (cand_city c, cand_count c) = entry /\
  exists src, get ld (cand_city c) = Some src /\
              cand_dist c = euclidean_distance (coord_of src) tc.
Proof.
  destruct entry as [city count]. destruct c as [[cc cd] cn].
  unfold candidate_of, mem, cand_city, cand_dist, cand_count; simpl.
  destruct (count >? 0) eqn:Ec; simpl.
  - apply Z.gtb_lt in Ec.
    destruct (get ld city) as [src|] eqn:Eg; simpl.
    + split.
      * intros [[= <- <- <-]|[]]. repeat split; try lia. now exists src.
      * intros (Hpos & [= -> ->] & src' & Hg & ->).
        rewrite Eg in Hg. injection Hg as <-. now left.
    + split; [tauto|].
      intros (_ & [= -> ->] & src' & Hg & _). congruence.
  - split; [tauto|].
    intros (Hpos & [= -> ->] & _).
    assert ((count >? 0) = true) by (apply Z.gtb_lt; lia). congruence.
Qed.

Lemma candidates_comprehension_In ld tc available c :
  In c (candidates_comprehension ld tc available) <->
  In (cand_city c, cand_count c) available /\ cand_count c > 0 /\
  exists src, get ld (cand_city c) = Some src /\
              cand_dist c = euclidean_distance (coord_of src) tc.
Proof.
  unfold candidates_comprehension. rewrite in_flat_map. split.
  - intros (e & Hin & Hc). apply candidate_of_In in Hc.
    destruct Hc as (Hpos & <- & Hsrc). auto.
  - intros (Hin & Hpos & Hsrc). eexists. split; [exact Hin|].
    apply candidate_of_In. auto.
Qed.

End RankerFacts.

(** ** The ranker returns the positive, known entries, nearest first *)

Section RankerSpec.
Context {F : Type} {ops : PyFloat F}.

(** The list the comprehension builds is the kept part of the snapshot, in
    the snapshot's order. *)
Lemma comprehension_entries (ld : location_details F) target_coord available :
  map as_entry (candidates_comprehension ld target_coord available)
  = kept_entries ld available.
Proof.
  unfold candidates_comprehension, kept_entries.
  induction available as [|[city n] rest IH]; simpl; [reflexivity|].
  rewrite map_app, IH. unfold mem.
  destruct (n >? 0); simpl; [|reflexivity].
  destruct (get ld city); reflexivity.
Qed.

(** The candidates of the comprehension at a distance that ties with [d]
    are the kept entries at such a distance, in the snapshot's order. *)
Lemma comprehension_ties (ld : location_details F) target_coord available d :
  map as_entry
    (filter (fun c => ties d (cand_dist c))
       (candidates_comprehension ld target_coord available))
  = filter (entry_ties ld target_coord d) (kept_entries ld available).
Proof.
  induction available as [|[city n] rest IH]; [reflexivity|].
  change (candidates_comprehension ld target_coord ((city, n) :: rest))
    with (candidate_of ld target_coord (city, n)
          ++ candidates_comprehension ld target_coord rest).
  change (kept_entries ld ((city, n) :: rest))
    with (if (n >? 0) && mem ld city
          then (city, n) :: kept_entries ld rest
          else kept_entries ld rest).
  rewrite filter_app, map_app, IH. unfold candidate_of.
  destruct ((n >? 0) && mem ld city) eqn:E; [|reflexivity].
  apply andb_true_iff in E. destruct E as (_ & Hmem). unfold mem in Hmem.
  destruct (get ld city) as [src|] eqn:Hsrc; [|discriminate].
  assert (Ht : entry_ties ld target_coord d (city, n)
               = ties d (euclidean_distance (coord_of src) target_coord)).
  { unfold entry_ties, distance_to. cbn [fst]. rewrite Hsrc. reflexivity. }
  cbn [filter]. rewrite Ht.
  change (cand_dist (city, euclidean_distance (coord_of src) target_coord, n))
    with (euclidean_distance (coord_of src) target_coord).
  destruct (ties d _); reflexivity.
Qed.

Lemma distance_to_Some (ld : location_details F) target_coord city x :
  distance_to ld target_coord city = Some x <->
  exists src, get ld city = Some src /\
              x = euclidean_distance (coord_of src) target_coord.
Proof.
  unfold distance_to, euclidean_distance, coord_of. simpl.
  destruct (get ld city) as [src|]; split.
  - intros [= <-]. eauto.
  - intros (src' & [= <-] & ->). reflexivity.
  - discriminate.
  - intros (src' & Hsrc & _). discriminate.
Qed.

Context {ord : PyFloatOrder F}.

(** C4. The candidate ranker is a pure function of the snapshot and the
    target coordinates.  Its result holds exactly the snapshot entries
    with a strictly positive count whose city is in the location index,
    each once (read as entries, it is a permutation of the kept part of
    the snapshot), each with the distance [hypot] gives for the differences
    between its coordinates and the target's, in ascending order of that
    distance; and candidates at the same distance keep the order they have
    in the snapshot: for every distance, the ranked candidates that tie
    with it are the kept entries that tie with it, in snapshot order.
    The list comprehension of [vector_simulation.py] and the appending
    loop of [fast_simulation.py] compute the same list. *)
Theorem rank_candidates_spec
    (ld : location_details F) (target_coord : F * F) (available : dict Z) :
  let ranked := rank_candidates ld target_coord available in
  (forall c, In c ranked <->
     In (cand_city c, cand_count c) available /\ cand_count c > 0 /\
     distance_to ld target_coord (cand_city c) = Some (cand_dist c)) /\
  Permutation (kept_entries ld available) (map as_entry ranked) /\
  StronglySorted (fun a b => fle (cand_dist a) (cand_dist b) = true) ranked /\
  (forall d : F,
     map as_entry (filter (fun c => ties d (cand_dist c)) ranked)
     = filter (entry_ties ld target_coord d) (kept_entries ld available)) /\
  rank_candidates_vector ld target_coord available = ranked.
Proof.
  intros ranked. subst ranked.
  unfold rank_candidates, rank_candidates_vector, sort_candidates.
  rewrite candidates_append_comprehension.
  split; [|split; [|split; [|split]]].
  - intros c. rewrite sort_by_In, candidates_comprehension_In, distance_to_Some.
    reflexivity.
  - rewrite <- (comprehension_entries ld target_coord available).
    apply Permutation_map, sort_by_perm.
  - apply (sort_by_sorted cand_dist).
  - intros d. rewrite <- comprehension_ties. f_equal.
    exact (sort_by_stable cand_dist (EmptyString, d, 0) _).
  - reflexivity.
Qed.

End RankerSpec.

Lemma rank_candidates_spec_witness :
  rank_candidates coast (10, 0) [("B", 3); ("C", 1); ("X", 9); ("A", 5); ("T", 0)]
  = [("C", 1, 1); ("A", 1, 5); ("B", 9, 3)] /\
  StronglySorted (fun a b => fle (cand_dist a) (cand_dist b) = true)
    [("C", 1, 1); ("A", 1, 5); ("B", 9, 3)] /\
  map as_entry
    (filter (fun c => ties 1 (cand_dist c)) [("C", 1, 1); ("A", 1, 5); ("B", 9, 3)])
  = filter (entry_ties coast (10, 0) 1)
      (kept_entries coast [("B", 3); ("C", 1); ("X", 9); ("A", 5); ("T", 0)]).
Proof.
  split; [reflexivity|].
  change [("C", 1, 1); ("A", 1, 5); ("B", 9, 3)] with
    (rank_candidates coast (10, 0)
       [("B", 3); ("C", 1); ("X", 9); ("A", 5); ("T", 0)]).
  split; apply (rank_candidates_spec (F := Z)).
Defined.

(** ** Running coroutines: general facts *)

Lemma awaits_app t1 t2 : awaits (t1 ++ t2) = (awaits t1 + awaits t2)%nat.
Proof.
  induction t1 as [|[b a|r d] t1 IH]; simpl; auto.
Qed.

Lemma run_bind {A B : Type} (w : world) (p : prog A) (f : A -> prog B) :
  forall n c, run w n (bind p f) c = and_then w n (run w n p c) f.
Proof.
  induction p as [a|e|X body k IH|r k IH]; intros n c; simpl.
  - rewrite Nat.add_0_r. now destruct (run w n (f a) c) as [[r2 c2] t2].
  - reflexivity.
  - destruct (body c) as [x c'].
    rewrite IH. unfold and_then.
    destruct (run w n (k x) c') as [[[e|a] c''] t]; simpl; auto.
    now destruct (run w (n + awaits t) (f a) c'') as [[r2 c2] t2].
  - rewrite IH. unfold and_then.
    destruct (run w (S n) (k (respond w n r)) (interfere w n c))
      as [[[e|a] c''] t]; simpl; auto.
    rewrite Nat.add_succ_r.
    now destruct (run w (S (n + awaits t)) (f a) c'') as [[r2 c2] t2].
Qed.



(** ** The take primitive of [aioHttp3.py] *)

Lemma count_at_store_same c service_type city v available :
  get c service_type = Some available ->
  count_at (AioHttp3.store c service_type city v) service_type city = Some v.
Proof.
  intros Hg. unfold AioHttp3.store, count_at. rewrite Hg.
  rewrite get_set_same. apply get_set_same.
Qed.

Lemma count_at_store_other c service_type city v st' city' :
  (st', city') <> (service_type, city) ->
  count_at (AioHttp3.store c service_type city v) st' city' = count_at c st' city'.
Proof.
  intros Hne. unfold AioHttp3.store, count_at.
  destruct (get c service_type) as [available|] eqn:Hg; auto.
  destruct (String.eqb st' service_type) eqn:E.
  - apply String.eqb_eq in E. subst st'.
    rewrite get_set_same, Hg. apply get_set_other. congruence.
  - rewrite get_set_other; auto.
    intros ->. now rewrite String.eqb_refl in E.
Qed.

Lemma try_take_unknown c service_type city remaining :
  count_at c service_type city = None ->
  AioHttp3.try_take service_type city remaining c = (0, c).
Proof.
  unfold count_at, AioHttp3.try_take, get_default.
  destruct (get c service_type) as [available|]; simpl.
  - now intros ->.
  - auto.
Qed.

Lemma try_take_known c service_type city remaining cur :
  count_at c service_type city = Some cur ->
  AioHttp3.try_take service_type city remaining c =
  if cur >? 0
  then (Z.min cur remaining,
        AioHttp3.store c service_type city (cur - Z.min cur remaining))
  else (0, c).
Proof.
  unfold count_at, AioHttp3.try_take, get_default.
  destruct (get c service_type) as [available|]; simpl; [|discriminate].
  now intros ->.
Qed.

Lemma try_take_clamped c service_type city requested cur :
  0 < requested -> count_at c service_type city = Some cur -> 0 <= cur ->
  let taken := fst (AioHttp3.try_take service_type city requested c) in
  let c' := snd (AioHttp3.try_take service_type city requested c) in
  taken = Z.min cur requested /\
  count_at c' service_type city = Some (cur - taken) /\
  0 <= cur - taken /\
  forall st' city', (st', city') <> (service_type, city) ->
    count_at c' st' city' = count_at c st' city'.
Proof.
  intros Hreq Hcur Hpos taken c'. subst taken c'.
  rewrite (try_take_known _ _ _ _ Hcur).
  destruct (cur >? 0) eqn:E; simpl.
  - unfold count_at in Hcur.
    destruct (get c service_type) as [available|] eqn:Hg; [|discriminate].
    repeat split; try lia.
    + eapply count_at_store_same; eauto.
    + intros st' city' Hne. now apply count_at_store_other.
  - assert (cur = 0) by (rewrite Z.gtb_ltb in E; apply Z.ltb_ge in E; lia). subst cur.
    rewrite Z.min_l by lia. rewrite Z.sub_0_r. auto.
Qed.

(** C2. The take made under the lock, asked for a positive amount at a
    pair whose count is [cur >= 0], returns exactly [min cur requested],
    leaves [cur] minus that amount at the pair and touches no other count;
    at a service type or a city the cache does not hold it returns 0,
    raises nothing (it is a total function) and leaves the cache as it
    was.  A count that is not positive is never taken from. *)
Theorem try_take_spec (c : cache) (service_type city : string) (requested : Z) :
  0 < requested ->
  let taken := fst (AioHttp3.try_take service_type city requested c) in
  let c' := snd (AioHttp3.try_take service_type city requested c) in
  (get c service_type = None -> taken = 0 /\ c' = c) /\
  (forall available, get c service_type = Some available ->
     get available city = None -> taken = 0 /\ c' = c) /\
  (forall cur, count_at c service_type city = Some cur -> 0 <= cur ->
     taken = Z.min cur requested /\
     count_at c' service_type city = Some (cur - taken) /\
     0 <= cur - taken /\
     forall st' city', (st', city') <> (service_type, city) ->
       count_at c' st' city' = count_at c st' city') /\
  (forall cur, count_at c service_type city = Some cur -> cur <= 0 ->
     taken = 0 /\ c' = c).
Proof.
  intros Hreq taken c'. subst taken c'.
  split; [|split; [|split]].
  - intros Hg. rewrite try_take_unknown; auto.
    unfold count_at. now rewrite Hg.
  - intros available Hg Hc. rewrite try_take_unknown; auto.
    unfold count_at. now rewrite Hg.
  - intros cur Hcur Hpos. now apply try_take_clamped.
  - intros cur Hcur Hneg. rewrite (try_take_known _ _ _ _ Hcur).
    destruct (cur >? 0) eqn:E; auto. apply Z.gtb_lt in E. lia.
Qed.

Lemma try_take_spec_witness :
  fst (AioHttp3.try_take "Medical" "A" 4 [("Medical", [("A", 5); ("B", 3)]); ("Fire", [])]) = 4 /\
  snd (AioHttp3.try_take "Medical" "A" 4 [("Medical", [("A", 5); ("B", 3)]); ("Fire", [])])
    = [("Medical", [("A", 1); ("B", 3)]); ("Fire", [])] /\
  count_at (snd (AioHttp3.try_take "Medical" "A" 4
                   [("Medical", [("A", 5); ("B", 3)]); ("Fire", [])])) "Medical" "A"
    = Some (5 - fst (AioHttp3.try_take "Medical" "A" 4
                       [("Medical", [("A", 5); ("B", 3)]); ("Fire", [])])).
Proof.
  split; [reflexivity|]. split; [reflexivity|].
  apply (@try_take_spec [("Medical", [("A", 5); ("B", 3)]); ("Fire", [])]
           "Medical" "A" 4); [lia|reflexivity|lia].
Defined.

(** What any number of takes at one pair return adds up to no more than
    the count they started from, and the count left is the difference. *)
Lemma takes_never_overdispatch service_type city requests :
  Forall (fun requested => 0 < requested) requests ->
  forall c C, count_at c service_type city = Some C -> 0 <= C ->
    let total := fold_right Z.add 0 (fst (takes service_type city requests c)) in
    total <= C /\
    count_at (snd (takes service_type city requests c)) service_type city
      = Some (C - total) /\
    0 <= C - total.
Proof.
  induction 1 as [|requested more Hreq _ IH]; intros c C HC Hpos; simpl.
  - rewrite Z.sub_0_r. auto with zarith.
  - pose proof (try_take_clamped c service_type city Hreq HC Hpos) as Hknown.
    destruct (AioHttp3.try_take service_type city requested c) as [taken c'].
    simpl in Hknown. destruct Hknown as (Htaken & Hc' & Hleft & _).
    specialize (IH c' (C - taken) Hc' Hleft).
    destruct (takes service_type city more c') as [rest c'']. simpl in *.
    destruct IH as (Hsum & Hfinal & Hnonneg).
    rewrite Hfinal. repeat split; try lia. f_equal. lia.
Qed.

(** ** Coroutines that always return *)

Lemma always_Ret {A : Type} (a : A) (P : A -> Prop) : P a -> always (Ret a) P.
Proof. intros H w n c. exists a. auto. Qed.

Lemma always_Locked {A X : Type} (body : cache -> X * cache) (k : X -> prog A)
    (P : A -> Prop) :
  (forall c, always (k (fst (body c))) P) -> always (Locked body k) P.
Proof.
  intros H w n c. simpl. specialize (H c w n (snd (body c))).
  destruct (body c) as [x c']. simpl in H.
  destruct (run w n (k x) c') as [[r c''] t]. exact H.
Qed.

Lemma always_Await {A : Type} (r : awaitable) (k : api_data -> prog A)
    (P : A -> Prop) :
  (forall d, always (k d) P) -> always (Await r k) P.
Proof.
  intros H w n c. simpl.
  specialize (H (respond w n r) w (S n) (interfere w n c)).
  destruct (run w (S n) (k (respond w n r)) (interfere w n c)) as [[res c'] t].
  exact H.
Qed.

Lemma always_bind {A B : Type} (p : prog A) (f : A -> prog B)
    (P : A -> Prop) (Q : B -> Prop) :
  always p P -> (forall a, P a -> always (f a) Q) -> always (bind p f) Q.
Proof.
  intros Hp Hf w n c. rewrite run_bind.
  destruct (Hp w n c) as (a & Ha & HP).
  destruct (run w n p c) as [[r c'] t]. unfold returned in Ha. simpl in Ha.
  subst r. simpl.
  destruct (Hf a HP w (n + awaits t)%nat c') as (b & Hb & HQ).
  destruct (run w (n + awaits t) (f a) c') as [[r2 c2] t2].
  exists b. auto.
Qed.

(** ** [aioHttp3.py]: when a call is reported successful *)

Section AioHttp3Calls.
Context {F : Type} {ops : PyFloat F}.
Variable ld : location_details F.

Lemma try_take_bounds service_type city remaining c :
  0 < remaining ->
  0 <= fst (AioHttp3.try_take service_type city remaining c) <= remaining.
Proof.
  intros Hpos. unfold AioHttp3.try_take.
  destruct (_ >? 0) eqn:E; simpl; [|lia].
  apply Z.gtb_lt in E. lia.
Qed.

Lemma dispatch_always endpoint source_city target_city count :
  always (AioHttp3.dispatch ld endpoint source_city target_city count)
         (fun _ => True).
Proof.
  unfold AioHttp3.dispatch.
  destruct (get ld source_city); [destruct (get ld target_city)|].
  - apply always_Await. intros d. now apply always_Ret.
  - now apply always_Ret.
  - now apply always_Ret.
Qed.

Lemma take_and_dispatch_always service_type target_city city remaining :
  0 < remaining ->
  always (AioHttp3.take_and_dispatch ld service_type target_city city remaining)
         (fun remaining' => 0 <= remaining' <= remaining).
Proof.
  intros Hpos. unfold AioHttp3.take_and_dispatch.
  apply always_Locked. intros c.
  pose proof (try_take_bounds service_type city c Hpos) as Hb.
  destruct (fst _ >? 0); [|apply always_Ret; lia].
  destruct (get AioHttp3.dispatch_endpoints service_type);
    [|apply always_Ret; lia].
  eapply always_bind; [apply dispatch_always|].
  intros _ _. apply always_Ret. lia.
Qed.

Lemma take_loop_always service_type target_city candidates :
  forall remaining, 0 <= remaining ->
  always (AioHttp3.take_loop ld service_type target_city candidates remaining)
         (fun remaining' => 0 <= remaining' <= remaining).
Proof.
  induction candidates as [|[city d] rest IH]; intros remaining Hpos;
    cbn [AioHttp3.take_loop].
  - apply always_Ret. lia.
  - destruct (remaining <=? 0) eqn:E; [apply always_Ret; lia|].
    apply Z.leb_gt in E.
    eapply always_bind; [now apply take_and_dispatch_always|].
    intros remaining' Hr. simpl in Hr.
    intros w n c. destruct (IH remaining' (proj1 Hr) w n c) as (a & Ha & HP).
    exists a. split; auto. lia.
Qed.

Lemma allocate_request_always target_city target_coord req :
  always (AioHttp3.allocate_request ld target_city target_coord req) settled.
Proof.
  unfold AioHttp3.allocate_request.
  destruct (Quantity req <=? 0) eqn:E; [now apply always_Ret|].
  apply Z.leb_gt in E.
  apply always_Locked. intros c.
  destruct (fst _); [|now apply always_Ret].
  eapply always_bind; [apply take_loop_always; lia|].
  intros remaining Hr. apply always_Ret. simpl in *. lia.
Qed.

(** A request is passed over exactly when its quantity is not positive or
    its service type is not a key of the cache it meets. *)
Lemma allocate_request_skipped_iff target_city target_coord req w n c :
  returned (run w n (AioHttp3.allocate_request ld target_city target_coord req) c)
    = inr Skipped
  <-> Quantity req <= 0 \/ get c (Type_ req) = None.
Proof.
  unfold AioHttp3.allocate_request.
  destruct (Quantity req <=? 0) eqn:E.
  - apply Z.leb_le in E. simpl. tauto.
  - apply Z.leb_gt in E. simpl.
    unfold AioHttp3.snapshot_candidates.
    destruct (get c (Type_ req)) as [available|] eqn:Hg; simpl.
    + rewrite run_bind.
      destruct (take_loop_always (Type_ req) target_city
                  (sort_by snd (flat_map (AioHttp3.pair_of ld target_coord) available))
                  (remaining := Quantity req) ltac:(lia) w n c) as (a & Ha & _).
      destruct (run w n _ c) as [[r c'] t]. unfold returned in Ha. simpl in Ha.
      subst r. simpl. split; [discriminate|].
      intros [H|H]; [lia|discriminate].
    + tauto.
Qed.

(** The flag the loop carries is the fold of [note_outcome] over what
    became of the requests, in the same run. *)
Lemma requests_loop_outcomes target_city target_coord w requests_list :
  forall all_success n c,
    run w n (AioHttp3.requests_loop ld target_city target_coord requests_list all_success) c
    = on_value (fun os => fold_left note_outcome os all_success)
        (run w n (requests_outcomes ld target_city target_coord requests_list) c).
Proof.
  induction requests_list as [|req rest IH]; intros all_success n c;
    cbn [AioHttp3.requests_loop requests_outcomes].
  - reflexivity.
  - rewrite !run_bind.
    destruct (run w n (AioHttp3.allocate_request ld target_city target_coord req) c)
      as [[[e|o] c'] t]; simpl; auto.
    rewrite IH, run_bind.
    destruct (run w (n + awaits t) (requests_outcomes ld target_city target_coord rest) c')
      as [[[e|os] c''] t']; simpl; auto.
    now rewrite app_nil_r.
Qed.

Lemma requests_outcomes_always target_city target_coord requests_list :
  always (requests_outcomes ld target_city target_coord requests_list)
         (fun os => List.length os = List.length requests_list /\ Forall settled os).
Proof.
  induction requests_list as [|req rest IH]; cbn [requests_outcomes].
  - apply always_Ret. auto.
  - eapply always_bind; [apply allocate_request_always|].
    intros o Ho. eapply always_bind; [apply IH|].
    intros os [Hlen Hos]. apply always_Ret. simpl. auto.
Qed.

Lemma fold_note_outcome os :
  forall b, fold_left note_outcome os b = true <->
            b = true /\ Forall (fun o => o = Skipped \/ exists r, o = Allocated r /\ r <= 0) os.
Proof.
  induction os as [|o os IH]; intros b; simpl.
  - split; [auto|tauto].
  - rewrite IH, Forall_cons_iff. destruct o as [|remaining]; simpl.
    + intuition.
    + destruct (remaining >? 0) eqn:E.
      * apply Z.gtb_lt in E. split; [intros [[=] _]|].
        intros (_ & [[=]|(r & [= <-] & Hr)] & _). lia.
      * rewrite Z.gtb_ltb in E. apply Z.ltb_ge in E.
        split; intros [Hb Hall]; repeat split; auto; try tauto.
        right. eauto.
Qed.

End AioHttp3Calls.

(** C5, as stated, fails twice over.  A call with an empty request list
    has no request left unfulfilled, and is reported unsuccessful; a call
    whose only request names a service type the cache does not hold keeps
    its two units unfulfilled, and is reported successful. *)
Lemma success_iff_all_fulfilled_fails :
  ~ success_iff_all_fulfilled towns
      {| call_city := Some "T"; call_requests := [] |} (alone accepting) stocked /\
  ~ success_iff_all_fulfilled towns
      {| call_city := Some "T";
         call_requests := [{| Type_ := "Hazmat"; Quantity := 2 |}] |}
      (alone accepting) stocked.
Proof.
  split; unfold success_iff_all_fulfilled; intros [H1 H2].
  - assert (H : @inr exn bool false = inr true); [|discriminate].
    apply H2. exists []. split; [reflexivity|constructor].
  - destruct (H1 eq_refl) as (os & Hos & Hall).
    vm_compute in Hos. injection Hos as <-.
    inversion Hall as [|? ? ? ? Hu _]; subst. vm_compute in Hu. discriminate.
Qed.

Section AioHttp3Success.
Context {F : Type} {ops : PyFloat F}.
Variable ld : location_details F.

(** C5, amended.  [process_multi_service_emergency_shared] never raises,
    and it returns [True] exactly when the target city is in the location
    index, the request list is not empty, and every request of the call
    was either passed over (its quantity is not positive, or its service
    type is not a key of the cache) or allocated down to a remainder of 0.
    The remainder of an allocated request is never negative. *)
Theorem call_success_iff (cl : call) (w : world) (n : nat) (c : cache) :
  let r := run w n (AioHttp3.process_multi_service_emergency_shared ld cl) c in
  let ro := run w n (call_outcomes ld cl) c in
  final_cache r = final_cache ro /\ trace r = trace ro /\
  (exists b os,
    returned r = inr b /\ returned ro = inr os /\
    List.length os = List.length (call_requests cl) /\
    Forall settled os /\
    (b = true <->
       known_target ld cl <> None /\ call_requests cl <> [] /\
       Forall (fun o => o = Skipped \/ o = Allocated 0) os)) /\
  (forall target_city target_coord req w' n' c',
     returned (run w' n' (AioHttp3.allocate_request ld target_city target_coord req) c')
       = inr Skipped
     <-> Quantity req <= 0 \/ get c' (Type_ req) = None).
Proof.
  intros r ro. subst r ro.
  assert (Hskip : forall target_city target_coord req w' n' c',
     returned (run w' n' (AioHttp3.allocate_request ld target_city target_coord req) c')
       = inr Skipped
     <-> Quantity req <= 0 \/ get c' (Type_ req) = None)
    by (intros; apply allocate_request_skipped_iff).
  unfold AioHttp3.process_multi_service_emergency_shared, call_outcomes.
  destruct (known_target ld cl) as [[target_city tgt]|] eqn:Hk.
  - destruct (call_requests cl) as [|req rest] eqn:Hreqs.
    + split; [reflexivity|]. split; [reflexivity|]. split; [|exact Hskip].
      exists false, []. simpl. repeat split; auto; try discriminate.
      intros (_ & H & _). congruence.
    + rewrite requests_loop_outcomes.
      destruct (requests_outcomes_always ld target_city (coord_of tgt) (req :: rest) w n c)
        as (os & Hos & Hlen & Hset).
      destruct (run w n _ c) as [[res c'] t]. unfold returned in Hos. simpl in Hos.
      subst res. split; [reflexivity|]. split; [reflexivity|]. split; [|exact Hskip].
      exists (fold_left note_outcome os true), os.
      split; [reflexivity|]. split; [reflexivity|]. split; [exact Hlen|].
      split; [exact Hset|]. rewrite fold_note_outcome. split.
      * intros [_ H]. split; [discriminate|]. split; [discriminate|].
        rewrite Forall_forall in *. intros o Ho.
        specialize (H o Ho). specialize (Hset o Ho).
        destruct H as [->|(rem & -> & Hrem)]; auto.
        right. f_equal. simpl in Hset. lia.
      * intros (_ & _ & H). split; auto.
        eapply Forall_impl; [|exact H]. simpl.
        intros o [-> | ->]; auto. right. exists 0. split; auto. lia.
  - split; [reflexivity|]. split; [reflexivity|]. split; [|exact Hskip].
    exists false, (map (fun _ => Skipped) (call_requests cl)).
    split; [reflexivity|]. split; [reflexivity|]. split; [apply length_map|].
    split.
    + apply Forall_forall. intros o Ho.
      apply in_map_iff in Ho. destruct Ho as (? & <- & _). exact I.
    + split; [discriminate|]. intros (H & _). congruence.
Qed.

End AioHttp3Success.

(** ** [aioHttp.py] hands out units it does not have *)

(** C1 (fails on [aioHttp.py]).  Both calls are reported successful, eight
    units are ordered out of a city that held five, and the count stored
    for it ends at -3. *)
Theorem stale_snapshot_overdispatch :
  fst (fst two_calls_for_four) = [Ret true; Ret true] /\
  map (fun e => quantity (snd e)) (posted (map snd (snd two_calls_for_four))) = [4; 4] /\
  count_at (snd (fst two_calls_for_four)) "Medical" "A" = Some (-3).
Proof. vm_compute. auto. Qed.

(** The same two calls, the same schedule, on [aioHttp3.py]: the second
    take is clamped to the one unit left. *)
Lemma fresh_read_no_overdispatch :
  let r := event_loop accepting [0; 1; 0; 1]%nat
             [AioHttp3.process_multi_service_emergency_shared towns (medical 4);
              AioHttp3.process_multi_service_emergency_shared towns (medical 4)]
             five_at_A in
  fst (fst r) = [Ret true; Ret false] /\
  map (fun e => quantity (snd e)) (posted (map snd (snd r))) = [4; 1] /\
  count_at (snd (fst r)) "Medical" "A" = Some 0.
Proof. vm_compute. auto. Qed.

(** ** [aioHttp3.py]: no schedule drives a count below zero *)

Lemma shrinks_refl c : shrinks c c.
Proof. intros st city v0 Hv Hpos. exists v0. split; auto. lia. Qed.

Lemma shrinks_trans c1 c2 c3 : shrinks c1 c2 -> shrinks c2 c3 -> shrinks c1 c3.
Proof.
  intros H12 H23 st city v0 Hv Hpos.
  destruct (H12 st city v0 Hv Hpos) as (v1 & Hv1 & Hb1).
  destruct (H23 st city v1 Hv1 ltac:(lia)) as (v2 & Hv2 & Hb2).
  exists v2. split; auto. lia.
Qed.

Lemma within_nil c : within c [].
Proof. intros b a Hin. destruct Hin. Qed.

Lemma gentle_bind {A B : Type} (p : prog A) (f : A -> prog B) :
  gentle p -> (forall a, gentle (f a)) -> gentle (bind p f).
Proof.
  intros Hp Hf. induction Hp; simpl; auto; constructor; auto.
Qed.

Lemma try_take_shrinks service_type city remaining c :
  0 <= remaining ->
  shrinks c (snd (AioHttp3.try_take service_type city remaining c)).
Proof.
  intros Hr.
  destruct (count_at c service_type city) as [cur|] eqn:Hcur.
  - rewrite (try_take_known _ _ _ _ Hcur).
    destruct (cur >? 0) eqn:E; [|apply shrinks_refl].
    apply Z.gtb_lt in E. simpl.
    intros st' city' v0 Hv Hpos.
    destruct (string_dec st' service_type) as [->|Hst];
      [destruct (string_dec city' city) as [->|Hcity]|].
    + rewrite Hcur in Hv. injection Hv as <-.
      unfold count_at in Hcur.
      destruct (get c service_type) as [available|] eqn:Hg; [|discriminate].
      exists (cur - Z.min cur remaining).
      split; [eapply count_at_store_same; eauto|lia].
    + rewrite count_at_store_other by congruence.
      exists v0. split; auto. lia.
    + rewrite count_at_store_other by congruence.
      exists v0. split; auto. lia.
  - rewrite try_take_unknown by auto. apply shrinks_refl.
Qed.

Section Gentle.
Context {F : Type} {ops : PyFloat F}.
Variable ld : location_details F.

Lemma take_loop_gentle service_type target_city candidates :
  forall remaining,
    gentle (AioHttp3.take_loop ld service_type target_city candidates remaining).
Proof.
  induction candidates as [|[city d] rest IH]; intros remaining;
    cbn [AioHttp3.take_loop]; [constructor|].
  destruct (remaining <=? 0) eqn:E; [constructor|].
  apply Z.leb_gt in E.
  apply gentle_bind; auto.
  unfold AioHttp3.take_and_dispatch. constructor.
  - intros c. apply try_take_shrinks. lia.
  - intros taken. destruct (taken >? 0); [|constructor].
    destruct (get AioHttp3.dispatch_endpoints service_type); [|constructor].
    unfold AioHttp3.dispatch.
    destruct (get ld city); [destruct (get ld target_city)|]; simpl;
      repeat constructor.
Qed.

Lemma process3_gentle cl :
  gentle (AioHttp3.process_multi_service_emergency_shared ld cl).
Proof.
  unfold AioHttp3.process_multi_service_emergency_shared.
  destruct (known_target ld cl) as [[target_city tgt]|]; [|constructor].
  destruct (call_requests cl) as [|req rest]; [constructor|].
  generalize true. generalize (req :: rest). clear req rest.
  intros l. induction l as [|req rest IH]; intros b;
    cbn [AioHttp3.requests_loop]; [constructor|].
  apply gentle_bind; auto.
  unfold AioHttp3.allocate_request.
  destruct (Quantity req <=? 0); [constructor|].
  constructor.
  - intros c. unfold AioHttp3.snapshot_candidates.
    destruct (get c (Type_ req)); apply shrinks_refl.
  - intros [candidates|]; [|constructor].
    apply gentle_bind; [apply take_loop_gentle|]. intros; constructor.
Qed.

End Gentle.

Lemma advance_gentle {A : Type} (p : prog A) :
  gentle p -> forall c,
    gentle (fst (fst (advance p c))) /\
    shrinks c (snd (fst (advance p c))) /\
    within c (snd (advance p c)).
Proof.
  induction 1 as [a|e|X body k Hbody Hk IH|r k Hk IH]; intros c; simpl;
    try (split; [constructor; auto|split; [apply shrinks_refl|apply within_nil]]).
  specialize (Hbody c). destruct (body c) as [x c']. simpl in Hbody.
  destruct (IH x c') as (Hg & Hs & Hw).
  destruct (advance (k x) c') as [[p' c''] t]. simpl in *.
  split; [exact Hg|]. split; [eapply shrinks_trans; eauto|].
  intros b a [[= <- <-]|Hin].
  - split; [apply shrinks_refl|exact Hbody].
  - destruct (Hw b a Hin) as [Hb Ha].
    split; eapply shrinks_trans; eauto.
Qed.

Lemma resume_gentle {A : Type} answers (p : prog A) :
  gentle p -> forall c,
    gentle (fst (fst (resume answers p c))) /\
    shrinks c (snd (fst (resume answers p c))) /\
    within c (snd (resume answers p c)).
Proof.
  intros Hp c. destruct Hp as [a|e|X body k Hbody Hk|r k Hk];
    try (apply advance_gentle; constructor; auto).
  unfold resume.
  destruct (advance_gentle (Hk (answers r)) c) as (Hg & Hs & Hw).
  destruct (advance (k (answers r)) c) as [[p' c'] t]. simpl in *.
  split; [exact Hg|]. split; [exact Hs|].
  intros b a [Hin|Hin]; [discriminate|auto].
Qed.

Lemma resume_nth_gentle {A : Type} answers (tasks : list (prog A)) :
  Forall gentle tasks -> forall i c,
    Forall gentle (fst (fst (resume_nth answers i tasks c))) /\
    shrinks c (snd (fst (resume_nth answers i tasks c))) /\
    within c (snd (resume_nth answers i tasks c)).
Proof.
  induction 1 as [|p rest Hp Hrest IH]; intros i c.
  - destruct i; simpl; (split; [constructor|]);
      (split; [apply shrinks_refl|apply within_nil]).
  - destruct i as [|j]; simpl.
    + destruct (resume_gentle answers Hp c) as (Hg & Hs & Hw).
      destruct (resume answers p c) as [[p' c'] t]. simpl in *.
      split; [constructor; auto|]. auto.
    + destruct (IH j c) as (Hg & Hs & Hw).
      destruct (resume_nth answers j rest c) as [[rest' c'] t]. simpl in *.
      split; [constructor; auto|]. auto.
Qed.

Lemma event_loop_gentle {A : Type} answers schedule :
  forall (tasks : list (prog A)) c,
    Forall gentle tasks ->
    shrinks c (snd (fst (event_loop answers schedule tasks c))) /\
    within c (map snd (snd (event_loop answers schedule tasks c))).
Proof.
  induction schedule as [|i later IH]; intros tasks c Htasks; simpl.
  - split; [apply shrinks_refl|apply within_nil].
  - destruct (resume_nth_gentle answers Htasks i c) as (Hg & Hs & Hw).
    destruct (resume_nth answers i tasks c) as [[tasks' c'] t]. simpl in *.
    destruct (IH tasks' c' Hg) as (Hs' & Hw').
    destruct (event_loop answers later tasks' c') as [[tasks'' c''] t'].
    simpl in *. split; [eapply shrinks_trans; eauto|].
    intros b a Hin. rewrite map_app, map_map in Hin. simpl in Hin.
    rewrite map_id in Hin. apply in_app_or in Hin. destruct Hin as [Hin|Hin].
    + auto.
    + destruct (Hw' b a Hin). split; eapply shrinks_trans; eauto.
Qed.

(** X22. However many calls [aioHttp3.py] runs together, whatever the gateway
    answers and in whatever order the event loop resumes them: a pair that
    starts at a count [C >= 0] holds a count between 0 and [C] in every
    cache state a locked block meets or leaves, and at the end.  What has
    been taken from the pair, [C] minus its count, never exceeds [C]. *)
Lemma aio3_counts_stay_within {F : Type} {ops : PyFloat F}
    (ld : location_details F) (calls : list call)
    (answers : awaitable -> api_data) (schedule : list nat) (c0 : cache) :
  let r := event_loop answers schedule
             (map (AioHttp3.process_multi_service_emergency_shared ld) calls) c0 in
  forall service_type city C,
    count_at c0 service_type city = Some C -> 0 <= C ->
    (exists v, count_at (snd (fst r)) service_type city = Some v /\ 0 <= v <= C) /\
    (forall i b a, In (i, EvLocked b a) (snd r) ->
       (exists v, count_at b service_type city = Some v /\ 0 <= v <= C) /\
       (exists v, count_at a service_type city = Some v /\ 0 <= v <= C)).
Proof.
  intros r service_type city C HC Hpos. subst r.
  assert (Hg : Forall gentle
                 (map (AioHttp3.process_multi_service_emergency_shared ld) calls)).
  { apply Forall_forall. intros p Hp. apply in_map_iff in Hp.
    destruct Hp as (cl & <- & _). apply process3_gentle. }
  destruct (event_loop_gentle answers schedule c0 Hg) as (Hs & Hw).
  split; [now apply Hs|].
  intros i b a Hin.
  destruct (Hw b a) as [Hb Ha].
  { change (EvLocked b a) with (snd (i, EvLocked b a)). now apply in_map. }
  split; [now apply Hb|now apply Ha].
Qed.

(** ** Which comes first, the decrement or the order *)









Section Order.
Context {F : Type} {ops : PyFloat F}.
Variable ld : location_details F.







End Order.


Section Order3.
Context {F : Type} {ops : PyFloat F}.
Variable ld : location_details F.







(** Neither program looks at what the gateway answered. *)









End Order3.


(** In [aioHttp.py] the subtraction can fail after the order has gone out:
    a refresh that comes back without the city while the order is with the
    gateway leaves nothing to subtract from, and the call ends with
    [KeyError], the order posted and no count changed. *)
Lemma posted_then_pair_gone :
  let w := {| respond := fun _ _ => ApiText "ok";
              interfere := fun _ _ => [("Medical", []); ("Fire", []); ("Police", [])] |} in
  let r := run w 0
             (AioHttp.process_multi_service_emergency_shared towns (medical 4))
             five_at_A in
  returned r = inl KeyError /\
  posted (trace r)
    = [("/medical/dispatch", make_payload (place "A" 1 0) (place "T" 0 0) 4)] /\
  final_cache r = [("Medical", []); ("Fire", []); ("Police", [])].
Proof. vm_compute. auto. Qed.

Section OrderSpec.
Context {F : Type} {ops : PyFloat F}.
Variable ld : location_details F.


End OrderSpec.

(** ** The refresher *)

Lemma replace_all_get5 med fire police rescue utility c :
  let c' := AioHttp3.replace_all med fire police rescue utility c in
  get c' "Medical" = Some med /\ get c' "Fire" = Some fire /\
  get c' "Police" = Some police /\ get c' "Rescue" = Some rescue /\
  get c' "Utility" = Some utility /\
  forall k, ~ In k ["Medical"; "Fire"; "Police"; "Rescue"; "Utility"] ->
            get c' k = get c k.
Proof.
  unfold AioHttp3.replace_all. cbv zeta.
  repeat split;
    repeat first [ apply get_set_same
                 | rewrite get_set_other by discriminate ].
  intros k Hk. simpl in Hk.
  repeat rewrite get_set_other by (intros ->; tauto). reflexivity.
Qed.

Lemma replace_all_get3 med fire police c :
  let c' := AioHttp.replace_all med fire police c in
  get c' "Medical" = Some med /\ get c' "Fire" = Some fire /\
  get c' "Police" = Some police /\
  forall k, ~ In k ["Medical"; "Fire"; "Police"] -> get c' k = get c k.
Proof.
  unfold AioHttp.replace_all. cbv zeta.
  repeat split;
    repeat first [ apply get_set_same
                 | rewrite get_set_other by discriminate ].
  intros k Hk. simpl in Hk.
  repeat rewrite get_set_other by (intros ->; tauto). reflexivity.
Qed.

(** C10. A refresh cycle is all or nothing.  It never raises.  When every
    fetch yields a mapping, the cycle makes exactly one locked block, and
    that block puts all the new mappings in place at once (five in
    [aioHttp3.py], three in [aioHttp.py]), so every cache state another
    coroutine can meet is the one before or the one after; when any fetch
    fails, the cycle makes no locked block at all and the cache is what
    it was, up to what other coroutines did to it meanwhile. *)
Theorem refresh_cycle_all_or_nothing (w : world) (n : nat) (c : cache) (interval : Z) :
  let r5 := run w n (AioHttp3.refresh_cycle interval) c in
  let c5 := after_awaits w n 5 c in
  let r3 := run w n (AioHttp.refresh_cycle interval) c in
  let c3 := after_awaits w n 3 c in
  returned r5 = inr tt /\ returned r3 = inr tt /\
  match parse_available (respond w n (HttpGet "/medical/search")),
        parse_available (respond w (1 + n) (HttpGet "/fire/search")),
        parse_available (respond w (2 + n) (HttpGet "/police/search")),
        parse_available (respond w (3 + n) (HttpGet "/rescue/search")),
        parse_available (respond w (4 + n) (HttpGet "/utility/search")) with
  | inr med, inr fire, inr police, inr rescue, inr utility =>
      locked_blocks (trace r5)
        = [(c5, AioHttp3.replace_all med fire police rescue utility c5)] /\
      final_cache r5
        = interfere w (5 + n) (AioHttp3.replace_all med fire police rescue utility c5)
  | _, _, _, _, _ =>
      locked_blocks (trace r5) = [] /\ final_cache r5 = after_awaits w n 6 c
  end /\
  match parse_available (respond w n (HttpGet "/medical/search")),
        parse_available (respond w (1 + n) (HttpGet "/fire/search")),
        parse_available (respond w (2 + n) (HttpGet "/police/search")) with
  | inr med, inr fire, inr police =>
      locked_blocks (trace r3) = [(c3, AioHttp.replace_all med fire police c3)] /\
      final_cache r3 = interfere w (3 + n) (AioHttp.replace_all med fire police c3)
  | _, _, _ =>
      locked_blocks (trace r3) = [] /\ final_cache r3 = after_awaits w n 4 c
  end /\
  (forall med fire police rescue utility c0,
     let c' := AioHttp3.replace_all med fire police rescue utility c0 in
     get c' "Medical" = Some med /\ get c' "Fire" = Some fire /\
     get c' "Police" = Some police /\ get c' "Rescue" = Some rescue /\
     get c' "Utility" = Some utility) /\
  (forall med fire police c0,
     let c' := AioHttp.replace_all med fire police c0 in
     get c' "Medical" = Some med /\ get c' "Fire" = Some fire /\
     get c' "Police" = Some police).
Proof.
  cbv zeta.
  split; [|split; [|split; [|split; [|split]]]].
  - unfold AioHttp3.refresh_cycle, AioHttp3.gather_available. cbn.
    destruct (parse_available _); cbn; auto.
    destruct (parse_available _); cbn; auto.
    destruct (parse_available _); cbn; auto.
    destruct (parse_available _); cbn; auto.
    destruct (parse_available _); cbn; auto.
  - unfold AioHttp.refresh_cycle, AioHttp.gather_available. cbn.
    destruct (parse_available _); cbn; auto.
    destruct (parse_available _); cbn; auto.
    destruct (parse_available _); cbn; auto.
  - unfold AioHttp3.refresh_cycle, AioHttp3.gather_available. cbn.
    destruct (parse_available _); cbn; auto.
    destruct (parse_available _); cbn; auto.
    destruct (parse_available _); cbn; auto.
    destruct (parse_available _); cbn; auto.
    destruct (parse_available _); cbn; auto.
  - unfold AioHttp.refresh_cycle, AioHttp.gather_available. cbn.
    destruct (parse_available _); cbn; auto.
    destruct (parse_available _); cbn; auto.
    destruct (parse_available _); cbn; auto.
  - intros med fire police rescue utility c0.
    pose proof (replace_all_get5 med fire police rescue utility c0) as H.
    cbv zeta in H. tauto.
  - intros med fire police c0.
    pose proof (replace_all_get3 med fire police c0) as H.
    cbv zeta in H. tauto.
Qed.

(** ** An availability source that has nothing to say *)

Lemma parse_falsy d : falsy d = true -> parse_available d = inl RuntimeError.
Proof. unfold parse_available. now intros ->. Qed.

Lemma after_awaits_alone answers k : forall n c, after_awaits (alone answers) n k c = c.
Proof. induction k; intros n c; simpl; auto. Qed.

(** C9, as stated, fails on [aioHttp3.py].  An absent answer, an empty
    body and an empty list each make [get_available] raise
    [RuntimeError]; and after a cycle whose fetches all came back absent
    the cache still holds the counts of the cycle before, so the allocator
    still ranks [A] and [B] for a medical request. *)
Lemma absent_availability_raises :
  returned (run (alone failing) 0 (AioHttp3.get_available "/medical/search") stocked)
    = inl RuntimeError /\
  parse_available (ApiText "") = inl RuntimeError /\
  parse_available (ApiItems []) = inl RuntimeError /\
  final_cache (run (alone failing) 0 (AioHttp3.refresh_cycle 5) stocked) = stocked /\
  fst (AioHttp3.snapshot_candidates towns (0, 0) "Medical"
         (final_cache (run (alone failing) 0 (AioHttp3.refresh_cycle 5) stocked)))
    = Some [("A", 1); ("B", 2)].
Proof. repeat split. Qed.

(** C9, amended.  When the availability source answers one of the five
    fetches of a cycle with nothing (no answer, an empty body or an empty
    list), [get_available] raises [RuntimeError] for it; the cycle catches
    the error, returns normally, and makes no locked block, so it leaves
    every mapping of the cache as it was: with no other coroutine at work
    the cache after the cycle is the cache before it, and the allocator
    goes on ranking the candidates of the last cycle that succeeded. *)
Theorem absent_answer_keeps_cache (w : world) (n : nat) (c : cache)
    (interval : Z) (i : nat) (endpoint : string) :
  nth_error search_endpoints i = Some endpoint ->
  falsy (respond w (i + n) (HttpGet endpoint)) = true ->
  let r := run w n (AioHttp3.refresh_cycle interval) c in
  returned (run w (i + n) (AioHttp3.get_available endpoint) c) = inl RuntimeError /\
  returned r = inr tt /\
  locked_blocks (trace r) = [] /\
  final_cache r = after_awaits w n 6 c /\
  (forall answers, w = alone answers -> final_cache r = c).
Proof.
  intros Hnth Hfalsy r. subst r.
  pose proof (parse_falsy _ Hfalsy) as Hparse.
  assert (Hmain :
    returned (run w n (AioHttp3.refresh_cycle interval) c) = inr tt /\
    locked_blocks (trace (run w n (AioHttp3.refresh_cycle interval) c)) = [] /\
    final_cache (run w n (AioHttp3.refresh_cycle interval) c) = after_awaits w n 6 c).
  { unfold AioHttp3.refresh_cycle, AioHttp3.gather_available.
    destruct i as [|[|[|[|[|[|i]]]]]]; simpl in Hnth; try discriminate;
      injection Hnth as <-; simpl in Hparse;
      cbn; rewrite ?Hparse;
      repeat (match goal with
              | |- context [parse_available ?d] => destruct (parse_available d)
              end; cbn); auto. }
  destruct Hmain as (H1 & H2 & H3).
  split; [|split; [|split; [|split]]]; auto.
  - cbn. now rewrite Hparse.
  - intros answers ->. rewrite H3. apply after_awaits_alone.
Qed.

Lemma absent_answer_keeps_cache_witness :
  returned (run (alone failing) 0 (AioHttp3.get_available "/medical/search") stocked)
    = inl RuntimeError /\
  returned (run (alone failing) 0 (AioHttp3.refresh_cycle 5) stocked) = inr tt /\
  locked_blocks (trace (run (alone failing) 0 (AioHttp3.refresh_cycle 5) stocked)) = [] /\
  final_cache (run (alone failing) 0 (AioHttp3.refresh_cycle 5) stocked)
    = after_awaits (alone failing) 0 6 stocked /\
  (forall answers, alone failing = alone answers ->
     final_cache (run (alone failing) 0 (AioHttp3.refresh_cycle 5) stocked) = stocked).
Proof.
  apply (@absent_answer_keeps_cache (alone failing) 0%nat stocked 5 0%nat
           "/medical/search"); reflexivity.
Defined.

(** ** The greedy loop takes from the nearest first *)

Section Greedy.
Context {F : Type} {ops : PyFloat F}.
Variable ld : location_details F.
Variables service_type target_city endpoint : string.
Hypothesis Hdispatcher : FastSimulation.dispatcher service_type = Some endpoint.

Local Abbreviation loop := (FastSimulation.dispatch_loop ld service_type target_city).
Local Abbreviation order_of := (FastSimulation.dispatch_order ld endpoint).

Lemma loop_stopped candidates remaining available log :
  remaining <= 0 ->
  loop candidates remaining available log = inr (remaining, available, log).
Proof.
  intros Hr. destruct candidates as [|[[city d] n] rest]; simpl; auto.
  apply Z.leb_le in Hr. now rewrite Hr.
Qed.

Lemma loop_single city d n remaining available log v :
  0 < remaining -> get available city = Some v ->
  loop [(city, d, n)] remaining available log
  = inr (remaining - Z.min n remaining,
         set available city (v - Z.min n remaining),
         log ++ order_of city target_city (Z.min n remaining)).
Proof.
  intros Hr Hv. simpl. apply Z.leb_gt in Hr. rewrite Hr.
  now rewrite Hdispatcher, Hv.
Qed.

Lemma loop_app l1 l2 :
  forall remaining available log,
    loop (l1 ++ l2) remaining available log
    = match loop l1 remaining available log with
      | inl e => inl e
      | inr (remaining', available', log') => loop l2 remaining' available' log'
      end.
Proof.
  induction l1 as [|[[city d] n] l1 IH]; intros remaining available log; simpl; auto.
  destruct (remaining <=? 0) eqn:E.
  - apply Z.leb_le in E. now rewrite loop_stopped.
  - rewrite Hdispatcher. destruct (get available city); auto.
Qed.

(** The loop raises nothing when every candidate is a key of the mapping,
    never gives units back, and touches the candidates' cities only. *)
Lemma loop_frame l :
  forall remaining available log,
    (forall c, In c l -> get available (cand_city c) <> None) ->
    Forall (fun c => cand_count c > 0) l ->
    exists remaining' available' extra,
      loop l remaining available log = inr (remaining', available', log ++ extra) /\
      remaining' <= remaining /\
      (forall k, ~ In k (map cand_city l) -> get available' k = get available k) /\
      (forall k, get available k <> None -> get available' k <> None).
Proof.
  induction l as [|[[city d] n] l IH]; intros remaining available log Hkeys Hpos.
  - exists remaining, available, []. simpl. rewrite app_nil_r.
    repeat split; auto. lia.
  - simpl. destruct (remaining <=? 0) eqn:E.
    + exists remaining, available, []. rewrite app_nil_r.
      repeat split; auto. lia.
    + apply Z.leb_gt in E. rewrite Hdispatcher.
      destruct (get available city) as [v|] eqn:Hv.
      2: { exfalso. apply (Hkeys (city, d, n)); [now left|exact Hv]. }
      inversion Hpos as [|? ? Hn Hpos']; subst. unfold cand_count in Hn. simpl in Hn.
      set (q := Z.min n remaining) in *.
      destruct (IH (remaining - q) (set available city (v - q))
                   (log ++ order_of city target_city q)) as
          (r' & av' & extra & Hrun & Hle & Hframe & Hkeep); auto.
      { intros c Hc.
        destruct (String.eqb (cand_city c) city) eqn:Ec.
        - apply String.eqb_eq in Ec. rewrite Ec, get_set_same. discriminate.
        - rewrite get_set_other.
          + apply Hkeys. now right.
          + intros Heq. rewrite Heq, String.eqb_refl in Ec. discriminate. }
      exists r', av', (order_of city target_city q ++ extra).
      rewrite Hrun, app_assoc. repeat split; auto.
      * subst q. lia.
      * intros k Hk. rewrite Hframe.
        -- apply get_set_other. intros ->. apply Hk. now left.
        -- intros Hin. apply Hk. now right.
      * intros k Hk. apply Hkeep.
        destruct (String.eqb k city) eqn:Ek.
        -- apply String.eqb_eq in Ek. subst k. rewrite get_set_same. discriminate.
        -- rewrite get_set_other; auto.
           intros ->. rewrite String.eqb_refl in Ek. discriminate.
Qed.

(** The heart of the matter: when the loop takes anything from a candidate,
    every candidate before it in the list has been emptied. *)
Lemma loop_exhausts_earlier l1 a da ca l2 b db cb l3 remaining available :
  let l := l1 ++ (a, da, ca) :: l2 ++ (b, db, cb) :: l3 in
  NoDup (map cand_city l) ->
  (forall c, In c l -> get available (cand_city c) = Some (cand_count c)) ->
  Forall (fun c => cand_count c > 0) l ->
  exists remaining' available' log,
    loop l remaining available [] = inr (remaining', available', log) /\
    forall vb, get available' b = Some vb -> vb < cb ->
      get available' a = Some 0 /\
      exists e1 e2 e3,
        log = e1 ++ order_of a target_city ca ++ e2
                 ++ order_of b target_city (cb - vb) ++ e3.
Proof.
  intros l Hnd Hsnap Hpos. subst l.
  assert (Hin : forall (c : candidate F) l, In c l -> In (cand_city c) (map cand_city l))
    by (intros; now apply in_map).
  (* the cities are pairwise distinct *)
  rewrite map_app in Hnd. simpl in Hnd. rewrite map_app in Hnd. simpl in Hnd.
  pose proof (NoDup_remove_2 _ _ _ Hnd) as Ha1.
  pose proof (NoDup_remove_1 _ _ _ Hnd) as Hnd1.
  rewrite app_assoc in Hnd1.
  pose proof (NoDup_remove_2 _ _ _ Hnd1) as Hb1.
  unfold cand_city at 2 in Ha1. unfold cand_city at 3 in Hb1. simpl in Ha1, Hb1.
  assert (Hab : a <> b).
  { intros ->. apply Ha1. apply in_or_app. right. apply in_or_app. right. now left. }
  assert (Ha_l1 : ~ In a (map cand_city l1)) by (intros H; apply Ha1, in_or_app; auto).
  assert (Ha_l2 : ~ In a (map cand_city l2))
    by (intros H; apply Ha1, in_or_app; right; apply in_or_app; auto).
  assert (Ha_l3 : ~ In a (map cand_city l3))
    by (intros H; apply Ha1, in_or_app; right; apply in_or_app; right; now right).
  assert (Hb_l1 : ~ In b (map cand_city l1))
    by (intros H; apply Hb1, in_or_app; left; apply in_or_app; auto).
  assert (Hb_l2 : ~ In b (map cand_city l2))
    by (intros H; apply Hb1, in_or_app; left; apply in_or_app; auto).
  assert (Hb_l3 : ~ In b (map cand_city l3))
    by (intros H; apply Hb1, in_or_app; auto).
  (* every stretch of the list runs without raising *)
  assert (Hkeys : forall c, In c (l1 ++ (a, da, ca) :: l2 ++ (b, db, cb) :: l3) ->
                            get available (cand_city c) <> None)
    by (intros c Hc; rewrite (Hsnap c Hc); discriminate).
  assert (Hsa : get available a = Some ca)
    by (apply (Hsnap (a, da, ca)), in_or_app; right; now left).
  assert (Hsb : get available b = Some cb).
  { apply (Hsnap (b, db, cb)), in_or_app. right. right.
    apply in_or_app. right. now left. }
  rewrite Forall_forall in Hpos.
  assert (Hca : ca > 0).
  { apply (Hpos (a, da, ca)), in_or_app. right. now left. }
  assert (Hcb : cb > 0).
  { apply (Hpos (b, db, cb)), in_or_app. right. right.
    apply in_or_app. right. now left. }
  destruct (@loop_frame l1 remaining available [])
    as (r1 & av1 & e1 & Hrun1 & Hle1 & Hframe1 & Hkeep1).
  { intros c Hc. apply Hkeys, in_or_app. now left. }
  { apply Forall_forall. intros c Hc. apply Hpos, in_or_app. now left. }
  simpl in Hrun1.
  rewrite loop_app, Hrun1.
  change ((a, da, ca) :: l2 ++ (b, db, cb) :: l3)
    with ([(a, da, ca)] ++ l2 ++ [(b, db, cb)] ++ l3).
  assert (Hav1a : get av1 a = Some ca) by (rewrite Hframe1; auto).
  assert (Hav1b : get av1 b = Some cb) by (rewrite Hframe1; auto).
  destruct (Z_le_gt_dec r1 0) as [Hr1|Hr1].
  { (* the loop had stopped before reaching [a]: nothing is taken from [b] *)
    rewrite loop_stopped by auto.
    do 3 eexists. split; [reflexivity|].
    intros vb Hvb Hlt. rewrite Hav1b in Hvb. injection Hvb as <-. lia. }
  rewrite loop_app, (@loop_single a da ca r1 av1 e1 ca ltac:(lia) Hav1a).
  set (qa := Z.min ca r1).
  set (av2 := set av1 a (ca - qa)).
  destruct (@loop_frame l2 (r1 - qa) av2 (e1 ++ order_of a target_city qa))
    as (r3 & av3 & e2 & Hrun3 & Hle3 & Hframe3 & Hkeep3).
  { intros c Hc. subst av2.
    assert (Hne : cand_city c <> a) by (intros <-; apply Ha_l2; auto).
    rewrite get_set_other by auto. apply Hkeep1, Hkeys.
    apply in_or_app. right. right. apply in_or_app. now left. }
  { apply Forall_forall. intros c Hc. apply Hpos, in_or_app. right. right.
    apply in_or_app. now left. }
  rewrite loop_app, Hrun3.
  assert (Hav3a : get av3 a = Some (ca - qa))
    by (rewrite Hframe3 by auto; subst av2; apply get_set_same).
  assert (Hav3b : get av3 b = Some cb).
  { rewrite Hframe3 by auto. subst av2. rewrite get_set_other; auto. }
  destruct (Z_le_gt_dec r3 0) as [Hr3|Hr3].
  { rewrite loop_stopped by auto.
    do 3 eexists. split; [reflexivity|].
    intros vb Hvb Hlt. rewrite Hav3b in Hvb. injection Hvb as <-. lia. }
  rewrite loop_app, (@loop_single b db cb r3 av3 _ cb ltac:(lia) Hav3b).
  set (qb := Z.min cb r3).
  set (av4 := set av3 b (cb - qb)).
  destruct (@loop_frame l3 (r3 - qb) av4
              (((e1 ++ order_of a target_city qa) ++ e2) ++ order_of b target_city qb))
    as (r5 & av5 & e3 & Hrun5 & Hle5 & Hframe5 & Hkeep5).
  { intros c Hc. subst av4.
    assert (Hne : cand_city c <> b) by (intros <-; apply Hb_l3; auto).
    rewrite get_set_other by auto. apply Hkeep3. subst av2.
    assert (Hne' : cand_city c <> a) by (intros <-; apply Ha_l3; auto).
    rewrite get_set_other by auto. apply Hkeep1, Hkeys.
    apply in_or_app. right. right. apply in_or_app. right. now right. }
  { apply Forall_forall. intros c Hc. apply Hpos, in_or_app. right. right.
    apply in_or_app. right. now right. }
  rewrite Hrun5. do 3 eexists. split; [reflexivity|].
  intros vb Hvb _.
  assert (Hqa : qa = ca) by (subst qa; lia).
  rewrite Hframe5 in Hvb by auto. subst av4. rewrite get_set_same in Hvb.
  injection Hvb as <-.
  split.
  - rewrite Hframe5 by auto. rewrite get_set_other by auto.
    rewrite Hav3a. f_equal. lia.
  - exists e1, e2, e3. rewrite Hqa.
    replace (cb - (cb - qb)) with qb by lia.
    now rewrite <- !app_assoc.
Qed.

End Greedy.

Section GreedySpec.
Context {F : Type} {ops : PyFloat F} {ord : PyFloatOrder F}.
Variable ld : location_details F.

Lemma comprehension_cities tc available c :
  In c (candidates_comprehension ld tc available) ->
  In (cand_city c) (keys available).
Proof.
  intros Hc. apply candidates_comprehension_In in Hc. destruct Hc as (Hin & _).
  unfold keys. change (cand_city c) with (fst (cand_city c, cand_count c)).
  now apply in_map.
Qed.

Lemma candidate_of_shape tc city count :
  candidate_of ld tc (city, count) = [] \/
  exists d, candidate_of ld tc (city, count) = [(city, d, count)].
Proof.
  unfold candidate_of.
  destruct ((count >? 0) && mem ld city); auto.
  destruct (get ld city); eauto.
Qed.

Lemma comprehension_nodup tc available :
  wf available -> NoDup (map cand_city (candidates_comprehension ld tc available)).
Proof.
  unfold wf, keys.
  induction available as [|[city count] rest IH]; [constructor|].
  intros Hnd. inversion Hnd as [|? ? Hnotin Hnd']; subst.
  unfold candidates_comprehension. cbn [flat_map].
  fold (candidates_comprehension ld tc rest).
  destruct (candidate_of_shape tc city count) as [->|[d ->]]; simpl; auto.
  constructor; auto.
  intros Hin. apply Hnotin. apply in_map_iff in Hin.
  destruct Hin as (c & Hcity & Hc).
  apply comprehension_cities in Hc.
  change (cand_city (city, d, count)) with city in Hcity.
  unfold keys in Hc. now rewrite <- Hcity.
Qed.

Lemma ranked_nodup tc available :
  wf available -> NoDup (map cand_city (rank_candidates ld tc available)).
Proof.
  intros Hwf. unfold rank_candidates, sort_candidates.
  rewrite candidates_append_comprehension.
  eapply Permutation_NoDup; [|apply comprehension_nodup; eauto].
  apply Permutation_map, sort_by_perm.
Qed.

Lemma ranked_In tc available c :
  In c (rank_candidates ld tc available) <->
  In (cand_city c, cand_count c) available /\ cand_count c > 0 /\
  exists src, get ld (cand_city c) = Some src /\
              cand_dist c = euclidean_distance (coord_of src) tc.
Proof.
  unfold rank_candidates, sort_candidates.
  rewrite candidates_append_comprehension, sort_by_In.
  apply candidates_comprehension_In.
Qed.

(** C3. Run on its own, the greedy allocator of [fast_simulation.py]
    empties a nearer candidate before it takes anything from a farther
    one: if the count of [b] went down and [a] is a candidate strictly
    nearer the target, then [a] ends at 0 and the order that took all of
    [a] was posted before the order for [b].  With [A] nearer than [B],
    5 units at [A] and 3 at [B], a request for 6 posts 5 from [A] then 1
    from [B] and leaves remainder 0 and counts [A] = 0, [B] = 2; a request
    for 10 posts 5 from [A] then 3 from [B] and leaves remainder 2. *)
Theorem nearer_candidate_exhausted_first (tgt : location F) (target_city : string) :
  (forall service_type endpoint available quantity_needed,
     wf available ->
     FastSimulation.dispatcher service_type = Some endpoint ->
     exists remaining available' log,
       FastSimulation.allocate ld tgt service_type target_city quantity_needed
         available [] = inr (remaining, available', log) /\
       forall a b ca cb la lb vb,
         get available a = Some ca -> ca > 0 -> get ld a = Some la ->
         get available b = Some cb -> cb > 0 -> get ld b = Some lb ->
         flt (euclidean_distance (coord_of la) (coord_of tgt))
             (euclidean_distance (coord_of lb) (coord_of tgt)) = true ->
         get available' b = Some vb -> vb < cb ->
         get available' a = Some 0 /\
         exists e1 e2 e3,
           log = e1 ++ FastSimulation.dispatch_order ld endpoint a target_city ca
                    ++ e2
                    ++ FastSimulation.dispatch_order ld endpoint b target_city (cb - vb)
                    ++ e3) /\
  (forall la lb,
     get ld "A" = Some la -> get ld "B" = Some lb -> get ld target_city = Some tgt ->
     flt (euclidean_distance (coord_of la) (coord_of tgt))
         (euclidean_distance (coord_of lb) (coord_of tgt)) = true ->
     forall available,
       available = [("A", 5); ("B", 3)] \/ available = [("B", 3); ("A", 5)] ->
       FastSimulation.allocate ld tgt "Medical" target_city 6 available []
         = inr (0, set (set available "A" 0) "B" 2,
                [("/medical/dispatch", make_payload la tgt 5);
                 ("/medical/dispatch", make_payload lb tgt 1)]) /\
       FastSimulation.allocate ld tgt "Medical" target_city 10 available []
         = inr (2, set (set available "A" 0) "B" 0,
                [("/medical/dispatch", make_payload la tgt 5);
                 ("/medical/dispatch", make_payload lb tgt 3)])).
Proof.
  split.
  - intros service_type endpoint available quantity_needed Hwf Hdisp.
    unfold FastSimulation.allocate.
    set (tc := coord_of tgt).
    set (ranked := rank_candidates ld tc available).
    assert (Hsnap : forall c, In c ranked ->
                              get available (cand_city c) = Some (cand_count c)).
    { intros c Hc. apply ranked_In in Hc. destruct Hc as (Hin & _).
      now apply In_get_wf. }
    assert (Hpos : Forall (fun c => cand_count c > 0) ranked).
    { apply Forall_forall. intros c Hc. apply ranked_In in Hc. tauto. }
    assert (Hnd : NoDup (map cand_city ranked)) by now apply ranked_nodup.
    destruct (loop_frame ld service_type target_city Hdisp (l := ranked)
                quantity_needed available [])
      as (r' & av' & log & Hrun & _); auto.
    { intros c Hc. rewrite (Hsnap c Hc). discriminate. }
    simpl in Hrun. exists r', av', log. split; [exact Hrun|].
    intros a b ca cb la lb vb Ha Hca Hla Hb Hcb Hlb Hlt Hvb Hless.
    set (xa := (a, euclidean_distance (coord_of la) tc, ca) : candidate F).
    set (xb := (b, euclidean_distance (coord_of lb) tc, cb) : candidate F).
    assert (Hxa : In xa ranked).
    { apply ranked_In. subst xa; unfold cand_city, cand_count, cand_dist; simpl.
      split; [now apply get_Some_In|]. split; auto. now exists la. }
    assert (Hxb : In xb ranked).
    { apply ranked_In. subst xb; unfold cand_city, cand_count, cand_dist; simpl.
      split; [now apply get_Some_In|]. split; auto. now exists lb. }
    destruct (sorted_lt_before (key := cand_dist) (l := ranked) xa xb)
      as (l1 & l2 & l3 & Hsplit); auto.
    { apply (sort_by_sorted cand_dist). }
    rewrite Hsplit in Hsnap, Hpos, Hnd, Hrun.
    destruct (loop_exhausts_earlier ld service_type target_city Hdisp
                l1 a _ ca l2 b _ cb l3 quantity_needed available Hnd Hsnap Hpos)
      as (r'' & av'' & log'' & Hrun' & Hgreedy).
    assert (E : @inr exn _ (r', av', log) = inr (r'', av'', log''))
      by (rewrite <- Hrun, <- Hrun'; reflexivity).
    injection E as -> -> ->. now apply Hgreedy.
  - intros la lb HA HB HT Hlt available Havail.
    pose proof (flt_asym _ _ Hlt) as Hgt.
    unfold FastSimulation.allocate, rank_candidates, candidates_append,
      sort_candidates, sort_by.
    destruct Havail as [-> | ->]; simpl;
      unfold mem; rewrite ?HA, ?HB; simpl;
      unfold cand_dist; simpl; rewrite ?Hlt, ?Hgt; simpl;
      unfold FastSimulation.dispatch_order; rewrite ?HA, ?HB, ?HT; simpl; auto.
Qed.

End GreedySpec.

Lemma nearer_candidate_exhausted_first_witness :
  (exists remaining available' log,
     FastSimulation.allocate towns (place "T" 0 0) "Fire" "T" 7
       [("B", 3); ("A", 5)] [] = inr (remaining, available', log) /\
     forall vb, get available' "B" = Some vb -> vb < 3 ->
       get available' "A" = Some 0) /\
  euclidean_distance (coord_of (place "A" 1 0)) (coord_of (place "T" 0 0)) = 1 /\
  euclidean_distance (coord_of (place "B" 2 0)) (coord_of (place "T" 0 0)) = 2 /\
  FastSimulation.allocate towns (place "T" 0 0) "Medical" "T" 6
      [("A", 5); ("B", 3)] []
    = inr (0, [("A", 0); ("B", 2)],
           [("/medical/dispatch", make_payload (place "A" 1 0) (place "T" 0 0) 5);
            ("/medical/dispatch", make_payload (place "B" 2 0) (place "T" 0 0) 1)]) /\
  FastSimulation.allocate towns (place "T" 0 0) "Medical" "T" 10
      [("A", 5); ("B", 3)] []
    = inr (2, [("A", 0); ("B", 0)],
           [("/medical/dispatch", make_payload (place "A" 1 0) (place "T" 0 0) 5);
            ("/medical/dispatch", make_payload (place "B" 2 0) (place "T" 0 0) 3)]).
Proof.
  split.
  { destruct (proj1 (nearer_candidate_exhausted_first towns (place "T" 0 0) "T")
                "Fire" "/fire/dispatch" [("B", 3); ("A", 5)] 7)
      as (remaining & available' & log & Hrun & Hgreedy).
    - repeat constructor; simpl; intuition discriminate.
    - reflexivity.
    - exists remaining, available', log. split; [exact Hrun|].
      intros vb Hvb Hlt.
      apply (Hgreedy "A" "B" 5 3 (place "A" 1 0) (place "B" 2 0) vb);
        try reflexivity; try lia; auto. }
  split; [reflexivity|]. split; [reflexivity|].
  apply (proj2 (nearer_candidate_exhausted_first towns (place "T" 0 0) "T")
           (place "A" 1 0) (place "B" 2 0));
    [reflexivity | reflexivity | reflexivity | vm_compute; reflexivity
    | left; reflexivity].
Defined.

(** ** A target that is not in the index *)

(** C6 (fails on [fast_simulation.py]).  For a call to a city the index
    does not hold, [process_multi_service_emergency] posts no order and
    lowers no count, but it reports the call successful; on the same call
    [aioHttp3.py] returns [False] without a single event. *)
Theorem unknown_target_reported_successful :
  FastSimulation.process_multi_service_emergency towns supplied to_atlantis
    = inr (true,
           [("Medical", [("A", 5); ("B", 3)]); ("Fire", [("A", 5); ("B", 3)]);
            ("Police", [("A", 5); ("B", 3)])],
           []) /\
  run (alone supplied) 0
      (AioHttp3.process_multi_service_emergency_shared towns to_atlantis) stocked
    = (inr false, stocked, []).
Proof. split; reflexivity. Qed.

(** ** Requests that ask for nothing *)




Section Skipping.
Context {F : Type} {ops : PyFloat F}.
Variable ld : location_details F.




End Skipping.


(** * Part IV: more of the programs, more facts *)

(** ** Sums *)

Lemma sumZ_app l1 l2 : sumZ (l1 ++ l2) = sumZ l1 + sumZ l2.
Proof. unfold sumZ. induction l1; simpl; lia. Qed.

Lemma sumZ_perm l1 l2 : Permutation l1 l2 -> sumZ l1 = sumZ l2.
Proof. unfold sumZ. induction 1; simpl; lia. Qed.

Lemma ordered_app l1 l2 : ordered (l1 ++ l2) = ordered l1 + ordered l2.
Proof. unfold ordered. now rewrite map_app, sumZ_app. Qed.

Lemma total_set d k v old :
  get d k = Some old -> total (set d k v) = total d - old + v.
Proof.
  unfold total, sumZ. induction d as [|[k0 v0] d IH]; simpl; [discriminate|].
  destruct (String.eqb k k0) eqn:E; simpl.
  - intros [= ->]. lia.
  - intros H. rewrite (IH H). lia.
Qed.

Lemma set_same_value {V : Type} (d : dict V) k v : get d k = Some v -> set d k v = d.
Proof.
  induction d as [|[k0 v0] d IH]; simpl; [discriminate|].
  destruct (String.eqb k k0) eqn:E.
  - now intros [= ->].
  - intros H. now rewrite IH.
Qed.

Lemma set_set {V : Type} (d : dict V) k v1 v2 : set (set d k v1) k v2 = set d k v2.
Proof.
  induction d as [|[k0 v0] d IH]; simpl.
  - now rewrite String.eqb_refl.
  - destruct (String.eqb k k0) eqn:E; simpl; rewrite E; auto.
    now rewrite IH.
Qed.

Section Supply.
Context {F : Type} {ops : PyFloat F}.
Variable ld : location_details F.

Lemma comprehension_supply tc available :
  sumZ (map cand_count (candidates_comprehension ld tc available)) = supply ld available.
Proof.
  unfold candidates_comprehension, supply.
  induction available as [|[city n] rest IH]; simpl; auto.
  rewrite map_app, sumZ_app, IH. unfold candidate_of, mem.
  destruct (n >? 0); simpl; auto.
  destruct (get ld city); simpl; auto.
  unfold sumZ. simpl. lia.
Qed.

Lemma ranked_supply tc available :
  sumZ (map cand_count (rank_candidates ld tc available)) = supply ld available.
Proof.
  rewrite <- (comprehension_supply tc).
  unfold rank_candidates, sort_candidates.
  rewrite candidates_append_comprehension.
  apply sumZ_perm, Permutation_map, Permutation_sym, sort_by_perm.
Qed.

Lemma positive_counts_sum (l : list (candidate F)) :
  Forall (fun c => cand_count c > 0) l -> 0 <= sumZ (map cand_count l).
Proof. unfold sumZ. induction 1; simpl; lia. Qed.

End Supply.

(** ** [fast_simulation.py]: what one allocation takes *)

Section Accounts.
Context {F : Type} {ops : PyFloat F}.
Variable ld : location_details F.
Variables service_type target_city endpoint : string.
Hypothesis Hdispatcher : FastSimulation.dispatcher service_type = Some endpoint.
Hypothesis Htarget : get ld target_city <> None.

(** Running the loop on candidates that mirror the mapping: the remainder,
    the orders and the mapping it leaves. *)
Lemma loop_accounts l :
  forall remaining available log,
    NoDup (map cand_city l) ->
    (forall c, In c l ->
       get available (cand_city c) = Some (cand_count c) /\
       cand_count c > 0 /\ get ld (cand_city c) <> None) ->
    exists remaining' available' extra,
      FastSimulation.dispatch_loop ld service_type target_city l remaining
        available log = inr (remaining', available', log ++ extra) /\
      remaining' = (if remaining <=? 0 then remaining
                    else Z.max 0 (remaining - sumZ (map cand_count l))) /\
      ordered extra = remaining - remaining' /\
      total available' = total available - (remaining - remaining') /\
      (forall k v, get available k = Some v ->
         exists v', get available' k = Some v' /\ v' <= v /\ (0 <= v -> 0 <= v')) /\
      Forall (fun o => fst o = endpoint /\ 0 < quantity (snd o)) extra.
Proof.
  induction l as [|[[city d] n] l IH]; intros remaining available log Hnd Hinv.
  - exists remaining, available, []. simpl. rewrite app_nil_r.
    split; [reflexivity|]. split.
    { destruct (remaining <=? 0) eqn:E; auto. apply Z.leb_gt in E.
      unfold sumZ; simpl. lia. }
    split; [unfold ordered, sumZ; simpl; lia|]. split; [lia|].
    split; [|constructor].
    intros k v Hv. exists v. split; auto. lia.
  - simpl. destruct (remaining <=? 0) eqn:E.
    + exists remaining, available, []. rewrite app_nil_r.
      split; [reflexivity|]. split; [reflexivity|].
      split; [unfold ordered, sumZ; simpl; lia|]. split; [lia|].
      split; [|constructor].
      intros k v Hv. exists v. split; auto. lia.
    + apply Z.leb_gt in E. rewrite Hdispatcher.
      destruct (Hinv (city, d, n) (or_introl eq_refl)) as (Hget & Hn & Hld).
      unfold cand_city, cand_count in Hget, Hn, Hld. simpl in Hget, Hn, Hld.
      rewrite Hget.
      set (q := Z.min n remaining).
      assert (Horder : exists o, FastSimulation.dispatch_order ld endpoint city
                                   target_city q = [(endpoint, o)] /\ quantity o = q).
      { unfold FastSimulation.dispatch_order.
        destruct (get ld city) as [src|]; [|contradiction].
        destruct (get ld target_city) as [tgt|]; [|contradiction].
        eexists. split; reflexivity. }
      destruct Horder as (o & Horder & Hqo). rewrite Horder.
      inversion Hnd as [|? ? Hnotin Hnd']; subst.
      assert (Hpos : Forall (fun c : candidate F => cand_count c > 0) l).
      { apply Forall_forall. intros c Hc. apply Hinv. now right. }
      pose proof (positive_counts_sum Hpos) as Hsum.
      destruct (IH (remaining - q) (set available city (n - q))
                   (log ++ [(endpoint, o)]) Hnd') as
          (r' & av' & extra & Hrun & Hr' & Hord & Htot & Hbound & Hall).
      { intros c Hc. destruct (Hinv c (or_intror Hc)) as (Hg & Hp & Hl).
        split; [|auto]. rewrite get_set_other; auto.
        intros Heq. apply Hnotin. unfold cand_city at 1. simpl.
        rewrite <- Heq. now apply in_map. }
      exists r', av', ((endpoint, o) :: extra).
      rewrite Hrun. split; [now rewrite <- app_assoc|].
      rewrite (total_set _ _ (n - q) Hget) in Htot.
      change (sumZ (map cand_count ((city, d, n) :: l)))
        with (n + sumZ (map cand_count l)).
      split.
      { destruct (remaining - q <=? 0) eqn:E1.
        - apply Z.leb_le in E1. subst q. lia.
        - apply Z.leb_gt in E1. subst q. lia. }
      split.
      { unfold ordered in *. simpl. unfold sumZ in *. simpl. lia. }
      split; [lia|]. split.
      * intros k v Hv. destruct (String.eqb k city) eqn:Ek.
        -- apply String.eqb_eq in Ek. subst k.
           rewrite Hget in Hv. injection Hv as <-.
           destruct (Hbound city (n - q)) as (v' & Hv' & Hle & Hnn).
           { apply get_set_same. }
           exists v'. split; auto. subst q. split; [lia|]. intros _. apply Hnn. lia.
        -- apply Hbound. rewrite get_set_other; auto.
           intros ->. rewrite String.eqb_refl in Ek. discriminate.
      * constructor; auto. simpl. split; auto. subst q. lia.
Qed.

End Accounts.

Section FastRequests.
Context {F : Type} {ops : PyFloat F}.
Variable ld : location_details F.

Lemma supply_nonneg (available : dict Z) : 0 <= supply ld available.
Proof.
  unfold supply, sumZ. induction available as [|[city n] rest IH]; simpl; [lia|].
  destruct (n >? 0) eqn:E; simpl; auto.
  destruct (mem ld city); simpl; auto. apply Z.gtb_lt in E. lia.
Qed.

(** The ranked candidates mirror the mapping they were built from. *)
Lemma ranked_mirror tc available :
  wf available ->
  NoDup (map cand_city (rank_candidates ld tc available)) /\
  forall c, In c (rank_candidates ld tc available) ->
    get available (cand_city c) = Some (cand_count c) /\
    cand_count c > 0 /\ get ld (cand_city c) <> None.
Proof.
  intros Hwf. split; [now apply ranked_nodup|].
  intros c Hc. apply ranked_In in Hc. destruct Hc as (Hin & Hpos & src & Hsrc & _).
  split; [now apply In_get_wf|]. split; auto. rewrite Hsrc. discriminate.
Qed.

(** X1. One allocation of [fast_simulation.py] accounts for every unit:
    the remainder stays between 0 and the quantity asked for, the orders
    posted move exactly the units the remainder went down by, the mapping
    loses exactly those units, no count grows and no count that was not
    negative becomes negative, and every order goes to the endpoint of the
    service with a positive quantity. *)
Theorem fast_allocation_accounts (tgt : location F)
    (service_type target_city endpoint : string) (quantity_needed : Z)
    (available : dict Z) :
  0 < quantity_needed ->
  wf available ->
  FastSimulation.dispatcher service_type = Some endpoint ->
  get ld target_city <> None ->
  exists remaining available' log,
    FastSimulation.allocate ld tgt service_type target_city quantity_needed
      available [] = inr (remaining, available', log) /\
    0 <= remaining <= quantity_needed /\
    ordered log = quantity_needed - remaining /\
    total available' = total available - (quantity_needed - remaining) /\
    (forall k v, get available k = Some v ->
       exists v', get available' k = Some v' /\ v' <= v /\ (0 <= v -> 0 <= v')) /\
    Forall (fun o => fst o = endpoint /\ 0 < quantity (snd o)) log.
Proof.
  intros Hq Hwf Hdisp Htarget. unfold FastSimulation.allocate.
  destruct (ranked_mirror (coord_of tgt) Hwf) as (Hnd & Hinv).
  destruct (loop_accounts ld service_type target_city Hdisp Htarget
              (rank_candidates ld (coord_of tgt) available)
              quantity_needed available [] Hnd Hinv)
    as (r' & av' & extra & Hrun & Hr' & Hord & Htot & Hbound & Hall).
  simpl in Hrun. exists r', av', extra. split; [exact Hrun|].
  rewrite ranked_supply in Hr'.
  pose proof (supply_nonneg available) as Hs.
  assert (E : (quantity_needed <=? 0) = false) by (apply Z.leb_gt; lia).
  rewrite E in Hr'. repeat split; auto; lia.
Qed.

(** X2. A request of [fast_simulation.py] that reaches the allocation is
    fulfilled exactly when the positive counts of the cities the index
    knows add up to at least the quantity asked for: the flag stays as it
    was if they do and becomes [False] if they do not, and the orders
    posted move the smaller of the quantity and that supply. *)
Theorem fast_request_fulfilled_iff_supply (tgt : location F)
    (target_city endpoint : string) (req : request) (all_success : bool)
    (available_resources : dict (dict Z)) (available : dict Z)
    (log : list FastSimulation.order) :
  0 < Quantity req ->
  get ld target_city = Some tgt ->
  get available_resources (Type_ req) = Some available ->
  wf available ->
  FastSimulation.dispatcher (Type_ req) = Some endpoint ->
  exists available' extra,
    FastSimulation.process_request ld target_city req
      (all_success, available_resources, log)
    = inr (all_success && (Quantity req <=? supply ld available),
           set available_resources (Type_ req) available',
           log ++ extra) /\
    ordered extra = Z.min (Quantity req) (supply ld available) /\
    total available' = total available - Z.min (Quantity req) (supply ld available).
Proof.
  intros Hq Htgt Hres Hwf Hdisp.
  unfold FastSimulation.process_request, FastSimulation.allocate.
  assert (E : (Quantity req <=? 0) = false) by (apply Z.leb_gt; lia).
  rewrite E, Htgt, Hres.
  destruct (ranked_mirror (coord_of tgt) Hwf) as (Hnd & Hinv).
  assert (Htarget : get ld target_city <> None) by (rewrite Htgt; discriminate).
  destruct (loop_accounts ld (Type_ req) target_city Hdisp Htarget
              (rank_candidates ld (coord_of tgt) available)
              (Quantity req) available log Hnd Hinv)
    as (r' & av' & extra & Hrun & Hr' & Hord & Htot & _).
  rewrite Hrun. exists av', extra.
  rewrite ranked_supply, E in Hr'.
  pose proof (supply_nonneg available) as Hs.
  split; [|split; lia].
  f_equal. f_equal. f_equal.
  destruct (r' >? 0) eqn:Er.
  - apply Z.gtb_lt in Er.
    assert (E2 : (Quantity req <=? supply ld available) = false)
      by (apply Z.leb_gt; lia).
    rewrite E2. now rewrite andb_false_r.
  - rewrite Z.gtb_ltb in Er. apply Z.ltb_ge in Er.
    assert (E2 : (Quantity req <=? supply ld available) = true)
      by (apply Z.leb_le; lia).
    rewrite E2. now rewrite andb_true_r.
Qed.

End FastRequests.

Lemma fast_allocation_accounts_witness :
  exists remaining available' log,
    FastSimulation.allocate towns (place "T" 0 0) "Police" "T" 7
      [("B", 3); ("X", 9); ("A", 5)] [] = inr (remaining, available', log) /\
    0 <= remaining <= 7 /\
    ordered log = 7 - remaining /\
    total available' = total [("B", 3); ("X", 9); ("A", 5)] - (7 - remaining).
Proof.
  destruct (@fast_allocation_accounts Z _ towns (place "T" 0 0) "Police" "T"
              "/police/dispatch" 7 [("B", 3); ("X", 9); ("A", 5)])
    as (r & av & log & H1 & H2 & H3 & H4 & _).
  - lia.
  - repeat constructor; simpl; intuition discriminate.
  - reflexivity.
  - discriminate.
  - exists r, av, log. auto.
Defined.

Lemma fast_request_fulfilled_iff_supply_witness :
  exists available' extra,
    FastSimulation.process_request towns "T" {| Type_ := "Fire"; Quantity := 9 |}
      (true, [("Medical", []); ("Fire", [("A", 5); ("B", 3)]); ("Police", [])], [])
    = inr (true && (9 <=? supply towns [("A", 5); ("B", 3)]),
           set [("Medical", []); ("Fire", [("A", 5); ("B", 3)]); ("Police", [])]
               "Fire" available',
           [] ++ extra) /\
    ordered extra = Z.min 9 (supply towns [("A", 5); ("B", 3)]) /\
    total available' = total [("A", 5); ("B", 3)]
                       - Z.min 9 (supply towns [("A", 5); ("B", 3)]).
Proof.
  apply (@fast_request_fulfilled_iff_supply Z _ towns (place "T" 0 0) "T"
           "/fire/dispatch" {| Type_ := "Fire"; Quantity := 9 |} true
           [("Medical", []); ("Fire", [("A", 5); ("B", 3)]); ("Police", [])]
           [("A", 5); ("B", 3)] []).
  - simpl. lia.
  - reflexivity.
  - reflexivity.
  - repeat constructor; simpl; intuition discriminate.
  - reflexivity.
Defined.

(** ** [main.py]: the ambulance allocator *)

Section MainCalls.
Context {F : Type} {ops : PyFloat F}.
Variable ld : location_details F.

(** The loop of [main.py] is the loop of [fast_simulation.py] run for the
    medical service. *)
Lemma main_loop_is_medical target_city (l : list (candidate F)) :
  forall remaining available log,
    Main.dispatch_loop ld target_city l remaining available log =
    FastSimulation.dispatch_loop ld "Medical" target_city l remaining available log.
Proof.
  induction l as [|[[city d] n] l IH]; intros remaining available log;
    [reflexivity|].
  cbn [Main.dispatch_loop FastSimulation.dispatch_loop].
  change (FastSimulation.dispatcher "Medical") with (Some "/medical/dispatch").
  destruct (remaining <=? 0); [reflexivity|].
  destruct (get available city); [|reflexivity].
  apply IH.
Qed.

(** X3. A call of [main.py] that states a positive count under ["needed"],
    ["required"] or ["count"] (the first of them that is not zero) for a
    city of the index is served from that count alone, whatever
    ["requests"] holds: it succeeds exactly when the positive counts of the
    known cities add up to the count, it orders the smaller of the two, all
    of it at the medical endpoint, and the caller's mapping loses what was
    ordered. *)
Theorem main_call_fulfilled_iff_supply (cl : Main.call) (t : string)
    (tgt : location F) (n : Z) (available : dict Z) :
  Main.city cl = Some t ->
  t <> "" ->
  get ld t = Some tgt ->
  Main.int_or (Main.int_or (Main.needed cl) (Main.required cl)) (Main.count cl)
    = Some n ->
  0 < n ->
  wf available ->
  exists available' log,
    Main.process_emergency ld cl available
      = inr (n <=? supply ld available, available', log) /\
    ordered log = Z.min n (supply ld available) /\
    total available' = total available - Z.min n (supply ld available) /\
    Forall (fun o => fst o = "/medical/dispatch") log.
Proof.
  intros Hcity Hne Htgt Hstated Hn Hwf. unfold Main.process_emergency.
  rewrite Hcity.
  assert (E0 : String.eqb t "" = false) by now apply String.eqb_neq.
  rewrite E0, Hstated.
  assert (E1 : (n =? 0) || (n <=? 0) = false).
  { apply orb_false_iff. split; [apply Z.eqb_neq | apply Z.leb_gt]; lia. }
  rewrite E1, Htgt, main_loop_is_medical.
  destruct (ranked_mirror ld (coord_of tgt) Hwf) as (Hnd & Hinv).
  assert (Htarget : get ld t <> None) by (rewrite Htgt; discriminate).
  destruct (loop_accounts ld "Medical" t (endpoint := "/medical/dispatch")
              eq_refl Htarget
              (rank_candidates ld (coord_of tgt) available)
              n available [] Hnd Hinv)
    as (r' & av' & extra & Hrun & Hr' & Hord & Htot & _ & Hall).
  unfold FastSimulation.order in *.
  rewrite Hrun. simpl. exists av', extra.
  assert (E : (n <=? 0) = false) by (apply Z.leb_gt; lia).
  rewrite ranked_supply, E in Hr'.
  pose proof (supply_nonneg ld available) as Hs.
  split; [|split; [lia|split; [lia|]]].
  - f_equal. f_equal. f_equal.
    destruct (r' >? 0) eqn:Er; simpl; symmetry.
    + apply Z.gtb_lt in Er. apply Z.leb_gt. lia.
    + rewrite Z.gtb_ltb in Er. apply Z.ltb_ge in Er. apply Z.leb_le. lia.
  - eapply Forall_impl; [|exact Hall]. intros o [Ho _]. exact Ho.
Qed.

End MainCalls.

Lemma main_call_fulfilled_iff_supply_witness :
  exists available' log,
    Main.process_emergency towns
      {| Main.city := Some "T"; Main.needed := Some 0; Main.required := None;
         Main.count := Some 6;
         Main.requests := Some [{| Type_ := "Medical"; Quantity := 100 |}] |}
      [("A", 5); ("B", 3)]
      = inr (6 <=? supply towns [("A", 5); ("B", 3)], available', log) /\
    ordered log = Z.min 6 (supply towns [("A", 5); ("B", 3)]) /\
    total available' = total [("A", 5); ("B", 3)]
                       - Z.min 6 (supply towns [("A", 5); ("B", 3)]) /\
    Forall (fun o => fst o = "/medical/dispatch") log.
Proof.
  apply (@main_call_fulfilled_iff_supply Z _ towns
           {| Main.city := Some "T"; Main.needed := Some 0; Main.required := None;
              Main.count := Some 6;
              Main.requests := Some [{| Type_ := "Medical"; Quantity := 100 |}] |}
           "T" (place "T" 0 0) 6 [("A", 5); ("B", 3)]).
  - reflexivity.
  - discriminate.
  - reflexivity.
  - reflexivity.
  - lia.
  - repeat constructor; simpl; intuition discriminate.
Defined.

(** ** [vector_simulation.py] against [fast_simulation.py] *)

Lemma keys_set_present {V : Type} (d : dict V) (k : string) (v : V) :
  get d k <> None -> keys (set d k v) = keys d.
Proof.
  unfold keys. induction d as [|[k0 v0] d IH]; simpl; [congruence|].
  destruct (String.eqb k k0) eqn:E; simpl; [reflexivity|].
  intros H. now rewrite IH.
Qed.

Lemma get_Some_keys {V : Type} (d : dict V) (k : string) (v : V) :
  get d k = Some v -> In k (keys d).
Proof.
  intros H. apply get_Some_In in H. unfold keys.
  change k with (fst (k, v)). now apply in_map.
Qed.

(** The address [vector_simulation.py] builds from the lowered service name
    is the one the [if]/[elif] chain of [fast_simulation.py] picks. *)
Lemma dispatcher_lower (service endpoint : string) :
  FastSimulation.dispatcher service = Some endpoint ->
  endpoint = ("/" ++ lower service ++ "/dispatch")%string.
Proof.
  unfold FastSimulation.dispatcher.
  destruct (String.eqb service "Medical") eqn:E1;
    [apply String.eqb_eq in E1; subst; now intros [= <-]|].
  destruct (String.eqb service "Fire") eqn:E2;
    [apply String.eqb_eq in E2; subst; now intros [= <-]|].
  destruct (String.eqb service "Police") eqn:E3;
    [apply String.eqb_eq in E3; subst; now intros [= <-]|].
  discriminate.
Qed.

Lemma dispatcher_registered (service : string) :
  In service ["Medical"; "Fire"; "Police"] ->
  exists endpoint, FastSimulation.dispatcher service = Some endpoint.
Proof.
  simpl. intros [<- | [<- | [<- | []]]]; eexists; reflexivity.
Qed.

Section VectorAgainstFast.
Context {F : Type} {ops : PyFloat F}.
Variable ld : location_details F.

Lemma vector_loop_is_fast service endpoint target_city (l : list (candidate F)) :
  FastSimulation.dispatcher service = Some endpoint ->
  forall remaining available log,
    VectorSimulation.dispatch_loop ld service target_city l remaining available log =
    FastSimulation.dispatch_loop ld service target_city l remaining available log.
Proof.
  intros Hd. induction l as [|[[city d] n] l IH]; intros remaining available log;
    [reflexivity|].
  cbn [VectorSimulation.dispatch_loop FastSimulation.dispatch_loop].
  rewrite Hd.
  destruct (remaining <=? 0); [reflexivity|].
  destruct (get available city); [|reflexivity].
  rewrite IH. unfold VectorSimulation.dispatch, FastSimulation.dispatch_order.
  now rewrite (dispatcher_lower _ Hd).
Qed.

Lemma vector_request_is_fast target_city tgt req all_success
    (available_resources : dict (dict Z)) log :
  get ld target_city = Some tgt ->
  keys available_resources = ["Medical"; "Fire"; "Police"] ->
  VectorSimulation.process_request ld target_city (coord_of tgt) req
    (all_success, available_resources, log) =
  FastSimulation.process_request ld target_city req
    (all_success, available_resources, log).
Proof.
  intros Htgt Hkeys.
  unfold VectorSimulation.process_request, FastSimulation.process_request,
    FastSimulation.allocate, mem.
  destruct (Quantity req <=? 0); [reflexivity|]. rewrite Htgt.
  destruct (get available_resources (Type_ req)) as [available|] eqn:Hres;
    [|reflexivity].
  simpl.
  assert (Hin : In (Type_ req) ["Medical"; "Fire"; "Police"])
    by (rewrite <- Hkeys; eapply get_Some_keys; eauto).
  destruct (dispatcher_registered Hin) as (endpoint & Hd).
  rewrite (vector_loop_is_fast _ target_city _ Hd).
  unfold rank_candidates, rank_candidates_vector.
  now rewrite candidates_append_comprehension.
Qed.

Lemma fast_request_keeps_keys target_city req st st' :
  FastSimulation.process_request ld target_city req st = inr st' ->
  keys (snd (fst st')) = keys (snd (fst st)).
Proof.
  destruct st as [[b res] log]. unfold FastSimulation.process_request.
  destruct (Quantity req <=? 0); [now intros [= <-]|].
  destruct (get ld target_city); [|now intros [= <-]].
  destruct (get res (Type_ req)) eqn:Hres; [|now intros [= <-]].
  destruct (FastSimulation.allocate _ _ _ _ _ _ _) as [e|[[r av'] log']];
    [discriminate|].
  intros [= <-]. simpl. apply keys_set_present. rewrite Hres. discriminate.
Qed.

Lemma vector_requests_are_fast target_city tgt requests_list :
  get ld target_city = Some tgt ->
  forall st,
    keys (snd (fst st)) = ["Medical"; "Fire"; "Police"] ->
    VectorSimulation.requests_loop ld target_city (coord_of tgt) requests_list st =
    FastSimulation.requests_loop ld target_city requests_list st.
Proof.
  intros Htgt. induction requests_list as [|req rest IH]; intros st Hkeys;
    [reflexivity|].
  cbn [VectorSimulation.requests_loop FastSimulation.requests_loop].
  destruct st as [[b res] log]. simpl in Hkeys.
  rewrite (vector_request_is_fast _ req b res log Htgt Hkeys).
  destruct (FastSimulation.process_request ld target_city req (b, res, log))
    as [e|st'] eqn:Hstep; [reflexivity|].
  apply IH. rewrite (fast_request_keeps_keys _ _ _ Hstep). exact Hkeys.
Qed.

Lemma parse_available_inr (data : api_data) (available : dict Z) :
  parse_available data = inr available ->
  exists l, data = ApiItems l /\ available = collect_available l.
Proof.
  unfold parse_available. destruct (falsy data); [discriminate|].
  destruct data as [|s|l]; try discriminate.
  intros [= <-]. now exists l.
Qed.

Lemma fast_fetch_is_vector (answers : awaitable -> api_data)
    (available_resources : dict (dict Z)) :
  FastSimulation.fetch_available_resources answers = inr available_resources ->
  VectorSimulation.fetch_available_resources answers = inr available_resources /\
  keys available_resources = ["Medical"; "Fire"; "Police"].
Proof.
  unfold FastSimulation.fetch_available_resources,
    VectorSimulation.fetch_available_resources,
    FastSimulation.get_available, VectorSimulation.get_available.
  change ("/" ++ lower "medical" ++ "/search")%string with "/medical/search".
  change ("/" ++ lower "fire" ++ "/search")%string with "/fire/search".
  change ("/" ++ lower "police" ++ "/search")%string with "/police/search".
  change (capitalize "medical") with "Medical".
  change (capitalize "fire") with "Fire".
  change (capitalize "police") with "Police".
  destruct (parse_available (answers (HttpGet "/medical/search")))
    as [e|med] eqn:H1; [discriminate|].
  destruct (parse_available (answers (HttpGet "/fire/search")))
    as [e|fire] eqn:H2; [discriminate|].
  destruct (parse_available (answers (HttpGet "/police/search")))
    as [e|police] eqn:H3; [discriminate|].
  apply parse_available_inr in H1, H2, H3.
  destruct H1 as (l1 & -> & ->), H2 as (l2 & -> & ->), H3 as (l3 & -> & ->).
  intros [= <-]. split; reflexivity.
Qed.

(** X4. On a call whose city is in the index, whenever
    [process_multi_service_emergency] of [fast_simulation.py] returns,
    [process_call] of [vector_simulation.py] returns the same value, ends
    with the same availability and posts the same orders to the same
    addresses: building the address from the lowered service name, testing
    the service against the fetched mapping and ranking by a list
    comprehension change nothing. *)
Theorem vector_call_agrees_with_fast (answers : awaitable -> api_data)
    (cl : call) (st : FastSimulation.state) :
  known_target ld cl <> None ->
  FastSimulation.process_multi_service_emergency ld answers cl = inr st ->
  VectorSimulation.process_call ld answers cl = inr st.
Proof.
  unfold known_target, FastSimulation.process_multi_service_emergency,
    VectorSimulation.process_call, known_target.
  destruct (call_city cl) as [t|]; [|congruence].
  destruct (String.eqb t ""); [congruence|].
  destruct (get ld t) as [tgt|] eqn:Htgt; [|congruence].
  intros _. destruct (call_requests cl) as [|req rest]; [auto|].
  destruct (FastSimulation.fetch_available_resources answers)
    as [e|res] eqn:Hfetch; [discriminate|].
  destruct (fast_fetch_is_vector _ Hfetch) as (-> & Hkeys).
  intros H. rewrite (@vector_requests_are_fast t tgt (req :: rest) Htgt); auto.
Qed.

End VectorAgainstFast.

Lemma vector_call_agrees_with_fast_witness :
  VectorSimulation.process_call towns supplied
    {| call_city := Some "T";
       call_requests := [{| Type_ := "Fire"; Quantity := 6 |};
                         {| Type_ := "Rescue"; Quantity := 2 |};
                         {| Type_ := "Police"; Quantity := 9 |}] |}
  = inr (false,
         [("Medical", [("A", 5); ("B", 3)]); ("Fire", [("A", 0); ("B", 2)]);
          ("Police", [("A", 0); ("B", 0)])],
         [("/fire/dispatch",
           make_payload (place "A" 1 0) (place "T" 0 0) 5);
          ("/fire/dispatch",
           make_payload (place "B" 2 0) (place "T" 0 0) 1);
          ("/police/dispatch",
           make_payload (place "A" 1 0) (place "T" 0 0) 5);
          ("/police/dispatch",
           make_payload (place "B" 2 0) (place "T" 0 0) 3)]).
Proof.
  apply (@vector_call_agrees_with_fast Z _ towns supplied).
  - discriminate.
  - vm_compute. reflexivity.
Defined.

(** ** [vector_simulation.py] when the availability source is silent *)

Section VectorSilent.
Context {F : Type} {ops : PyFloat F}.
Variable ld : location_details F.

Lemma vector_get_available_falsy (answers : awaitable -> api_data) (service : string) :
  falsy (answers (HttpGet ("/" ++ service ++ "/search")%string)) = true ->
  VectorSimulation.get_available answers service = inr [].
Proof.
  unfold VectorSimulation.get_available.
  destruct (answers _) as [|s|[|it l]]; simpl; try discriminate; auto.
  now intros ->.
Qed.

Lemma mem_empties (service : string) :
  mem unstocked service
    = fetched service /\
  (fetched service = true ->
   get unstocked service
     = Some []).
Proof.
  unfold mem, fetched, fetched_services, unstocked. simpl.
  destruct (String.eqb service "Medical"); [auto|].
  destruct (String.eqb service "Fire"); [auto|].
  destruct (String.eqb service "Police"); [auto|].
  split; [reflexivity|discriminate].
Qed.

Lemma vector_requests_on_empties target_city target_coord requests_list :
  forall all_success,
    VectorSimulation.requests_loop ld target_city target_coord requests_list
      (all_success, unstocked, [])
    = inr (all_success && forallb idle requests_list,
           unstocked, []).
Proof.
  induction requests_list as [|req rest IH]; intros all_success.
  - simpl. now rewrite andb_true_r.
  - cbn [VectorSimulation.requests_loop forallb].
    unfold VectorSimulation.process_request, idle at 1. cbv beta iota zeta.
    destruct (mem_empties (Type_ req)) as (Hmem & Hget). rewrite Hmem.
    destruct (Quantity req <=? 0) eqn:Eq; cbn [orb negb andb].
    + rewrite IH. reflexivity.
    + destruct (fetched (Type_ req)) eqn:Ef; cbn [orb negb andb].
      * rewrite (Hget eq_refl).
        change (rank_candidates_vector ld target_coord []) with (@nil (candidate F)).
        cbn [VectorSimulation.dispatch_loop].
        assert (Eg : (Quantity req >? 0) = true)
          by (apply Z.leb_gt in Eq; apply Z.gtb_lt; lia).
        rewrite Eg.
        rewrite (set_same_value _ _ (Hget eq_refl)).
        rewrite IH. now rewrite andb_false_r.
      * rewrite IH. reflexivity.
Qed.

(** X5. When the availability source gives nothing for the three services
    (no answer, an empty body or an empty list), [process_call] of
    [vector_simulation.py] does not raise: it takes every mapping as empty,
    posts no order, and returns [True] exactly when no request asks for a
    positive quantity of a fetched service.  On the same answers
    [process_multi_service_emergency] of [fast_simulation.py] raises
    [RuntimeError]. *)
Theorem vector_call_without_availability (answers : awaitable -> api_data)
    (cl : call) :
  known_target ld cl <> None ->
  call_requests cl <> [] ->
  (forall service, In service ["medical"; "fire"; "police"] ->
     falsy (answers (HttpGet ("/" ++ service ++ "/search")%string)) = true) ->
  VectorSimulation.process_call ld answers cl
    = inr (forallb idle (call_requests cl),
           unstocked, []) /\
  FastSimulation.process_multi_service_emergency ld answers cl = inl RuntimeError.
Proof.
  intros Hknown Hreqs Hsilent.
  assert (Hfetch : VectorSimulation.fetch_available_resources answers
                   = inr unstocked).
  { unfold VectorSimulation.fetch_available_resources.
    change (lower "medical") with "medical".
    change (lower "fire") with "fire".
    change (lower "police") with "police".
    rewrite !vector_get_available_falsy by (apply Hsilent; simpl; auto).
    reflexivity. }
  unfold VectorSimulation.process_call,
    FastSimulation.process_multi_service_emergency.
  unfold known_target in *.
  destruct (call_city cl) as [t|]; [|congruence].
  destruct (String.eqb t ""); [congruence|].
  destruct (get ld t) as [tgt|]; [|congruence].
  destruct (call_requests cl) as [|req rest] eqn:Hl; [congruence|].
  rewrite Hfetch, vector_requests_on_empties. split; [reflexivity|].
  unfold FastSimulation.fetch_available_resources, FastSimulation.get_available.
  pose proof (parse_falsy _ (Hsilent "medical" (or_introl eq_refl))) as Hmed.
  simpl in Hmed. now rewrite Hmed.
Qed.

End VectorSilent.

Lemma vector_call_without_availability_witness :
  VectorSimulation.process_call towns failing
    {| call_city := Some "T";
       call_requests := [{| Type_ := "Rescue"; Quantity := 4 |};
                         {| Type_ := "Fire"; Quantity := 0 |}] |}
    = inr (true, unstocked, []) /\
  FastSimulation.process_multi_service_emergency towns failing
    {| call_city := Some "T";
       call_requests := [{| Type_ := "Rescue"; Quantity := 4 |};
                         {| Type_ := "Fire"; Quantity := 0 |}] |}
    = inl RuntimeError.
Proof.
  apply (@vector_call_without_availability Z _ towns failing
           {| call_city := Some "T";
              call_requests := [{| Type_ := "Rescue"; Quantity := 4 |};
                                {| Type_ := "Fire"; Quantity := 0 |}] |}).
  - discriminate.
  - discriminate.
  - intros service _. reflexivity.
Defined.

(** ** What the loaders build *)

Section DictShape.
Context {V : Type}.
Implicit Types (d : dict V) (k : string) (v : V).

Lemma get_None_keys d k : get d k = None -> ~ In k (keys d).
Proof.
  unfold keys. induction d as [|[k0 v0] d IH]; simpl; [tauto|].
  destruct (String.eqb k k0) eqn:E; [discriminate|].
  intros H [Heq|Hin]; [|now apply IH].
  subst k0. now rewrite String.eqb_refl in E.
Qed.

Lemma keys_set_absent d k v : get d k = None -> keys (set d k v) = keys d ++ [k].
Proof.
  unfold keys. induction d as [|[k0 v0] d IH]; simpl; [reflexivity|].
  destruct (String.eqb k k0) eqn:E; [discriminate|].
  intros H. simpl. now rewrite IH.
Qed.

Lemma wf_set d k v : wf d -> wf (set d k v).
Proof.
  unfold wf. intros Hwf. destruct (get d k) eqn:Hget.
  - rewrite keys_set_present; [exact Hwf | rewrite Hget; discriminate].
  - rewrite keys_set_absent by exact Hget.
    apply NoDup_app; [exact Hwf | repeat constructor; simpl; tauto |].
    intros x Hx [<- | []]. now apply (get_None_keys _ _ Hget).
Qed.

Lemma In_keys_get d k : In k (keys d) -> get d k <> None.
Proof.
  unfold keys. induction d as [|[k0 v0] d IH]; simpl; [tauto|].
  destruct (String.eqb k k0) eqn:E; [discriminate|].
  intros [Heq|Hin]; [|now apply IH].
  subst k0. now rewrite String.eqb_refl in E.
Qed.

End DictShape.

Lemma find_snoc {A : Type} (p : A -> bool) (l : list A) (a : A) :
  find p (l ++ [a]) =
  match find p l with
  | Some x => Some x
  | None => if p a then Some a else None
  end.
Proof.
  induction l as [|x l IH]; simpl; [reflexivity|].
  destruct (p x); auto.
Qed.

Lemma item_key_nonempty (it : item) : item_key it <> "".
Proof.
  unfold item_key, str_or.
  destruct (item_city it) as [s|]; [destruct (String.eqb s "") eqn:E|];
    try (destruct (item_name it) as [s'|]; [destruct (String.eqb s' "") eqn:E'|]);
    simpl; rewrite ?E, ?E'; try discriminate; now apply String.eqb_neq.
Qed.

Lemma collect_loop (l : list item) :
  forall acc : dict Z,
    let d := fold_left (fun available it => set available (item_key it) (item_count it))
               l acc in
    (wf acc -> wf d) /\
    (forall k, get d k =
       match find (fun it => String.eqb (item_key it) k) (rev l) with
       | Some it => Some (item_count it)
       | None => get acc k
       end) /\
    (forall k, In k (keys d) -> In k (keys acc) \/ exists it, In it l /\ item_key it = k).
Proof.
  induction l as [|a l IH]; intros acc; simpl.
  - split; [auto|]. split; auto.
  - destruct (IH (set acc (item_key a) (item_count a))) as (Hwf & Hget & Hkeys).
    split; [|split].
    + intros H. apply Hwf. now apply wf_set.
    + intros k. rewrite Hget, find_snoc.
      destruct (find _ (rev l)); [reflexivity|].
      destruct (String.eqb (item_key a) k) eqn:E.
      * apply String.eqb_eq in E. subst k. apply get_set_same.
      * apply get_set_other. intros ->. now rewrite String.eqb_refl in E.
    + intros k Hk. destruct (Hkeys k Hk) as [Hin|(it & Hit & Hkey)].
      * destruct (String.eqb_spec k (item_key a)) as [->|Hne].
        -- right. exists a. auto.
        -- left. apply In_keys_get in Hin.
           rewrite get_set_other in Hin by exact Hne.
           destruct (get acc k) eqn:Hg; [|congruence].
           eapply get_Some_keys; eauto.
      * right. exists it. auto.
Qed.

(** X6. The mapping every [get_available*] builds from an answer: no city
    appears twice, a city's count is the count of the last item that names
    it (an item with neither ["city"] nor ["name"] counts for the city
    ["unknown"]), a city no item names is absent, and no key is the empty
    string. *)
Theorem collect_available_last_wins (l : list item) :
  wf (collect_available l) /\
  (forall k, get (collect_available l) k =
     option_map item_count
       (find (fun it => String.eqb (item_key it) k) (rev l))) /\
  (forall k, In k (keys (collect_available l)) -> k <> "").
Proof.
  unfold collect_available.
  destruct (collect_loop l []) as (Hwf & Hget & Hkeys).
  split; [apply Hwf; constructor|]. split.
  - intros k. rewrite Hget. now destruct (find _ (rev l)).
  - intros k Hk. destruct (Hkeys k Hk) as [[]|(it & _ & <-)].
    apply item_key_nonempty.
Qed.

Section Directory.
Context {F : Type} {truth : PyFloatTruth F}.

(** The name under which a record is stored. *)
Lemma location_of_inr (r : location_record F) city l :
  location_of r = inr (city, l) ->
  str_or (rec_city r) (rec_name r) = Some city /\ city <> "" /\ loc_city l = city.
Proof.
  unfold location_of.
  destruct (str_or (rec_city r) (rec_name r)) as [c|]; [|discriminate].
  destruct (String.eqb c "") eqn:E; [discriminate|].
  destruct (float_or _ _); [|discriminate].
  destruct (float_or _ _); [|discriminate].
  intros [= <- <-]. simpl. split; [reflexivity|]. split; [|reflexivity].
  now apply String.eqb_neq.
Qed.

Lemma load_shape (data : list (location_record F)) :
  forall acc ld,
    load_locations data acc = inr ld ->
    (wf acc -> wf ld) /\
    (named acc -> named ld) /\
    (forall city, get ld city <> None <->
       get acc city <> None \/
       exists r, In r data /\ str_or (rec_city r) (rec_name r) = Some city).
Proof.
  induction data as [|r data IH]; intros acc ld; simpl.
  - intros [= <-]. split; [auto|]. split; [auto|].
    intros city. split; [auto|]. intros [H|(r & [] & _)]. exact H.
  - destruct (location_of r) as [e|[c l]] eqn:Hr; [discriminate|].
    intros Hload. apply location_of_inr in Hr. destruct Hr as (Hname & Hne & Hl).
    destruct (IH _ _ Hload) as (Hwf & Hnamed & Hkeys).
    split; [|split].
    + intros H. apply Hwf. now apply wf_set.
    + intros H. apply Hnamed. intros city l'.
      destruct (String.eqb_spec city c) as [->|Hcity].
      * rewrite get_set_same. intros [= <-]. auto.
      * rewrite get_set_other by exact Hcity. apply H.
    + intros city. rewrite Hkeys. split.
      * intros [H|(r' & Hin & Hr')].
        -- destruct (String.eqb_spec city c) as [->|Hcity].
           ++ right. exists r. auto.
           ++ rewrite get_set_other in H by exact Hcity. auto.
        -- right. exists r'. auto.
      * intros [H|(r' & [<-|Hin] & Hr')].
        -- left. destruct (String.eqb_spec city c) as [->|Hcity].
           ++ rewrite get_set_same. discriminate.
           ++ now rewrite get_set_other by exact Hcity.
        -- left. rewrite Hname in Hr'. injection Hr' as <-.
           rewrite get_set_same. discriminate.
        -- right. exists r'. auto.
Qed.

Lemma directory_shape (data : option (list (location_record F))) ld :
  get_location_details data = inr ld ->
  exists records,
    data = Some records /\ records <> [] /\ load_locations records [] = inr ld.
Proof.
  unfold get_location_details. destruct data as [[|r records]|]; try discriminate.
  intros H. exists (r :: records). split; [reflexivity|]. split; [discriminate|exact H].
Qed.

Lemma directory_named (data : option (list (location_record F))) ld :
  get_location_details data = inr ld -> named ld.
Proof.
  intros H. destruct (directory_shape _ H) as (records & _ & _ & Hload).
  apply (load_shape _ _ Hload). intros city l. discriminate.
Qed.

(** X7. The index [get_location_details] returns, when it returns one:
    the answer was a non-empty list, the cities of the index are exactly
    the names of its records (["city"], or ["name"] when ["city"] is
    missing or empty), none of them empty and none twice, and every entry
    carries under ["city"] the name it is stored under. *)
Theorem location_index_shape (data : option (list (location_record F)))
    (ld : location_details F) :
  get_location_details data = inr ld ->
  exists records,
    data = Some records /\ records <> [] /\
    wf ld /\
    (forall city l, get ld city = Some l -> loc_city l = city /\ city <> "") /\
    (forall city, get ld city <> None <->
       exists r, In r records /\ str_or (rec_city r) (rec_name r) = Some city).
Proof.
  intros H. destruct (directory_shape _ H) as (records & -> & Hne & Hload).
  exists records. destruct (load_shape _ _ Hload) as (Hwf & Hnamed & Hkeys).
  split; [reflexivity|]. split; [exact Hne|]. split; [apply Hwf; constructor|].
  split; [apply Hnamed; intros city l; discriminate|].
  intros city. rewrite Hkeys. split; [|auto].
  intros [Habs|Hex]; [|exact Hex]. now contradiction Habs.
Qed.

Lemma load_fails (data : list (location_record F)) (r : location_record F) e :
  In r data -> location_of r = inl e ->
  forall acc, exists e', load_locations data acc = inl e'.
Proof.
  induction data as [|r0 data IH]; simpl; [tauto|].
  intros [->|Hin] Hr acc.
  - rewrite Hr. eauto.
  - destruct (location_of r0) as [e0|[c l]]; eauto.
Qed.

(** X8. A place on the equator or on the prime meridian cannot be loaded
    under the long key: [loc.get("latitude") or loc.get("lat")] drops a
    latitude of [0.0], so a record that gives it only as ["latitude"]
    (or a longitude of [0.0] only as ["longitude"]) is taken as having no
    coordinate and makes the whole load raise. *)
Theorem zero_coordinate_rejected (records : list (location_record F))
    (r : location_record F) (x : F) :
  In r records ->
  fis_zero x = true ->
  (rec_latitude r = Some x /\ rec_lat r = None) \/
  (rec_longitude r = Some x /\ rec_long r = None) ->
  exists e, get_location_details (Some records) = inl e.
Proof.
  intros Hin Hzero Hcoord.
  assert (Hr : exists e, location_of r = inl e).
  { unfold location_of.
    destruct (str_or (rec_city r) (rec_name r)) as [c|]; [|eauto].
    destruct (String.eqb c ""); [eauto|].
    destruct Hcoord as [(Hla & Hlat)|(Hlo & Hlong)].
    - unfold float_or at 1. rewrite Hla, Hzero, Hlat. eauto.
    - destruct (float_or (rec_latitude r) (rec_lat r)); [|eauto].
      unfold float_or. rewrite Hlo, Hzero, Hlong. eauto. }
  destruct Hr as (e & Hr).
  destruct (load_fails _ _ Hin Hr []) as (e' & He').
  unfold get_location_details. destruct records as [|r0 records]; [destruct Hin|].
  eauto.
Qed.

(** X9. Loaded index and dispatch together: with the index that
    [get_location_details] returned, an order [dispatch_*] of
    [fast_simulation.py] posts goes to the endpoint it was given and names
    as source and target the cities it was called with, for the count it
    was called with. *)
Theorem orders_name_their_cities {ops : PyFloat F}
    (data : option (list (location_record F))) (ld : location_details F)
    (endpoint source_city target_city : string) (n : Z)
    (o : FastSimulation.order) :
  get_location_details data = inr ld ->
  In o (FastSimulation.dispatch_order ld endpoint source_city target_city n) ->
  fst o = endpoint /\ sourceCity (snd o) = source_city /\
  targetCity (snd o) = target_city /\ quantity (snd o) = n.
Proof.
  intros Hload. pose proof (directory_named _ Hload) as Hnamed.
  unfold FastSimulation.dispatch_order.
  destruct (get ld source_city) as [src|] eqn:Hsrc; [|intros []].
  destruct (get ld target_city) as [tgt|] eqn:Htgt; [|intros []].
  intros [<-|[]]. simpl.
  destruct (Hnamed _ _ Hsrc) as (-> & _), (Hnamed _ _ Htgt) as (-> & _). auto.
Qed.

End Directory.

Lemma location_index_shape_witness :
  exists records,
    Some answered = Some records /\ records <> [] /\
    wf loaded /\
    (forall city l, get loaded city = Some l -> loc_city l = city /\ city <> "") /\
    (forall city, get loaded city <> None <->
       exists r, In r records /\ str_or (rec_city r) (rec_name r) = Some city).
Proof.
  apply (@location_index_shape Z grid_truth (Some answered) loaded).
  reflexivity.
Defined.

Lemma zero_coordinate_rejected_witness :
  exists e, get_location_details (Some (answered ++ [equatorial])) = inl e.
Proof.
  apply (@zero_coordinate_rejected Z grid_truth (answered ++ [equatorial])
           equatorial 0).
  - simpl. auto.
  - reflexivity.
  - left. split; reflexivity.
Defined.

Lemma orders_name_their_cities_witness :
  fst ("/fire/dispatch",
       {| sourceCounty := "unknown"; sourceCity := "A";
          targetCounty := "unknown"; targetCity := "B"; quantity := 2 |})
    = "/fire/dispatch" /\
  sourceCity {| sourceCounty := "unknown"; sourceCity := "A";
                targetCounty := "unknown"; targetCity := "B"; quantity := 2 |} = "A" /\
  targetCity {| sourceCounty := "unknown"; sourceCity := "A";
                targetCounty := "unknown"; targetCity := "B"; quantity := 2 |} = "B" /\
  quantity {| sourceCounty := "unknown"; sourceCity := "A";
              targetCounty := "unknown"; targetCity := "B"; quantity := 2 |} = 2.
Proof.
  apply (@orders_name_their_cities Z grid_truth grid (Some answered) loaded
           "/fire/dispatch" "A" "B" 2
           ("/fire/dispatch",
            {| sourceCounty := "unknown"; sourceCity := "A";
               targetCounty := "unknown"; targetCity := "B"; quantity := 2 |})).
  - reflexivity.
  - left. reflexivity.
Defined.

(** ** [aioHttp3.py]: the orders of a call against what it asked for *)

Lemma posted_app t1 t2 : posted (t1 ++ t2) = posted t1 ++ posted t2.
Proof.
  induction t1 as [|[b a|[ep|ep body|s] d] t1 IH]; simpl; auto.
  now rewrite IH.
Qed.

Lemma yields_Ret {A : Type} (a : A) (Q : A -> list (string * payload) -> Prop) :
  Q a [] -> yields (Ret a) Q.
Proof. intros H w n c. exists a. auto. Qed.

Lemma yields_Locked {A X : Type} (body : cache -> X * cache) (k : X -> prog A)
    (Q : A -> list (string * payload) -> Prop) :
  (forall c, yields (k (fst (body c))) Q) -> yields (Locked body k) Q.
Proof.
  intros H w n c. simpl. specialize (H c w n (snd (body c))).
  destruct (body c) as [x c']. simpl in H.
  destruct (run w n (k x) c') as [[r c''] t]. exact H.
Qed.

Lemma yields_Await {A : Type} (r : awaitable) (k : api_data -> prog A)
    (Q : A -> list (string * payload) -> Prop) :
  (forall d, yields (k d) (fun a l => Q a (posted [EvAwait r d] ++ l))) ->
  yields (Await r k) Q.
Proof.
  intros H w n c. simpl.
  specialize (H (respond w n r) w (S n) (interfere w n c)).
  destruct (run w (S n) (k (respond w n r)) (interfere w n c)) as [[res c'] t].
  destruct H as (a & Ha & HQ). exists a. split; [exact Ha|].
  unfold trace in *. simpl in *. destruct r; exact HQ.
Qed.

Lemma yields_bind {A B : Type} (p : prog A) (f : A -> prog B)
    (P : A -> list (string * payload) -> Prop)
    (Q : B -> list (string * payload) -> Prop) :
  yields p P ->
  (forall a l1, P a l1 -> yields (f a) (fun b l2 => Q b (l1 ++ l2))) ->
  yields (bind p f) Q.
Proof.
  intros Hp Hf w n c. rewrite run_bind.
  destruct (Hp w n c) as (a & Ha & HP).
  destruct (run w n p c) as [[r c'] t]. unfold returned, trace in *. simpl in *.
  subst r. simpl.
  destruct (Hf a _ HP w (n + awaits t)%nat c') as (b & Hb & HQ).
  destruct (run w (n + awaits t) (f a) c') as [[r2 c2] t2]. simpl in *.
  exists b. split; [exact Hb|]. now rewrite posted_app.
Qed.

Lemma yields_weaken {A : Type} (p : prog A)
    (P Q : A -> list (string * payload) -> Prop) :
  yields p P -> (forall a l, P a l -> Q a l) -> yields p Q.
Proof.
  intros Hp HPQ w n c. destruct (Hp w n c) as (a & Ha & HP). eauto.
Qed.

Section AioHttp3Orders.
Context {F : Type} {ops : PyFloat F}.
Variable ld : location_details F.

Lemma dispatch_yields endpoint source_city target_city count :
  get ld source_city <> None ->
  get ld target_city <> None ->
  yields (AioHttp3.dispatch ld endpoint source_city target_city count)
         (fun _ log => ordered log = count).
Proof.
  intros Hs Ht. unfold AioHttp3.dispatch.
  destruct (get ld source_city) as [src|]; [|congruence].
  destruct (get ld target_city) as [tgt|]; [|congruence].
  apply yields_Await. intros d. apply yields_Ret.
  unfold ordered, sumZ. simpl. lia.
Qed.

Lemma take_and_dispatch_yields service_type target_city city remaining :
  get ld city <> None ->
  get ld target_city <> None ->
  0 < remaining ->
  yields (AioHttp3.take_and_dispatch ld service_type target_city city remaining)
         (fun remaining' log =>
            0 <= remaining' <= remaining /\ ordered log = remaining - remaining').
Proof.
  intros Hs Ht Hpos. unfold AioHttp3.take_and_dispatch.
  apply yields_Locked. intros c.
  pose proof (try_take_bounds service_type city c Hpos) as Hb.
  assert (Hnone : yields (Ret remaining)
            (fun remaining' log =>
               0 <= remaining' <= remaining /\
               ordered log = remaining - remaining')).
  { apply yields_Ret. unfold ordered, sumZ. simpl. lia. }
  destruct (fst _ >? 0); [|exact Hnone].
  destruct (get AioHttp3.dispatch_endpoints service_type); [|exact Hnone].
  eapply yields_bind; [now apply dispatch_yields|].
  intros x l1 Hl1. cbv beta in Hl1. apply yields_Ret. rewrite app_nil_r. lia.
Qed.

Lemma take_loop_yields service_type target_city candidates :
  get ld target_city <> None ->
  Forall (fun cand => get ld (fst cand) <> None) candidates ->
  forall remaining, 0 <= remaining ->
  yields (AioHttp3.take_loop ld service_type target_city candidates remaining)
         (fun remaining' log =>
            0 <= remaining' <= remaining /\ ordered log = remaining - remaining').
Proof.
  intros Ht Hall. induction Hall as [|[city d] rest Hcity Hrest IH];
    intros remaining Hpos; cbn [AioHttp3.take_loop].
  - apply yields_Ret. unfold ordered, sumZ. simpl. lia.
  - destruct (remaining <=? 0) eqn:E;
      [apply yields_Ret; unfold ordered, sumZ; simpl; lia|].
    apply Z.leb_gt in E.
    eapply yields_bind; [now apply take_and_dispatch_yields|].
    intros remaining' l1 (Hr & Hl1). cbv beta in *.
    eapply yields_weaken; [apply (IH remaining'); lia|].
    intros r2 l2 (Hr2 & Hl2). rewrite ordered_app. lia.
Qed.

Lemma snapshot_known target_coord available :
  Forall (fun cand : string * F => get ld (fst cand) <> None)
         (sort_by snd (flat_map (AioHttp3.pair_of ld target_coord) available)).
Proof.
  apply Forall_forall. intros cand Hin. apply sort_by_In in Hin.
  apply in_flat_map in Hin. destruct Hin as ([city n] & _ & Hin).
  unfold AioHttp3.pair_of in Hin.
  destruct ((n >? 0) && mem ld city); [|destruct Hin].
  destruct (get ld city) eqn:Hg; [|destruct Hin].
  destruct Hin as [<-|[]]. simpl. rewrite Hg. discriminate.
Qed.

Lemma allocate_request_yields target_city target_coord req :
  get ld target_city <> None ->
  yields (AioHttp3.allocate_request ld target_city target_coord req)
         (fun o log =>
            match o with
            | Allocated remaining =>
                0 <= remaining <= Quantity req /\
                ordered log = Quantity req - remaining
            | Skipped => log = []
            end).
Proof.
  intros Ht. unfold AioHttp3.allocate_request.
  destruct (Quantity req <=? 0) eqn:E; [now apply yields_Ret|].
  apply Z.leb_gt in E.
  apply yields_Locked. intros c. unfold AioHttp3.snapshot_candidates.
  destruct (get c (Type_ req)) as [available|]; simpl; [|now apply yields_Ret].
  eapply yields_bind.
  - apply take_loop_yields; [exact Ht | apply snapshot_known | lia].
  - intros remaining l1 (Hr & Hl1). apply yields_Ret.
    rewrite app_nil_r. auto.
Qed.

(** X10. In [aioHttp3.py] the remainder of a request tells what was
    ordered, whatever the other coroutines do and whatever the gateway
    answers: a request that reaches the allocation never raises, ends with
    a remainder between 0 and its quantity, and the orders posted for it
    add up to the quantity less that remainder; a request that is passed
    over posts nothing. *)
Theorem aio3_orders_match_remainder (target_city : string) (target_coord : F * F)
    (req : request) (w : world) (n : nat) (c : cache) :
  get ld target_city <> None ->
  let r := run w n (AioHttp3.allocate_request ld target_city target_coord req) c in
  exists o,
    returned r = inr o /\
    match o with
    | Allocated remaining =>
        0 <= remaining <= Quantity req /\
        ordered (posted (trace r)) = Quantity req - remaining
    | Skipped => posted (trace r) = []
    end.
Proof.
  intros Ht. exact (@allocate_request_yields target_city target_coord req Ht w n c).
Qed.

Lemma requests_loop_yields target_city target_coord requests_list :
  get ld target_city <> None ->
  forall all_success,
    yields (AioHttp3.requests_loop ld target_city target_coord requests_list
              all_success)
           (fun _ log => 0 <= ordered log <= asked requests_list).
Proof.
  intros Ht. induction requests_list as [|req rest IH]; intros all_success;
    cbn [AioHttp3.requests_loop].
  - apply yields_Ret. unfold asked, ordered, sumZ. simpl. lia.
  - eapply yields_bind; [now apply allocate_request_yields|].
    intros o l1 Ho. cbv beta in Ho.
    eapply yields_weaken; [apply IH|].
    intros b l2 Hl2. cbv beta in Hl2. rewrite ordered_app.
    unfold asked in *. cbn [map sumZ fold_right].
    fold (sumZ (map (fun req => Z.max 0 (Quantity req)) rest)).
    destruct o as [|remaining].
    + rewrite Ho. change (ordered []) with 0. lia.
    + lia.
Qed.

(** X11. A call of [aioHttp3.py] never raises and never orders more than
    it asks for: in every world, the quantities of the orders it posts add
    up to at most the sum of the positive quantities of its requests. *)
Theorem aio3_call_orders_within_asked (cl : call) (w : world) (n : nat) (c : cache) :
  let r := run w n (AioHttp3.process_multi_service_emergency_shared ld cl) c in
  (exists b, returned r = inr b) /\
  0 <= ordered (posted (trace r)) <= asked (call_requests cl).
Proof.
  assert (H : yields (AioHttp3.process_multi_service_emergency_shared ld cl)
                (fun _ log => 0 <= ordered log <= asked (call_requests cl))).
  { unfold AioHttp3.process_multi_service_emergency_shared.
    assert (Hasked : 0 <= asked (call_requests cl)).
    { unfold asked, sumZ. induction (call_requests cl); simpl; lia. }
    destruct (known_target ld cl) as [[t tgt]|] eqn:Hk;
      [|apply yields_Ret; unfold ordered, sumZ; simpl; lia].
    destruct (call_requests cl) as [|req rest] eqn:Hl;
      [apply yields_Ret; unfold ordered, sumZ; simpl; lia|].
    apply requests_loop_yields.
    unfold known_target in Hk. destruct (call_city cl); [|discriminate].
    destruct (String.eqb s ""); [discriminate|].
    destruct (get ld s) eqn:Hg; [|discriminate].
    injection Hk as <- <-. rewrite Hg. discriminate. }
  intros r. subst r. destruct (H w n c) as (b & Hb & Hlog). eauto.
Qed.

End AioHttp3Orders.

Lemma aio3_orders_match_remainder_witness :
  exists o,
    returned (run (alone failing) 0
                (AioHttp3.allocate_request towns "T" (0, 0)
                   {| Type_ := "Medical"; Quantity := 7 |}) stocked) = inr o /\
    match o with
    | Allocated remaining =>
        0 <= remaining <= 7 /\
        ordered (posted (trace (run (alone failing) 0
                  (AioHttp3.allocate_request towns "T" (0, 0)
                     {| Type_ := "Medical"; Quantity := 7 |}) stocked)))
          = 7 - remaining
    | Skipped =>
        posted (trace (run (alone failing) 0
                  (AioHttp3.allocate_request towns "T" (0, 0)
                     {| Type_ := "Medical"; Quantity := 7 |}) stocked)) = []
    end.
Proof.
  apply (@aio3_orders_match_remainder Z _ towns "T" (0, 0)
           {| Type_ := "Medical"; Quantity := 7 |} (alone failing) 0%nat stocked).
  discriminate.
Defined.

(** ** [aioHttp.py] with the event loop to itself *)

Section AioHttpAlone.
Context {F : Type} {ops : PyFloat F}.
Variable ld : location_details F.
Variable answers : awaitable -> api_data.

Lemma aio_step_alone n service_type target_city endpoint city avail_count remaining
    (c : cache) (available : dict Z) v :
  get c service_type = Some available ->
  get available city = Some v ->
  exists tr,
    run (alone answers) n
      (AioHttp.dispatch_and_subtract ld service_type target_city endpoint city
         avail_count remaining) c
    = (inr (remaining - Z.min avail_count remaining),
       set c service_type (set available city (v - Z.min avail_count remaining)),
       tr) /\
    posted tr = FastSimulation.dispatch_order ld endpoint city target_city
                  (Z.min avail_count remaining).
Proof.
  intros Hc Hv.
  unfold AioHttp.dispatch_and_subtract, AioHttp.dispatch,
    FastSimulation.dispatch_order.
  destruct (get ld city) as [src|]; [destruct (get ld target_city) as [tgt|]|];
    cbn; unfold AioHttp.decrement; rewrite Hc, Hv; cbn;
    eexists; split; reflexivity.
Qed.

Lemma aio_step_alone_keyerror n service_type target_city endpoint city avail_count
    remaining (c : cache) (available : dict Z) :
  get c service_type = Some available ->
  get available city = None ->
  returned (run (alone answers) n
              (AioHttp.dispatch_and_subtract ld service_type target_city endpoint
                 city avail_count remaining) c) = inl KeyError.
Proof.
  intros Hc Hv.
  unfold AioHttp.dispatch_and_subtract, AioHttp.dispatch.
  destruct (get ld city) as [src|]; [destruct (get ld target_city) as [tgt|]|];
    cbn; unfold AioHttp.decrement; rewrite Hc, Hv; reflexivity.
Qed.

Lemma aio_loop_alone service_type target_city (l : list (candidate F)) :
  forall remaining (c : cache) (available : dict Z) log0 n,
    get c service_type = Some available ->
    match FastSimulation.dispatch_loop ld service_type target_city l remaining
            available log0 with
    | inr (remaining', available', log') =>
        exists tr,
          run (alone answers) n
            (AioHttp.dispatch_loop ld service_type target_city l remaining) c
          = (inr remaining', set c service_type available', tr) /\
          log' = log0 ++ posted tr
    | inl e =>
        returned (run (alone answers) n
                    (AioHttp.dispatch_loop ld service_type target_city l remaining) c)
        = inl e
    end.
Proof.
  induction l as [|[[city d] avail_count] l IH];
    intros remaining c available log0 n Hc;
    cbn [FastSimulation.dispatch_loop AioHttp.dispatch_loop].
  - exists []. rewrite (set_same_value _ _ Hc), app_nil_r. auto.
  - destruct (remaining <=? 0).
    { exists []. rewrite (set_same_value _ _ Hc), app_nil_r. auto. }
    change (AioHttp.dispatch_endpoint service_type)
      with (FastSimulation.dispatcher service_type).
    destruct (FastSimulation.dispatcher service_type) as [endpoint|];
      [|now apply IH].
    rewrite run_bind.
    destruct (get available city) as [v|] eqn:Hv.
    + destruct (@aio_step_alone n service_type target_city endpoint city avail_count
                  remaining c available v Hc Hv)
        as (tr1 & Hrun1 & Hposted1).
      rewrite Hrun1. unfold and_then.
      set (c1 := set c service_type
                   (set available city (v - Z.min avail_count remaining))).
      assert (Hc1 : get c1 service_type
                    = Some (set available city (v - Z.min avail_count remaining)))
        by apply get_set_same.
      specialize (IH (remaining - Z.min avail_count remaining) c1 _
                    (log0 ++ FastSimulation.dispatch_order ld endpoint city
                               target_city (Z.min avail_count remaining))
                    (n + awaits tr1)%nat Hc1).
      destruct (FastSimulation.dispatch_loop ld service_type target_city l _ _ _)
        as [e|[[r' av'] log']].
      * destruct (run (alone answers) (n + awaits tr1) _ c1) as [[r2 c2] t2].
        exact IH.
      * destruct IH as (tr2 & Hrun2 & Hlog). rewrite Hrun2.
        exists (tr1 ++ tr2). subst c1. rewrite set_set. split; [reflexivity|].
        now rewrite posted_app, Hposted1, app_assoc.
    + pose proof (@aio_step_alone_keyerror n service_type target_city endpoint city
                    avail_count remaining c available Hc Hv) as Herr.
      destruct (run (alone answers) n _ c) as [[r1 c1] t1].
      unfold returned in Herr. simpl in Herr. subst r1. reflexivity.
Qed.

Lemma aio_request_alone target_city tgt req all_success (c : cache) log0 n :
  get ld target_city = Some tgt ->
  match FastSimulation.process_request ld target_city req (all_success, c, log0) with
  | inr (all_success', c', log') =>
      exists o tr,
        run (alone answers) n
          (AioHttp.allocate_request ld target_city (coord_of tgt) req) c
        = (inr o, c', tr) /\
        note_outcome all_success o = all_success' /\
        log' = log0 ++ posted tr
  | inl e =>
      returned (run (alone answers) n
                  (AioHttp.allocate_request ld target_city (coord_of tgt) req) c)
      = inl e
  end.
Proof.
  intros Htgt.
  unfold FastSimulation.process_request, AioHttp.allocate_request,
    FastSimulation.allocate.
  destruct (Quantity req <=? 0).
  { exists Skipped, []. rewrite app_nil_r. auto. }
  rewrite Htgt. cbn [run]. unfold AioHttp.snapshot_candidates.
  destruct (get c (Type_ req)) as [available|] eqn:Hc.
  - rewrite run_bind.
    pose proof (@aio_loop_alone (Type_ req) target_city
                  (rank_candidates ld (coord_of tgt) available)
                  (Quantity req) c available log0 n Hc) as Hloop.
    destruct (FastSimulation.dispatch_loop ld (Type_ req) target_city _ _ _ _)
      as [e|[[r' av'] log']].
    + destruct (run (alone answers) n _ c) as [[r1 c1] t1].
      unfold returned in *. simpl in *. subst r1. reflexivity.
    + destruct Hloop as (tr & Hrun & Hlog). rewrite Hrun. cbn.
      exists (Allocated r'), (EvLocked c c :: tr ++ []).
      rewrite app_nil_r. auto.
  - cbn. exists Skipped, [EvLocked c c]. rewrite app_nil_r. auto.
Qed.

Lemma aio_requests_alone target_city tgt requests_list :
  get ld target_city = Some tgt ->
  forall all_success (c : cache) log0 n,
    match FastSimulation.requests_loop ld target_city requests_list
            (all_success, c, log0) with
    | inr (all_success', c', log') =>
        exists tr,
          run (alone answers) n
            (AioHttp.requests_loop ld target_city (coord_of tgt) requests_list
               all_success) c
          = (inr all_success', c', tr) /\
          log' = log0 ++ posted tr
    | inl e =>
        returned (run (alone answers) n
                    (AioHttp.requests_loop ld target_city (coord_of tgt)
                       requests_list all_success) c)
        = inl e
    end.
Proof.
  intros Htgt. induction requests_list as [|req rest IH];
    intros all_success c log0 n;
    cbn [FastSimulation.requests_loop AioHttp.requests_loop].
  - exists []. rewrite app_nil_r. auto.
  - rewrite run_bind.
    pose proof (@aio_request_alone target_city tgt req all_success c log0 n Htgt)
      as Hreq.
    destruct (FastSimulation.process_request ld target_city req _)
      as [e|[[b1 c1] log1]].
    + destruct (run (alone answers) n _ c) as [[r1 c1] t1].
      unfold returned in *. simpl in *. subst r1. reflexivity.
    + destruct Hreq as (o & tr1 & Hrun1 & Hflag & Hlog1).
      rewrite Hrun1. unfold and_then. rewrite Hflag.
      specialize (IH b1 c1 log1 (n + awaits tr1)%nat).
      destruct (FastSimulation.requests_loop ld target_city rest _)
        as [e|[[b2 c2] log2]].
      * destruct (run (alone answers) (n + awaits tr1) _ c1) as [[r2 c2] t2].
        exact IH.
      * destruct IH as (tr2 & Hrun2 & Hlog2). rewrite Hrun2.
        exists (tr1 ++ tr2). split; [reflexivity|].
        rewrite Hlog2, Hlog1, posted_app. apply eq_sym, app_assoc.
Qed.

(** X12. With nothing else on the event loop, a call of [aioHttp.py] is a
    call of [fast_simulation.py] run on the cache: started from the same
    mappings, the loop over the requests returns the same value, leaves
    the same counts and posts the same orders in the same order, and
    raises the same error if it raises. *)
Theorem aio_alone_is_fast (cl : call) (target_city : string) (tgt : location F)
    (n : nat) (c : cache) :
  known_target ld cl = Some (target_city, tgt) ->
  call_requests cl <> [] ->
  let r := run (alone answers) n
             (AioHttp.process_multi_service_emergency_shared ld cl) c in
  match FastSimulation.requests_loop ld target_city (call_requests cl)
          (true, c, []) with
  | inr (all_success, c', log) =>
      returned r = inr all_success /\ final_cache r = c' /\ posted (trace r) = log
  | inl e => returned r = inl e
  end.
Proof.
  intros Hknown Hreqs. unfold AioHttp.process_multi_service_emergency_shared.
  rewrite Hknown.
  assert (Htgt : get ld target_city = Some tgt).
  { unfold known_target in Hknown. destruct (call_city cl); [|discriminate].
    destruct (String.eqb s ""); [discriminate|].
    destruct (get ld s) eqn:Hg; [|discriminate].
    now injection Hknown as <- <-. }
  destruct (call_requests cl) as [|req rest]; [congruence|].
  pose proof (@aio_requests_alone target_city tgt (req :: rest) Htgt true c [] n)
    as H.
  destruct (FastSimulation.requests_loop ld target_city (req :: rest) _)
    as [e|[[b c'] log]]; [exact H|].
  destruct H as (tr & Hrun & Hlog). cbv zeta. rewrite Hrun.
  unfold returned, final_cache, trace. simpl. auto.
Qed.

End AioHttpAlone.

Lemma aio_alone_is_fast_witness :
  returned (run (alone accepting) 0
              (AioHttp.process_multi_service_emergency_shared towns (medical 7))
              five_at_A) = inr false /\
  final_cache (run (alone accepting) 0
                 (AioHttp.process_multi_service_emergency_shared towns (medical 7))
                 five_at_A)
    = [("Medical", [("A", 0)]); ("Fire", []); ("Police", [])] /\
  posted (trace (run (alone accepting) 0
                   (AioHttp.process_multi_service_emergency_shared towns (medical 7))
                   five_at_A))
    = [("/medical/dispatch", make_payload (place "A" 1 0) (place "T" 0 0) 5)].
Proof.
  apply (@aio_alone_is_fast Z _ towns accepting (medical 7) "T" (place "T" 0 0)
           0%nat five_at_A).
  - reflexivity.
  - discriminate.
Defined.

(** ** [aioHttp3.py] with the event loop to itself *)

Lemma fetched_endpoints (service : string) :
  fetched service = true ->
  exists endpoint,
    FastSimulation.dispatcher service = Some endpoint /\
    get AioHttp3.dispatch_endpoints service = Some endpoint.
Proof.
  unfold fetched, fetched_services, FastSimulation.dispatcher,
    AioHttp3.dispatch_endpoints. simpl.
  destruct (String.eqb service "Medical"); [eauto|].
  destruct (String.eqb service "Fire"); [eauto|].
  destruct (String.eqb service "Police"); [eauto|].
  discriminate.
Qed.

Section AioHttp3Alone.
Context {F : Type} {ops : PyFloat F}.
Variable ld : location_details F.
Variable answers : awaitable -> api_data.

Lemma insert_by_fst (x : candidate F) (l : list (candidate F)) :
  insert_by snd (fst x) (map fst l) = map fst (insert_by cand_dist x l).
Proof.
  induction l as [|y l IH]; simpl; [reflexivity|].
  unfold cand_dist at 1 2.
  destruct (flt (snd (fst y)) (snd (fst x))); simpl; [now rewrite IH|reflexivity].
Qed.

Lemma sort_by_fst (l : list (candidate F)) :
  sort_by snd (map fst l) = map fst (sort_by cand_dist l).
Proof.
  induction l as [|x l IH]; simpl; [reflexivity|].
  rewrite IH. apply insert_by_fst.
Qed.

Lemma snapshot_is_ranking target_coord (available : dict Z) :
  sort_by snd (flat_map (AioHttp3.pair_of ld target_coord) available)
  = map fst (rank_candidates ld target_coord available).
Proof.
  unfold rank_candidates, sort_candidates.
  rewrite candidates_append_comprehension, <- sort_by_fst. f_equal.
  unfold candidates_comprehension.
  induction available as [|[city n] rest IH]; simpl; [reflexivity|].
  rewrite map_app, IH. f_equal.
  destruct ((n >? 0) && mem ld city); [|reflexivity].
  destruct (get ld city); reflexivity.
Qed.

Lemma aio3_step_alone n service_type target_city endpoint city remaining
    (c : cache) (available : dict Z) count :
  get c service_type = Some available ->
  get available city = Some count ->
  count > 0 ->
  0 < remaining ->
  get AioHttp3.dispatch_endpoints service_type = Some endpoint ->
  exists tr,
    run (alone answers) n
      (AioHttp3.take_and_dispatch ld service_type target_city city remaining) c
    = (inr (remaining - Z.min count remaining),
       set c service_type (set available city (count - Z.min count remaining)),
       tr) /\
    posted tr = FastSimulation.dispatch_order ld endpoint city target_city
                  (Z.min count remaining).
Proof.
  intros Hc Hv Hcount Hrem Hep.
  unfold AioHttp3.take_and_dispatch. cbn [run].
  unfold AioHttp3.try_take, get_default. rewrite Hc, Hv.
  assert (E1 : (count >? 0) = true) by (apply Z.gtb_lt; lia).
  rewrite E1. unfold AioHttp3.store. rewrite Hc.
  assert (E2 : (Z.min count remaining >? 0) = true) by (apply Z.gtb_lt; lia).
  rewrite E2, Hep.
  unfold AioHttp3.dispatch, FastSimulation.dispatch_order.
  destruct (get ld city) as [src|]; [destruct (get ld target_city) as [tgt|]|];
    cbn [bind run alone respond interfere];
    eexists; split; reflexivity.
Qed.

Lemma aio3_loop_alone service_type target_city endpoint (l : list (candidate F)) :
  FastSimulation.dispatcher service_type = Some endpoint ->
  get AioHttp3.dispatch_endpoints service_type = Some endpoint ->
  forall remaining (c : cache) (available : dict Z) log0 n,
    get c service_type = Some available ->
    NoDup (map cand_city l) ->
    (forall x, In x l ->
       get available (cand_city x) = Some (cand_count x) /\ cand_count x > 0) ->
    exists remaining' available' tr,
      FastSimulation.dispatch_loop ld service_type target_city l remaining
        available log0 = inr (remaining', available', log0 ++ posted tr) /\
      run (alone answers) n
        (AioHttp3.take_loop ld service_type target_city (map fst l) remaining) c
      = (inr remaining', set c service_type available', tr).
Proof.
  intros Hd Hep.
  induction l as [|[[city d] count] l IH];
    intros remaining c available log0 n Hc Hnd Hinv;
    cbn [FastSimulation.dispatch_loop AioHttp3.take_loop map fst].
  - exists remaining, available, []. rewrite (set_same_value _ _ Hc), app_nil_r. auto.
  - destruct (remaining <=? 0) eqn:E.
    { exists remaining, available, [].
      rewrite (set_same_value _ _ Hc), app_nil_r. auto. }
    apply Z.leb_gt in E. rewrite Hd, run_bind.
    destruct (Hinv (city, d, count) (or_introl eq_refl)) as (Hv & Hcount).
    unfold cand_city, cand_count in Hv, Hcount. simpl in Hv, Hcount.
    rewrite Hv.
    destruct (@aio3_step_alone n service_type target_city endpoint city remaining
                c available count Hc Hv Hcount E Hep) as (tr1 & Hrun1 & Hposted1).
    rewrite Hrun1. unfold and_then.
    set (c1 := set c service_type (set available city (count - Z.min count remaining))).
    assert (Hc1 : get c1 service_type
                  = Some (set available city (count - Z.min count remaining)))
      by apply get_set_same.
    inversion Hnd as [|? ? Hnotin Hnd']; subst.
    destruct (IH (remaining - Z.min count remaining) c1 _
                (log0 ++ FastSimulation.dispatch_order ld endpoint city target_city
                           (Z.min count remaining))
                (n + awaits tr1)%nat Hc1 Hnd')
      as (r' & av' & tr2 & Hfast & Hrun2).
    { intros x Hx. destruct (Hinv x (or_intror Hx)) as (Hgx & Hpx).
      split; [|exact Hpx]. rewrite get_set_other; [exact Hgx|].
      intros Heq. apply Hnotin. unfold cand_city at 1. simpl.
      rewrite <- Heq. now apply in_map. }
    exists r', av', (tr1 ++ tr2). rewrite Hfast, Hrun2.
    subst c1. rewrite set_set, posted_app, Hposted1, app_assoc. auto.
Qed.

(** X13. With nothing else on the event loop, a request of [aioHttp3.py]
    for a service that [fast_simulation.py] knows is a request of
    [fast_simulation.py] run on the cache: taking each candidate's live
    count under the lock gives the remainder, the counts and the orders
    that allocating from the ranked snapshot gives. *)
Theorem aio3_alone_is_fast (target_city : string) (tgt : location F)
    (req : request) (n : nat) (c : cache) (available : dict Z) :
  get ld target_city = Some tgt ->
  0 < Quantity req ->
  fetched (Type_ req) = true ->
  get c (Type_ req) = Some available ->
  wf available ->
  let r := run (alone answers) n
             (AioHttp3.allocate_request ld target_city (coord_of tgt) req) c in
  exists remaining available' log,
    FastSimulation.allocate ld tgt (Type_ req) target_city (Quantity req)
      available [] = inr (remaining, available', log) /\
    returned r = inr (Allocated remaining) /\
    final_cache r = set c (Type_ req) available' /\
    posted (trace r) = log.
Proof.
  intros Htgt Hq Hfetched Hc Hwf.
  destruct (fetched_endpoints _ Hfetched) as (endpoint & Hd & Hep).
  destruct (ranked_mirror ld (coord_of tgt) Hwf) as (Hnd & Hinv).
  destruct (@aio3_loop_alone (Type_ req) target_city endpoint
              (rank_candidates ld (coord_of tgt) available) Hd Hep
              (Quantity req) c available [] n Hc Hnd)
    as (r' & av' & tr & Hfast & Hrun).
  { intros x Hx. destruct (Hinv x Hx) as (H1 & H2 & _). auto. }
  exists r', av', (posted tr). split; [exact Hfast|].
  unfold AioHttp3.allocate_request.
  assert (E : (Quantity req <=? 0) = false) by (apply Z.leb_gt; lia).
  rewrite E. cbn [run]. unfold AioHttp3.snapshot_candidates. rewrite Hc.
  rewrite snapshot_is_ranking, run_bind, Hrun. cbn.
  rewrite app_nil_r. auto.
Qed.

End AioHttp3Alone.

Lemma aio3_alone_is_fast_witness :
  exists remaining available' log,
    FastSimulation.allocate towns (place "T" 0 0) "Medical" "T" 7
      [("A", 5); ("B", 3)] [] = inr (remaining, available', log) /\
    returned (run (alone accepting) 0
                (AioHttp3.allocate_request towns "T" (coord_of (place "T" 0 0))
                   {| Type_ := "Medical"; Quantity := 7 |}) stocked)
      = inr (Allocated remaining) /\
    final_cache (run (alone accepting) 0
                   (AioHttp3.allocate_request towns "T" (coord_of (place "T" 0 0))
                      {| Type_ := "Medical"; Quantity := 7 |}) stocked)
      = set stocked "Medical" available' /\
    posted (trace (run (alone accepting) 0
                     (AioHttp3.allocate_request towns "T" (coord_of (place "T" 0 0))
                        {| Type_ := "Medical"; Quantity := 7 |}) stocked))
      = log.
Proof.
  apply (@aio3_alone_is_fast Z _ towns accepting "T" (place "T" 0 0)
           {| Type_ := "Medical"; Quantity := 7 |} 0%nat stocked
           [("A", 5); ("B", 3)]).
  - reflexivity.
  - simpl. lia.
  - reflexivity.
  - reflexivity.
  - repeat constructor; simpl; intuition discriminate.
Defined.

(** ** The refresher of [aioHttp3.py] over many turns *)

Lemma refresh_cycle_shape (w : world) (n : nat) (c : cache) (interval : Z) :
  exists c' t,
    run w n (AioHttp3.refresh_cycle interval) c = (inr tt, c', t) /\
    awaits t = 6%nat /\ posted t = [].
Proof.
  unfold AioHttp3.refresh_cycle, AioHttp3.gather_available. cbn.
  repeat (match goal with
          | |- context [parse_available ?d] => destruct (parse_available d)
          end; cbn);
    eexists; eexists; split; reflexivity || (split; reflexivity).
Qed.

(** X14. The refresher of [aioHttp3.py] cannot die and cannot order: in
    every world and for every number of turns of its [while True], it
    raises nothing, posts nothing, and spends exactly six awaits a turn
    (the five searches, all sent even when one fails, and the sleep). *)
Theorem refresher_never_raises (turns : nat) (interval : Z) (w : world)
    (n : nat) (c : cache) :
  let r := run w n (AioHttp3.update_availability_cache turns interval) c in
  returned r = inr tt /\
  awaits (trace r) = (6 * turns)%nat /\
  posted (trace r) = [].
Proof.
  revert n c. induction turns as [|turns IH]; intros n c.
  - cbn. auto.
  - cbn [AioHttp3.update_availability_cache]. cbv zeta. rewrite run_bind.
    destruct (refresh_cycle_shape w n c interval) as (c1 & t1 & Hrun & Haw & Hpost).
    rewrite Hrun. unfold and_then.
    specialize (IH (n + awaits t1)%nat c1). cbv zeta in IH.
    destruct (run w (n + awaits t1) _ c1) as [[r2 c2] t2].
    unfold returned, trace in *. simpl in *.
    destruct IH as (-> & Haw2 & Hpost2).
    split; [reflexivity|]. split.
    + rewrite awaits_app, Haw, Haw2. lia.
    + now rewrite posted_app, Hpost, Hpost2.
Qed.

Lemma refresh_cycle_alone answers n c interval :
  final_cache (run (alone answers) n (AioHttp3.refresh_cycle interval) c)
  = refreshed answers c.
Proof.
  unfold AioHttp3.refresh_cycle, AioHttp3.gather_available, refreshed. cbn.
  repeat (match goal with
          | |- context [parse_available ?d] => destruct (parse_available d)
          end; cbn); reflexivity.
Qed.

Lemma replace_all_twice med fire police rescue utility c :
  AioHttp3.replace_all med fire police rescue utility
    (AioHttp3.replace_all med fire police rescue utility c)
  = AioHttp3.replace_all med fire police rescue utility c.
Proof.
  destruct (replace_all_get5 med fire police rescue utility c)
    as (H1 & H2 & H3 & H4 & H5 & _).
  cbv zeta in *.
  set (C := AioHttp3.replace_all med fire police rescue utility c) in *.
  unfold AioHttp3.replace_all at 1.
  now rewrite (set_same_value _ _ H1), (set_same_value _ _ H2),
    (set_same_value _ _ H3), (set_same_value _ _ H4), (set_same_value _ _ H5).
Qed.

Lemma refreshed_twice answers c :
  refreshed answers (refreshed answers c) = refreshed answers c.
Proof.
  unfold refreshed.
  repeat (match goal with
          | |- context [parse_available ?d] => destruct (parse_available d)
          end); try reflexivity.
  apply replace_all_twice.
Qed.

Lemma refresher_keeps_refreshed answers interval turns :
  forall n c,
    final_cache (run (alone answers) n
                   (AioHttp3.update_availability_cache turns interval)
                   (refreshed answers c))
    = refreshed answers c.
Proof.
  induction turns as [|turns IH]; intros n c; [reflexivity|].
  cbn [AioHttp3.update_availability_cache]. rewrite run_bind.
  pose proof (refresh_cycle_alone answers n (refreshed answers c) interval) as Hc.
  destruct (refresh_cycle_shape (alone answers) n (refreshed answers c) interval)
    as (c1 & t1 & Hrun & _).
  rewrite Hrun in *. unfold final_cache in Hc. simpl in Hc. subst c1.
  unfold and_then. rewrite refreshed_twice.
  specialize (IH (n + awaits t1)%nat c).
  destruct (run (alone answers) (n + awaits t1) _ (refreshed answers c))
    as [[r2 c2] t2].
  exact IH.
Qed.

(** X15. With a steady source and nothing else on the event loop, the
    refresher of [aioHttp3.py] settles at once: after any positive number
    of turns the cache is what one cycle makes of it, all five mappings
    replaced by the parsed answers when all five searches give one, the
    cache untouched when any of them fails. *)
Theorem refresher_steady (answers : awaitable -> api_data) (turns : nat)
    (interval : Z) (n : nat) (c : cache) :
  final_cache (run (alone answers) n
                 (AioHttp3.update_availability_cache (S turns) interval) c)
  = refreshed answers c.
Proof.
  cbn [AioHttp3.update_availability_cache]. rewrite run_bind.
  pose proof (refresh_cycle_alone answers n c interval) as Hc.
  destruct (refresh_cycle_shape (alone answers) n c interval)
    as (c1 & t1 & Hrun & _).
  rewrite Hrun in *. unfold final_cache in Hc. simpl in Hc. subst c1.
  unfold and_then.
  pose proof (refresher_keeps_refreshed answers interval turns
                (n + awaits t1)%nat c) as H.
  destruct (run (alone answers) (n + awaits t1) _ (refreshed answers c))
    as [[r2 c2] t2].
  exact H.
Qed.

(** ** Counting the calls of a batch *)

Lemma successes_cons r results :
  successes (r :: results)
  = (match r with inr true => 1 | _ => 0 end) + successes results.
Proof. reflexivity. Qed.

Lemma successes_nonneg results : 0 <= successes results.
Proof.
  induction results as [|[e|[|]] results IH]; rewrite ?successes_cons;
    [unfold successes, sumZ; simpl|..]; lia.
Qed.

(** X16. The counter of processed calls in the two [asyncio] mains: entered
    below the target, the loop over the results of a batch adds one for
    each call that returned [True], nothing for a call that returned
    [False] or raised, and stops at the target, so the counter ends at the
    smaller of the target and the count with every success added; testing
    the target after every result ([aioHttp.py]) or only after a success
    ([aioHttp3.py]) gives the same count. *)
Theorem tally_stops_at_target (results : list (exn + bool))
    (total_calls_processed target : Z) :
  total_calls_processed < target ->
  tally3 results total_calls_processed target
    = Z.min target (total_calls_processed + successes results) /\
  tally results total_calls_processed target
    = Z.min target (total_calls_processed + successes results).
Proof.
  revert total_calls_processed.
  induction results as [|r results IH]; intros total Hlt.
  - unfold successes, sumZ. simpl. lia.
  - rewrite successes_cons. pose proof (successes_nonneg results) as Hs.
    cbn [tally3 tally].
    destruct r as [e|[|]].
    + assert (E : (total >=? target) = false) by (rewrite Z.geb_leb; apply Z.leb_gt; lia).
      rewrite E. destruct (IH total Hlt) as (H3 & H). rewrite H3, H. lia.
    + destruct (total + 1 >=? target) eqn:E.
      * rewrite Z.geb_leb in E. apply Z.leb_le in E. lia.
      * rewrite Z.geb_leb in E. apply Z.leb_gt in E.
        destruct (IH (total + 1) E) as (H3 & H). rewrite H3, H. lia.
    + assert (E : (total >=? target) = false) by (rewrite Z.geb_leb; apply Z.leb_gt; lia).
      rewrite E. destruct (IH total Hlt) as (H3 & H). rewrite H3, H. lia.
Qed.

Lemma tally_stops_at_target_witness :
  tally3 [inr true; inl KeyError; inr false; inr true; inr true] 8 10
    = Z.min 10 (8 + successes [inr true; inl KeyError; inr false; inr true; inr true]) /\
  tally [inr true; inl KeyError; inr false; inr true; inr true] 8 10
    = Z.min 10 (8 + successes [inr true; inl KeyError; inr false; inr true; inr true]).
Proof.
  apply (@tally_stops_at_target
           [inr true; inl KeyError; inr false; inr true; inr true] 8 10).
  lia.
Defined.

(** ** Whole calls of [fast_simulation.py] and [vector_simulation.py] *)

Lemma asked_nonneg requests_list : 0 <= asked requests_list.
Proof. unfold asked, sumZ. induction requests_list; simpl; lia. Qed.

Lemma collect_available_wf (l : list item) : wf (collect_available l).
Proof.
  unfold collect_available. apply (collect_loop l []). constructor.
Qed.

Section WholeCalls.
Context {F : Type} {ops : PyFloat F}.
Variable ld : location_details F.

Lemma fast_loop_keeps_keys service_type target_city (l : list (candidate F)) :
  forall remaining available log remaining' available' log',
    FastSimulation.dispatch_loop ld service_type target_city l remaining
      available log = inr (remaining', available', log') ->
    keys available' = keys available.
Proof.
  induction l as [|[[city d] count] l IH];
    intros remaining available log remaining' available' log';
    cbn [FastSimulation.dispatch_loop].
  - now intros [= _ <- _].
  - destruct (remaining <=? 0); [now intros [= _ <- _]|].
    destruct (FastSimulation.dispatcher service_type); [|apply IH].
    destruct (get available city) eqn:Hg; [|discriminate].
    intros H. apply IH in H. rewrite H. apply keys_set_present.
    rewrite Hg. discriminate.
Qed.

Lemma fast_request_returns target_city req all_success
    (available_resources : dict (dict Z)) log :
  well_stocked available_resources ->
  exists all_success' available_resources' extra,
    FastSimulation.process_request ld target_city req
      (all_success, available_resources, log)
    = inr (all_success', available_resources', log ++ extra) /\
    well_stocked available_resources' /\
    0 <= ordered extra <= Z.max 0 (Quantity req).
Proof.
  intros (Hkeys & Hwf).
  assert (Hsame : exists all_success' available_resources' extra,
            @inr exn FastSimulation.state (all_success, available_resources, log)
            = inr (all_success', available_resources', log ++ extra) /\
            well_stocked available_resources' /\
            0 <= ordered extra <= Z.max 0 (Quantity req)).
  { exists all_success, available_resources, []. rewrite app_nil_r.
    split; [reflexivity|]. split; [split; assumption|].
    change (ordered []) with 0. lia. }
  unfold FastSimulation.process_request, FastSimulation.allocate.
  destruct (Quantity req <=? 0) eqn:Eq; [exact Hsame|]. apply Z.leb_gt in Eq.
  destruct (get ld target_city) as [tgt|] eqn:Htgt; [|exact Hsame].
  destruct (get available_resources (Type_ req)) as [available|] eqn:Hres;
    [|exact Hsame].
  clear Hsame.
  assert (Hin : In (Type_ req) ["Medical"; "Fire"; "Police"]).
  { change ["Medical"; "Fire"; "Police"] with fetched_services.
    rewrite <- Hkeys. eapply get_Some_keys; eauto. }
  destruct (dispatcher_registered Hin) as (endpoint & Hd).
  pose proof (Hwf _ _ Hres) as Hav.
  destruct (ranked_mirror ld (coord_of tgt) Hav) as (Hnd & Hinv).
  assert (Htarget : get ld target_city <> None) by (rewrite Htgt; discriminate).
  destruct (loop_accounts ld (Type_ req) target_city Hd Htarget
              (rank_candidates ld (coord_of tgt) available)
              (Quantity req) available log Hnd Hinv)
    as (r' & av' & extra & Hrun & Hr' & Hord & _).
  rewrite Hrun.
  exists (if r' >? 0 then false else all_success),
         (set available_resources (Type_ req) av'), extra.
  split; [reflexivity|]. split.
  - split.
    + rewrite keys_set_present; [exact Hkeys | rewrite Hres; discriminate].
    + intros service av''.
      destruct (String.eqb_spec service (Type_ req)) as [->|Hne].
      * rewrite get_set_same. intros [= <-]. unfold wf.
        rewrite (fast_loop_keeps_keys _ _ _ _ _ _ Hrun). exact Hav.
      * rewrite get_set_other by exact Hne. apply Hwf.
  - rewrite ranked_supply in Hr'.
    assert (E : (Quantity req <=? 0) = false) by (apply Z.leb_gt; lia).
    rewrite E in Hr'. pose proof (supply_nonneg ld available). lia.
Qed.

Lemma fast_requests_return target_city requests_list :
  forall all_success (available_resources : dict (dict Z)) log,
    well_stocked available_resources ->
    exists all_success' available_resources' extra,
      FastSimulation.requests_loop ld target_city requests_list
        (all_success, available_resources, log)
      = inr (all_success', available_resources', log ++ extra) /\
      well_stocked available_resources' /\
      0 <= ordered extra <= asked requests_list.
Proof.
  induction requests_list as [|req rest IH]; intros all_success res log Hres;
    cbn [FastSimulation.requests_loop].
  - exists all_success, res, []. rewrite app_nil_r.
    split; [reflexivity|]. split; [exact Hres|].
    change (ordered []) with 0. change (asked []) with 0. lia.
  - destruct (fast_request_returns target_city req all_success log Hres)
      as (b1 & res1 & extra1 & Hrun1 & Hres1 & Hord1).
    rewrite Hrun1.
    destruct (IH b1 res1 (log ++ extra1) Hres1)
      as (b2 & res2 & extra2 & Hrun2 & Hres2 & Hord2).
    rewrite Hrun2. exists b2, res2, (extra1 ++ extra2).
    rewrite app_assoc. split; [reflexivity|]. split; [exact Hres2|].
    rewrite ordered_app.
    change (asked (req :: rest)) with (Z.max 0 (Quantity req) + asked rest).
    lia.
Qed.

Lemma fast_fetch_well_stocked answers (available_resources : dict (dict Z)) :
  FastSimulation.fetch_available_resources answers = inr available_resources ->
  well_stocked available_resources.
Proof.
  unfold FastSimulation.fetch_available_resources, FastSimulation.get_available.
  destruct (parse_available (answers (HttpGet "/medical/search")))
    as [e|med] eqn:H1; [discriminate|].
  destruct (parse_available (answers (HttpGet "/fire/search")))
    as [e|fire] eqn:H2; [discriminate|].
  destruct (parse_available (answers (HttpGet "/police/search")))
    as [e|police] eqn:H3; [discriminate|].
  apply parse_available_inr in H1, H2, H3.
  destruct H1 as (l1 & _ & ->), H2 as (l2 & _ & ->), H3 as (l3 & _ & ->).
  intros [= <-]. split; [reflexivity|].
  intros service available. simpl.
  destruct (String.eqb service "Medical");
    [intros [= <-]; apply collect_available_wf|].
  destruct (String.eqb service "Fire");
    [intros [= <-]; apply collect_available_wf|].
  destruct (String.eqb service "Police");
    [intros [= <-]; apply collect_available_wf|].
  discriminate.
Qed.

(** X17. Once its three fetches have returned, a call of
    [fast_simulation.py] returns: the subtraction never meets a city the
    mapping lacks, whatever the requests and the index are.  The orders it
    posts add up to at most the sum of the positive quantities asked
    for. *)
Theorem fast_call_returns (answers : awaitable -> api_data) (cl : call)
    (fetched_resources : dict (dict Z)) :
  FastSimulation.fetch_available_resources answers = inr fetched_resources ->
  exists all_success available_resources log,
    FastSimulation.process_multi_service_emergency ld answers cl
      = inr (all_success, available_resources, log) /\
    0 <= ordered log <= asked (call_requests cl).
Proof.
  intros Hfetch. unfold FastSimulation.process_multi_service_emergency.
  pose proof (asked_nonneg (call_requests cl)) as Hasked.
  assert (Hnone : exists all_success available_resources log,
            @inr exn FastSimulation.state (false, [], [])
            = inr (all_success, available_resources, log) /\
            0 <= ordered log <= asked (call_requests cl)).
  { exists false, [], []. split; [reflexivity|]. change (ordered []) with 0. lia. }
  destruct (call_city cl) as [t|]; [|exact Hnone].
  destruct (String.eqb t ""); [exact Hnone|].
  destruct (call_requests cl) as [|req rest] eqn:Hl; [exact Hnone|].
  rewrite Hfetch.
  destruct (fast_requests_return t (req :: rest) true []
              (fast_fetch_well_stocked _ Hfetch))
    as (b & res & extra & Hrun & _ & Hord).
  rewrite Hrun. exists b, res, extra. auto.
Qed.

Lemma vector_fetch_readable answers :
  readable answers ->
  exists available_resources,
    VectorSimulation.fetch_available_resources answers = inr available_resources /\
    well_stocked available_resources.
Proof.
  intros Hread. unfold VectorSimulation.fetch_available_resources.
  assert (Hget : forall service,
            In service ["medical"; "fire"; "police"] ->
            exists available,
              VectorSimulation.get_available answers service = inr available /\
              wf available).
  { intros service Hin. unfold VectorSimulation.get_available.
    destruct (answers _) as [|s|l] eqn:Ha.
    - exists []. split; [reflexivity|constructor].
    - rewrite (Hread service s Hin Ha). exists []. split; [reflexivity|constructor].
    - exists (collect_available l). split; [reflexivity|apply collect_available_wf]. }
  change (lower "medical") with "medical".
  change (lower "fire") with "fire".
  change (lower "police") with "police".
  destruct (Hget "medical") as (med & -> & Hmed); [simpl; auto|].
  destruct (Hget "fire") as (fire & -> & Hfire); [simpl; auto|].
  destruct (Hget "police") as (police & -> & Hpolice); [simpl; auto|].
  eexists. split; [reflexivity|]. split; [reflexivity|].
  intros service available.
  change (capitalize "medical") with "Medical".
  change (capitalize "fire") with "Fire".
  change (capitalize "police") with "Police".
  simpl.
  destruct (String.eqb service "Medical"); [now intros [= <-]|].
  destruct (String.eqb service "Fire"); [now intros [= <-]|].
  destruct (String.eqb service "Police"); [now intros [= <-]|].
  discriminate.
Qed.

(** With readable answers a call is turned away, or it is the loop of
    [fast_simulation.py] over its requests, started from mappings with no
    city twice. *)
Lemma vector_call_unfolds answers cl :
  readable answers ->
  VectorSimulation.process_call ld answers cl = inr (false, [], []) \/
  exists target_city available_resources,
    well_stocked available_resources /\
    VectorSimulation.process_call ld answers cl
    = FastSimulation.requests_loop ld target_city (call_requests cl)
        (true, available_resources, []).
Proof.
  intros Hread. unfold VectorSimulation.process_call.
  destruct (known_target ld cl) as [[t tgt]|] eqn:Hk; [|now left].
  assert (Htgt : get ld t = Some tgt).
  { unfold known_target in Hk. destruct (call_city cl); [|discriminate].
    destruct (String.eqb s ""); [discriminate|].
    destruct (get ld s) eqn:Hg; [|discriminate].
    now injection Hk as <- <-. }
  destruct (call_requests cl) as [|req rest]; [now left|].
  destruct (vector_fetch_readable Hread) as (res & -> & Hres).
  right. exists t, res. split; [exact Hres|].
  apply (@vector_requests_are_fast F ops ld t tgt (req :: rest) Htgt).
  exact (proj1 Hres).
Qed.

(** X18. A call of [vector_simulation.py] returns whenever each of the
    three availability answers is one it can read: no answer, an empty
    body, or a list of item objects with integer counts.  Whatever the
    call and the index hold, and whichever of the three are missing, the
    subtraction never meets a city its mapping lacks, and the orders
    posted add up to at most the sum of the positive quantities asked
    for. *)
Theorem vector_call_returns_when_readable (answers : awaitable -> api_data)
    (cl : call) :
  readable answers ->
  exists all_success available_resources log,
    VectorSimulation.process_call ld answers cl
      = inr (all_success, available_resources, log) /\
    0 <= ordered log <= asked (call_requests cl).
Proof.
  intros Hread. pose proof (asked_nonneg (call_requests cl)) as Hasked.
  destruct (vector_call_unfolds cl Hread) as [->|(t & res & Hres & ->)].
  - exists false, [], []. split; [reflexivity|]. change (ordered []) with 0. lia.
  - destruct (fast_requests_return t (call_requests cl) true [] Hres)
      as (b & res' & extra & Hrun & _ & Hord).
    rewrite Hrun. exists b, res', extra. auto.
Qed.

(** X19. The loop of [main] in [vector_simulation.py] over one batch of
    calls, entered below the target.  Whenever it comes to its end, the
    count of processed calls lies between what it was and the target and
    has grown by at most one per call of the batch; and it does come to
    its end when the availability answers are ones a call can read. *)
Theorem vector_batch_stops_at_target (answers : awaitable -> api_data)
    (calls : list call) (total_calls target : Z) (log : list (string * payload)) :
  total_calls < target ->
  (forall total_calls' log',
     VectorSimulation.process_batch ld answers calls total_calls target log
       = inr (total_calls', log') ->
     total_calls <= total_calls' <= target /\
     total_calls' - total_calls <= Z.of_nat (List.length calls)) /\
  (readable answers ->
   exists total_calls' log',
     VectorSimulation.process_batch ld answers calls total_calls target log
       = inr (total_calls', log')).
Proof.
  revert total_calls log.
  induction calls as [|cl rest IH]; intros total log Hlt;
    cbn [VectorSimulation.process_batch List.length].
  - split; [|eauto]. intros total' log' [= <- _]. simpl. lia.
  - split.
    + intros total' log'.
      destruct (VectorSimulation.process_call ld answers cl)
        as [e|[[success res] orders]]; [discriminate|].
      destruct ((if success then total + 1 else total) >=? target) eqn:E.
      * rewrite Z.geb_leb in E. apply Z.leb_le in E.
        intros [= <- _]. destruct success; lia.
      * rewrite Z.geb_leb in E. apply Z.leb_gt in E. intros Hrun.
        apply (IH _ _ E) in Hrun. destruct success; lia.
    + intros Hread.
      assert (Hcall : exists st, VectorSimulation.process_call ld answers cl = inr st).
      { destruct (vector_call_unfolds cl Hread) as [->|(t & res & Hres & ->)];
          [eauto|].
        destruct (fast_requests_return t (call_requests cl) true [] Hres)
          as (b & res' & extra & -> & _). eauto. }
      destruct Hcall as ([[success res] orders] & ->).
      destruct ((if success then total + 1 else total) >=? target) eqn:E; [eauto|].
      rewrite Z.geb_leb in E. apply Z.leb_gt in E.
      now apply (IH _ (log ++ orders) E).
Qed.

End WholeCalls.

Lemma fast_call_returns_witness :
  exists all_success available_resources log,
    FastSimulation.process_multi_service_emergency towns supplied mixed
      = inr (all_success, available_resources, log) /\
    0 <= ordered log <= asked (call_requests mixed).
Proof.
  apply (@fast_call_returns Z _ towns supplied mixed
           [("Medical", [("A", 5); ("B", 3)]); ("Fire", [("A", 5); ("B", 3)]);
            ("Police", [("A", 5); ("B", 3)])]).
  reflexivity.
Defined.

(** On [fast_simulation.py] the call [mixed] reaches the allocation twice:
    seven ambulances are ordered, and the eight firefighters there are. *)
Lemma mixed_call_on_fast :
  FastSimulation.process_multi_service_emergency towns supplied mixed
  = inr (false,
         [("Medical", [("A", 0); ("B", 1)]); ("Fire", [("A", 0); ("B", 0)]);
          ("Police", [("A", 5); ("B", 3)])],
         [("/medical/dispatch", make_payload (place "A" 1 0) (place "T" 0 0) 5);
          ("/medical/dispatch", make_payload (place "B" 2 0) (place "T" 0 0) 2);
          ("/fire/dispatch", make_payload (place "A" 1 0) (place "T" 0 0) 5);
          ("/fire/dispatch", make_payload (place "B" 2 0) (place "T" 0 0) 3)]).
Proof. reflexivity. Qed.

Lemma readable_patchy : readable patchy.
Proof.
  intros service s [<-|[<-|[<-|[]]]]; simpl; try discriminate.
  now intros [= <-].
Qed.

Lemma readable_supplied : readable supplied.
Proof. intros service s _. discriminate. Qed.

Lemma vector_call_returns_when_readable_witness :
  exists all_success available_resources log,
    VectorSimulation.process_call towns patchy mixed
      = inr (all_success, available_resources, log) /\
    0 <= ordered log <= asked (call_requests mixed).
Proof.
  apply (@vector_call_returns_when_readable Z _ towns patchy mixed).
  exact readable_patchy.
Defined.

(** On [vector_simulation.py] with the patchy source: the ambulances are
    ordered, the firefighters are not there to order. *)
Lemma mixed_call_on_vector :
  VectorSimulation.process_call towns patchy mixed
  = inr (false,
         [("Medical", [("A", 0); ("B", 1)]); ("Fire", []); ("Police", [])],
         [("/medical/dispatch", make_payload (place "A" 1 0) (place "T" 0 0) 5);
          ("/medical/dispatch", make_payload (place "B" 2 0) (place "T" 0 0) 2)]).
Proof. reflexivity. Qed.

Lemma vector_batch_stops_at_target_witness :
  (forall total_calls' log',
     VectorSimulation.process_batch towns supplied
       [medical 2; medical 1; medical 1] 8 10 [] = inr (total_calls', log') ->
     8 <= total_calls' <= 10 /\
     total_calls' - 8 <= Z.of_nat (List.length [medical 2; medical 1; medical 1])) /\
  exists total_calls' log',
    VectorSimulation.process_batch towns supplied
      [medical 2; medical 1; medical 1] 8 10 [] = inr (total_calls', log').
Proof.
  destruct (@vector_batch_stops_at_target Z _ towns supplied
              [medical 2; medical 1; medical 1] 8 10 []) as (H1 & H2).
  - lia.
  - split; [exact H1|]. apply H2. exact readable_supplied.
Defined.

(** ** Every call of [main.py] *)

Section MainEveryCall.
Context {F : Type} {ops : PyFloat F}.
Variable ld : location_details F.

(** X20. Whatever keys a call of [main.py] holds (a call that is a JSON
    object: the branch that first decodes a call given as text is not part
    of this), [process_emergency] does not raise, and the caller's mapping
    accounts for the orders: the units
    ordered are the units the mapping lost, no count grows, no count that
    was not negative becomes negative, and a call that is reported
    successful ordered something.  A call that is turned away leaves the
    mapping as it was. *)
Theorem main_call_conserves (cl : Main.call) (available : dict Z) :
  wf available ->
  exists success available' log,
    Main.process_emergency ld cl available = inr (success, available', log) /\
    ordered log = total available - total available' /\
    0 <= ordered log /\
    (success = true -> 0 < ordered log) /\
    (log = [] -> available' = available) /\
    (forall k v, get available k = Some v ->
       exists v', get available' k = Some v' /\ v' <= v /\ (0 <= v -> 0 <= v')).
Proof.
  intros Hwf.
  assert (Hrejected : exists success available' log,
            @inr exn (bool * dict Z * list (string * payload)) (false, available, [])
            = inr (success, available', log) /\
            ordered log = total available - total available' /\
            0 <= ordered log /\
            (success = true -> 0 < ordered log) /\
            (log = [] -> available' = available) /\
            (forall k v, get available k = Some v ->
               exists v', get available' k = Some v' /\ v' <= v /\
                          (0 <= v -> 0 <= v'))).
  { exists false, available, []. change (ordered []) with 0.
    split; [reflexivity|]. split; [lia|]. split; [lia|].
    split; [discriminate|]. split; [reflexivity|].
    intros k v Hk. exists v. split; [exact Hk|]. split; [lia|auto]. }
  unfold Main.process_emergency.
  destruct (Main.city cl) as [t|]; [|exact Hrejected].
  destruct (String.eqb t ""); [exact Hrejected|].
  destruct (match Main.int_or (Main.int_or (Main.needed cl) (Main.required cl))
                    (Main.count cl) with
            | Some n => Some n
            | None => option_map Main.sum_quantities (Main.requests cl)
            end) as [n|]; [|exact Hrejected].
  destruct ((n =? 0) || (n <=? 0)) eqn:En; [exact Hrejected|].
  apply orb_false_iff in En. destruct En as (_ & En). apply Z.leb_gt in En.
  destruct (get ld t) as [tgt|] eqn:Htgt; [|exact Hrejected].
  clear Hrejected. rewrite main_loop_is_medical.
  destruct (ranked_mirror ld (coord_of tgt) Hwf) as (Hnd & Hinv).
  assert (Htarget : get ld t <> None) by (rewrite Htgt; discriminate).
  destruct (loop_accounts ld "Medical" t (endpoint := "/medical/dispatch")
              eq_refl Htarget
              (rank_candidates ld (coord_of tgt) available)
              n available [] Hnd Hinv)
    as (r' & av' & extra & Hrun & Hr' & Hord & Htot & Hbound & Hall).
  unfold FastSimulation.order in *. rewrite Hrun. simpl.
  exists (negb (r' >? 0)), av', extra.
  assert (E : (n <=? 0) = false) by (apply Z.leb_gt; lia).
  rewrite ranked_supply, E in Hr'.
  pose proof (supply_nonneg ld available) as Hs.
  split; [reflexivity|]. split; [lia|]. split; [lia|]. split; [|split].
  - intros Hsuccess. apply negb_true_iff in Hsuccess.
    rewrite Z.gtb_ltb in Hsuccess. apply Z.ltb_ge in Hsuccess. lia.
  - intros ->. change (ordered []) with 0 in Hord.
    assert (Hr : r' = n) by lia.
    assert (Hsup : supply ld available = 0) by lia.
    rewrite <- (ranked_supply ld (coord_of tgt)) in Hsup.
    destruct (rank_candidates ld (coord_of tgt) available) as [|[[city d] count] l]
      eqn:Hranked.
    + simpl in Hrun. injection Hrun as _ <-. reflexivity.
    + exfalso.
      destruct (Hinv (city, d, count) (or_introl eq_refl)) as (_ & Hpos & _).
      unfold cand_count in Hpos. simpl in Hpos.
      assert (Hrest : 0 <= sumZ (map cand_count l)).
      { apply positive_counts_sum. apply Forall_forall. intros x Hx.
        apply (Hinv x (or_intror Hx)). }
      change (sumZ (map cand_count ((city, d, count) :: l)))
        with (count + sumZ (map cand_count l)) in Hsup.
      lia.
  - exact Hbound.
Qed.

End MainEveryCall.

Lemma main_call_conserves_witness :
  exists success available' log,
    Main.process_emergency towns (ambulances [4; -1; 3]) [("A", 5); ("X", 9); ("B", 3)]
      = inr (success, available', log) /\
    ordered log = total [("A", 5); ("X", 9); ("B", 3)] - total available' /\
    0 <= ordered log /\
    (success = true -> 0 < ordered log) /\
    (log = [] -> available' = [("A", 5); ("X", 9); ("B", 3)]) /\
    (forall k v, get [("A", 5); ("X", 9); ("B", 3)] k = Some v ->
       exists v', get available' k = Some v' /\ v' <= v /\ (0 <= v -> 0 <= v')).
Proof.
  apply (@main_call_conserves Z _ towns (ambulances [4; -1; 3])
           [("A", 5); ("X", 9); ("B", 3)]).
  repeat constructor; simpl; intuition discriminate.
Defined.

(** ** [aioHttp.py] in any world: what a call can order *)

Lemma covers_Ret {A : Type} (a : A) Q R : Q a [] -> covers (Ret a) Q R.
Proof. intros H w n c. exact H. Qed.

Lemma covers_Locked {A X : Type} (body : cache -> X * cache) (k : X -> prog A) Q R :
  (forall c, covers (k (fst (body c))) Q R) -> covers (Locked body k) Q R.
Proof.
  intros H w n c. simpl. specialize (H c w n (snd (body c))).
  destruct (body c) as [x c']. simpl in H.
  destruct (run w n (k x) c') as [[r c''] t]. exact H.
Qed.

Lemma covers_bind {A B : Type} (p : prog A) (f : A -> prog B)
    (P : A -> list (string * payload) -> Prop)
    (Q : B -> list (string * payload) -> Prop)
    (R : list (string * payload) -> Prop) :
  covers p P R ->
  (forall a l1, P a l1 ->
     covers (f a) (fun b l2 => Q b (l1 ++ l2)) (fun l2 => R (l1 ++ l2))) ->
  covers (bind p f) Q R.
Proof.
  intros Hp Hf w n c. rewrite run_bind. specialize (Hp w n c).
  destruct (run w n p c) as [[[e|a] c'] t]; unfold returned, trace in *;
    simpl in *; [exact Hp|].
  specialize (Hf a _ Hp w (n + awaits t)%nat c').
  destruct (run w (n + awaits t) (f a) c') as [[r2 c2] t2]. simpl in *.
  rewrite posted_app. exact Hf.
Qed.

Lemma covers_weaken {A : Type} (p : prog A)
    (P Q : A -> list (string * payload) -> Prop)
    (R S : list (string * payload) -> Prop) :
  covers p P R ->
  (forall a l, P a l -> Q a l) -> (forall l, R l -> S l) ->
  covers p Q S.
Proof.
  intros Hp HPQ HRS w n c. specialize (Hp w n c).
  destruct (returned (run w n p c)); auto.
Qed.

Section AioHttpOrders.
Context {F : Type} {ops : PyFloat F}.
Variable ld : location_details F.

Lemma aio_step_covers service_type target_city endpoint city avail_count remaining :
  0 < avail_count -> 0 < remaining ->
  covers (AioHttp.dispatch_and_subtract ld service_type target_city endpoint city
            avail_count remaining)
         (fun remaining' log =>
            0 <= remaining' < remaining /\
            0 <= ordered log <= remaining - remaining')
         (fun log => 0 <= ordered log <= remaining).
Proof.
  intros Havail Hrem w n c.
  unfold AioHttp.dispatch_and_subtract, AioHttp.dispatch.
  destruct (get ld city) as [src|]; [destruct (get ld target_city) as [tgt|]|];
    cbn;
    destruct (AioHttp.decrement service_type city (Z.min avail_count remaining) _)
      as [[e|[]] c'];
    cbn; unfold ordered, sumZ; simpl; lia.
Qed.

Lemma aio_loop_covers service_type target_city (candidates : list (candidate F)) :
  Forall (fun x => cand_count x > 0) candidates ->
  forall remaining, 0 <= remaining ->
  covers (AioHttp.dispatch_loop ld service_type target_city candidates remaining)
         (fun remaining' log =>
            0 <= remaining' <= remaining /\
            0 <= ordered log <= remaining - remaining')
         (fun log => 0 <= ordered log <= remaining).
Proof.
  intros Hall. induction Hall as [|[[city d] count] rest Hcount Hrest IH];
    intros remaining Hrem; cbn [AioHttp.dispatch_loop].
  - apply covers_Ret. change (ordered []) with 0. lia.
  - destruct (remaining <=? 0) eqn:E;
      [apply covers_Ret; change (ordered []) with 0; lia|].
    apply Z.leb_gt in E. unfold cand_count in Hcount. simpl in Hcount.
    destruct (AioHttp.dispatch_endpoint service_type) as [endpoint|];
      [|now apply IH].
    eapply covers_bind; [apply aio_step_covers; lia|].
    intros remaining' l1 (Hr1 & Hl1). cbv beta.
    eapply covers_weaken; [apply (IH remaining'); lia| |].
    + intros r2 l2 (Hr2 & Hl2). rewrite ordered_app. lia.
    + intros l2 Hl2. cbv beta in *. rewrite ordered_app. lia.
Qed.

Lemma aio_request_covers target_city target_coord req :
  covers (AioHttp.allocate_request ld target_city target_coord req)
         (fun _ log => 0 <= ordered log <= Z.max 0 (Quantity req))
         (fun log => 0 <= ordered log <= Z.max 0 (Quantity req)).
Proof.
  unfold AioHttp.allocate_request.
  destruct (Quantity req <=? 0) eqn:E;
    [apply covers_Ret; change (ordered []) with 0; lia|].
  apply Z.leb_gt in E.
  apply covers_Locked. intros c. unfold AioHttp.snapshot_candidates.
  destruct (get c (Type_ req)) as [available|]; simpl;
    [|apply covers_Ret; change (ordered []) with 0; lia].
  eapply covers_bind.
  - eapply covers_weaken.
    + apply (aio_loop_covers (Type_ req) target_city
               (candidates := rank_candidates ld target_coord available));
        [|apply Z.lt_le_incl, E].
      apply Forall_forall. intros x Hx. apply ranked_In in Hx. tauto.
    + intros a l H. exact H.
    + intros l H. cbv beta in H. lia.
  - intros remaining l1 (Hr & Hl1). apply covers_Ret. rewrite app_nil_r. lia.
Qed.

Lemma aio_requests_cover target_city target_coord requests_list :
  forall all_success,
    covers (AioHttp.requests_loop ld target_city target_coord requests_list
              all_success)
           (fun _ log => 0 <= ordered log <= asked requests_list)
           (fun log => 0 <= ordered log <= asked requests_list).
Proof.
  induction requests_list as [|req rest IH]; intros all_success;
    cbn [AioHttp.requests_loop].
  - apply covers_Ret. change (ordered []) with 0. change (asked []) with 0. lia.
  - change (asked (req :: rest)) with (Z.max 0 (Quantity req) + asked rest).
    pose proof (asked_nonneg rest) as Hrest.
    eapply covers_bind.
    + eapply covers_weaken; [apply aio_request_covers| |].
      * intros a l H. exact H.
      * intros l H. cbv beta in H. lia.
    + intros o l1 Hl1. cbv beta in Hl1.
      eapply covers_weaken; [apply IH| |].
      * intros b l2 Hl2. cbv beta in *. rewrite ordered_app. lia.
      * intros l2 Hl2. cbv beta in *. rewrite ordered_app. lia.
Qed.

(** X21. A call of [aioHttp.py] never orders more than it asks for, in any
    world: whatever the other coroutines do to the cache and whether the
    call returns or raises on the way, the quantities of the orders it has
    posted add up to at most the sum of the positive quantities of its
    requests.  The stale snapshot can send units a city no longer has, but
    never more than were asked for. *)
Theorem aio_call_orders_within_asked (cl : call) (w : world) (n : nat) (c : cache) :
  0 <= ordered (posted (trace
         (run w n (AioHttp.process_multi_service_emergency_shared ld cl) c)))
    <= asked (call_requests cl).
Proof.
  pose proof (asked_nonneg (call_requests cl)) as Hasked.
  unfold AioHttp.process_multi_service_emergency_shared.
  destruct (known_target ld cl) as [[t tgt]|];
    [|change (ordered (posted (trace (run w n (Ret false) c)))) with 0; lia].
  destruct (call_requests cl) as [|req rest] eqn:Hl;
    [change (ordered (posted (trace (run w n (Ret false) c)))) with 0; lia|].
  pose proof (aio_requests_cover t (coord_of tgt) (req :: rest) true w n c) as H.
  destruct (returned (run w n _ c)); exact H.
Qed.

End AioHttpOrders.

Lemma aio3_counts_stay_within_witness :
  let r := event_loop accepting [0; 1; 0; 1]%nat
             (map (AioHttp3.process_multi_service_emergency_shared towns)
                  [medical 4; medical 4]) five_at_A in
  (exists v, count_at (snd (fst r)) "Medical" "A" = Some v /\ 0 <= v <= 5) /\
  (forall i b a, In (i, EvLocked b a) (snd r) ->
     (exists v, count_at b "Medical" "A" = Some v /\ 0 <= v <= 5) /\
     (exists v, count_at a "Medical" "A" = Some v /\ 0 <= v <= 5)).
Proof.
  apply (@aio3_counts_stay_within Z _ towns [medical 4; medical 4] accepting
           [0; 1; 0; 1]%nat five_at_A "Medical" "A" 5).
  - reflexivity.
  - lia.
Defined.

(** ** The loader of [vector_simulation.py] against the other four *)

Section VectorLoader.
Context {F : Type} {truth : PyFloatTruth F}.

Lemma entry_of_location (r : location_record F) city l :
  location_of r = inr (city, l) ->
  VectorDirectory.entry_of r = Some (VectorDirectory.of_location (city, l)).
Proof.
  unfold location_of, VectorDirectory.entry_of, VectorDirectory.of_location.
  destruct (str_or (rec_city r) (rec_name r)) as [c|]; [|discriminate].
  destruct (String.eqb c ""); [discriminate|].
  destruct (float_or (rec_latitude r) (rec_lat r)); [|discriminate].
  destruct (float_or (rec_longitude r) (rec_long r)); [|discriminate].
  now intros [= <- <-].
Qed.

Lemma set_of_location (locations : location_details F) city l :
  VectorDirectory.set (map VectorDirectory.of_location locations) (Some city)
    {| VectorDirectory.entry_county := county l;
       VectorDirectory.entry_city := Some (loc_city l);
       VectorDirectory.entry_latitude := latitude l;
       VectorDirectory.entry_longitude := longitude l |}
  = map VectorDirectory.of_location (set locations city l).
Proof.
  induction locations as [|[k v] locations IH]; simpl; [reflexivity|].
  destruct (String.eqb city k) eqn:E; simpl; [reflexivity|].
  now rewrite IH.
Qed.

Lemma vector_load_follows (data : list (location_record F)) :
  forall acc ld,
    load_locations data acc = inr ld ->
    fold_left (fun locations r =>
                 match VectorDirectory.entry_of r with
                 | Some (k, v) => VectorDirectory.set locations k v
                 | None => locations
                 end) data (map VectorDirectory.of_location acc)
    = map VectorDirectory.of_location ld.
Proof.
  induction data as [|r data IH]; intros acc ld; simpl.
  - now intros [= <-].
  - destruct (location_of r) as [e|[city l]] eqn:Hr; [discriminate|].
    rewrite (entry_of_location _ Hr).
    unfold VectorDirectory.of_location at 1. cbn [fst snd].
    rewrite set_of_location. apply IH.
Qed.

(** X23. The loader of [vector_simulation.py], which raises nothing and
    skips what it cannot read, builds the index the loaders of the other
    four programs build whenever those return one: the same cities in the
    same order, each with the same county, name and coordinates. *)
Theorem vector_loader_agrees (data : option (list (location_record F)))
    (ld : location_details F) :
  get_location_details data = inr ld ->
  VectorDirectory.get_location_details data
  = map VectorDirectory.of_location ld.
Proof.
  intros H. destruct (directory_shape _ H) as (records & -> & _ & Hload).
  unfold VectorDirectory.get_location_details.
  exact (vector_load_follows records [] Hload).
Qed.

End VectorLoader.

Lemma vector_loader_agrees_witness :
  VectorDirectory.get_location_details (Some answered)
  = map VectorDirectory.of_location loaded.
Proof.
  apply (@vector_loader_agrees Z grid_truth (Some answered) loaded).
  reflexivity.
Defined.
